(** * FilePTS: reading and writing point clouds in the PTS text format

    A shallow embedding of [ReadPointCloudFromPTS] and
    [WritePointCloudToPTS] of
    [cpp/open3d/t/io/file_format/FilePTS.cpp], together with the parts of
    the C library and of Open3D the two functions call, and the
    properties the specification states about them.

    Layout of the development:
    - [Libc]: white space, the decimal conversions of [sscanf] and
      [fprintf]; the conversions of [double] and the success of an
      allocation are an interface ([Stdio]);
    - [Helper], [FileSystem]: [SplitString] and [CFile];
    - [Core], [Geometry]: [Tensor] and [PointCloud];
    - [FilePTS]: the reader and the writer;
    - [Decimal]: an instance of [Stdio] on decimal fixed-point numbers;
    - the notions the statements use, and sample files and clouds;
    - facts about the C library, the reader and the writer;
    - the properties of the specification, C1 to C10.

    What is left out of the model: the progress reporter, which only
    observes the row index, and the storage of the lines and tokens
    (only the allocation of a tensor can fail).  The integer types are
    those of an LP64 platform: [int] has 32 bits, [long], [int64_t] and
    [size_t] have 64. *)

From Stdlib Require Import ZArith NArith String Ascii Lia.
From stdpp Require Import base option list gmap strings.

Local Open Scope string_scope.
Local Open Scope list_scope.

(** ** The C library *)

Module Libc.

(** [isspace] in the "C" locale: space, and the controls [\t \n \v \f \r]. *)
Definition isspace (c : ascii) : bool :=
  let n := N_of_ascii c in
  ((n =? 32) || ((9 <=? n) && (n <=? 13)))%N.

(** White space skipped in front of a numeric conversion. *)
Fixpoint skip_space (s : string) : string :=
  match s with
  | String c s' => if isspace c then skip_space s' else s
  | EmptyString => s
  end.

Definition digit_value (c : ascii) : option N :=
  let n := N_of_ascii c in
  if ((48 <=? n) && (n <=? 57))%N then Some (n - 48)%N else None.

Definition digit_char (d : N) : ascii := ascii_of_N (48 + d).

(** The longest run of decimal digits in front of [s]: its value on top of
    the accumulator, the number of digits read, and the unread rest. *)
Fixpoint scan_digits (s : string) (acc : N) (cnt : nat) : N * nat * string :=
  match s with
  | String c s' =>
      match digit_value c with
      | Some d => scan_digits s' (10 * acc + d)%N (S cnt)
      | None => (acc, cnt, s)
      end
  | EmptyString => (acc, cnt, s)
  end.

(** An optional sign; [true] for [-]. *)
Definition scan_sign (s : string) : bool * string :=
  match s with
  | String "-"%char s' => (true, s')
  | String "+"%char s' => (false, s')
  | _ => (false, s)
  end.

Definition SIZE_MAX : N := 2 ^ 64 - 1.

Definition LONG_MAX : Z := 2 ^ 63 - 1.
Definition LONG_MIN : Z := - 2 ^ 63.
Definition INT_MAX : Z := 2 ^ 31 - 1.

(** Conversion of an integer to the signed type of [w] bits: the value
    modulo [2^w] that lies in [-2^(w-1), 2^(w-1)). *)
Definition wrap_signed (w : Z) (z : Z) : Z :=
  ((z + 2 ^ (w - 1)) mod 2 ^ w - 2 ^ (w - 1))%Z.

(** [(int)z] and [(int64_t)z]. *)
Definition to_int (z : Z) : Z := wrap_signed 32 z.
Definition to_int64 (z : Z) : Z := wrap_signed 64 z.

(** The conversion [%zu] at the first character that is not white space:
    an optionally signed run of digits, as [strtoul] reads it in base 10.
    A magnitude that does not fit [size_t] gives [SIZE_MAX], with or
    without a minus sign; otherwise a minus sign negates in [size_t]
    (["-1"] reads as [SIZE_MAX]). *)
Definition conv_zu (s : string) : option (N * string) :=
  let '(neg, s1) := scan_sign s in
  let '(v, cnt, rest) := scan_digits s1 0 0 in
  match cnt with
  | O => None
  | S _ =>
      Some (if (SIZE_MAX <? v)%N then SIZE_MAX
            else if neg then ((2 ^ 64 - v) mod 2 ^ 64)%N else v, rest)
  end.

(** The conversion [%d] into an [int]: an optionally signed run of
    digits, read as [strtol] reads it (a value outside [long] gives
    [LONG_MAX] or [LONG_MIN]) and then converted to [int]. *)
Definition conv_d (s : string) : option (Z * string) :=
  let '(neg, s1) := scan_sign s in
  let '(v, cnt, rest) := scan_digits s1 0 0 in
  match cnt with
  | O => None
  | S _ =>
      let l := if neg then Z.max (- Z.of_N v) LONG_MIN
               else Z.min (Z.of_N v) LONG_MAX in
      Some (to_int l, rest)
  end.

(** Conversion of an [int] to [uint8_t]: reduction modulo 256. *)
Definition to_uint8 (z : Z) : Z := (z mod 256)%Z.

(** The [k] least significant decimal digits of [n], in front of [tail]. *)
Fixpoint print_digits (k : nat) (n : N) (tail : string) : string :=
  match k with
  | O => tail
  | S k' => print_digits k' (n / 10) (String (digit_char (n mod 10)) tail)
  end.

(** Number of decimal digits of [n] (1 for 0); [fuel] bounds the search. *)
Fixpoint num_digits (fuel : nat) (n : N) : nat :=
  match fuel with
  | O => 1
  | S f => if (n <? 10)%N then 1 else S (num_digits f (n / 10))
  end.

(** [%zu], [%u]: decimal digits without leading zeros. *)
Definition printf_u (n : N) : string :=
  print_digits (num_digits (N.to_nat (N.size n)) n) n "".

(** [%d]. *)
Definition printf_d (z : Z) : string :=
  if (z <? 0)%Z then String "-"%char (printf_u (Z.abs_N z))
  else printf_u (Z.abs_N z).

(** The conversions of [double] are not given a definition here: the
    development is parametric in the type of doubles, in the text
    [fprintf] produces for [%.10f], and in the conversion [%lf] of
    [sscanf] applied at the first character that is not white space
    (the value read and the unread rest, or [None] when no number
    starts there).  It is parametric, too, in the storage of the
    machine: [malloc_ok n] tells whether an allocation of [n] bytes
    succeeds. *)
Class Stdio := {
  double : Type;
  printf_f10 : double -> string;
  conv_lf : string -> option (double * string);
  malloc_ok : Z -> bool
}.

Section Scanf.
Context `{Stdio}.

(** Conversion specifications the reader's formats use. *)
Inductive conv := Conv_lf | Conv_d | Conv_zu.

(** The objects [sscanf] assigns. *)
Inductive arg :=
| ArgF (x : double)
| ArgI (z : Z)
| ArgU (n : N).

Definition convert (c : conv) (s : string) : option (arg * string) :=
  match c with
  | Conv_lf => '(x, r) ← conv_lf s; Some (ArgF x, r)
  | Conv_d => '(z, r) ← conv_d s; Some (ArgI z, r)
  | Conv_zu => '(n, r) ← conv_zu s; Some (ArgU n, r)
  end.

(** [sscanf s fmt] for a format made of conversions separated by
    spaces: every conversion (and every space of the format) skips
    white space, conversions are tried in order and scanning stops at
    the first that fails.  The result lists the objects assigned; its
    length is the number [sscanf] returns when at least one conversion
    succeeded (otherwise [sscanf] returns 0 or [EOF], and the list is
    empty). *)
Fixpoint sscanf (s : string) (fmt : list conv) : list arg :=
  match fmt with
  | [] => []
  | c :: fmt' =>
      match convert c (skip_space s) with
      | Some (a, rest) => a :: sscanf rest fmt'
      | None => []
      end
  end.
End Scanf.

Definition CRLF : string := String (ascii_of_nat 13) (String (ascii_of_nat 10) "").

End Libc.

(** ** Open3D utilities *)

Module Helper.

(** Modelled from the spec: the parts of [utility::SplitString] (see
    below): membership in the delimiters, the push of a token, and the
    scan of the string. *)
Definition is_delimiter (delimiters : string) (c : ascii) : bool :=
  existsb (Ascii.eqb c) (list_ascii_of_string delimiters).

(** Modelled from the spec: no empty token is produced (two separators
    in a row do not make a field). *)
Definition push_token (token : string) (tokens : list string) : list string :=
  match token with
  | EmptyString => tokens
  | _ => token :: tokens
  end.

(** Modelled from the spec: the scan of [utility::SplitString], [token]
    being the characters of the current token read so far. *)
Fixpoint split_from (str delimiters token : string) : list string :=
  match str with
  | EmptyString => push_token token []
  | String c str' =>
      if is_delimiter delimiters c
      then push_token token (split_from str' delimiters "")
      else split_from str' delimiters (token +:+ String c "")
  end.

(** Modelled from the spec: [utility::SplitString] (declared in
    [open3d/utility/Helper.h], which is not among the sources).  The
    reader "splits the line ... into tokens" and calls it with the
    delimiter string [" "] ("field separator is a single space"): the
    tokens are the maximal runs of characters that are not delimiters,
    in order. *)
Definition SplitString (str delimiters : string) : list string :=
  split_from str delimiters "".

End Helper.

Module FileSystem.

(** The line feed. *)
Definition LF : ascii := ascii_of_nat 10.

(** Modelled from the spec: the lines [CFile::ReadLine] delivers from a
    text ("read next line"): each ends after its line feed, which it
    keeps; the last one may lack it. *)
Fixpoint text_lines (content : string) : list string :=
  match content with
  | EmptyString => []
  | String c content' =>
      if Ascii.eqb c LF then String c "" :: text_lines content'
      else match text_lines content' with
           | [] => [String c ""]
           | line :: lines => String c line :: lines
           end
  end.

(** Modelled from the spec: [utility::filesystem::CFile] (declared in
    [open3d/utility/FileSystem.h], which is not among the sources), the
    "line-based file I/O" with "open for read/write", "read next line"
    and "write formatted line".  A file open for reading is the list of
    the lines not read yet. *)
Definition CFile : Type := list string.

(** Modelled from the spec: [CFile::Open(filename, "r")], "open for
    read"; [None] stands for a file that cannot be opened, [Some content]
    for one that holds [content]. *)
Definition Open (file : option string) : option CFile :=
  text_lines <$> file.

(** Modelled from the spec: [CFile::ReadLine()], "read next line": the
    next line and the file after it, [None] (the null pointer) at the
    end of the file. *)
Definition ReadLine (file : CFile) : option (string * CFile) :=
  match file with
  | [] => None
  | line :: file' => Some (line, file')
  end.

End FileSystem.

Module Core.
Section Tensor.
Context `{Libc.Stdio}.

(** Modelled from the spec: [core::Dtype], the element types the reader
    and the writer use. *)
Inductive Dtype := Float64 | UInt8.

(** Modelled from the spec: [core::Tensor] (declared in
    [open3d/core/Tensor.h], which is not among the sources), the
    "typed, contiguous, pre-sized numeric storage indexable as N×3 or
    N×1".  A tensor built from a shape and an element type owns one
    cell per element, in row-major order; a cell is [None] until a
    value is stored in it (its content is indeterminate).
    [TensorEmpty] is the default-constructed [core::Tensor t;]. *)
Inductive Tensor :=
| TensorEmpty
| TensorFloat64 (shape : list Z) (data : list (option Libc.double))
| TensorUInt8 (shape : list Z) (data : list (option Z)).

(** Modelled from the spec: the number of elements of a shape. *)
Definition NumElements (shape : list Z) : Z := foldr Z.mul 1%Z shape.

(** Modelled from the spec: the size of an element in bytes. *)
Definition ByteSize (dtype : Dtype) : Z :=
  match dtype with Float64 => 8 | UInt8 => 1 end.

(** Modelled from the spec: whether storage of [bytes] bytes is
    obtained.  Sizes are counted in [int64_t]; a request beyond its
    range is never met. *)
Definition can_allocate (bytes : Z) : bool :=
  (bytes <=? Libc.LONG_MAX)%Z && Libc.malloc_ok bytes.

(** Modelled from the spec: [core::Tensor(shape, dtype)], "construct
    with (shape, element-type)"; no cell is written yet.  The
    constructor throws ([None]) when the shape has a negative
    dimension and when the storage cannot be allocated, the low-level
    errors of allocation the spec has the reader catch. *)
Definition Tensor_new (shape : list Z) (dtype : Dtype) : option Tensor :=
  if forallb (Z.leb 0) shape
     && can_allocate (NumElements shape * ByteSize dtype) then
    Some match dtype with
         | Float64 =>
             TensorFloat64 shape (replicate (Z.to_nat (NumElements shape)) None)
         | UInt8 =>
             TensorUInt8 shape (replicate (Z.to_nat (NumElements shape)) None)
         end
  else None.

(** Modelled from the spec: the shape of a tensor; the
    default-constructed tensor has no element. *)
Definition GetShape (t : Tensor) : list Z :=
  match t with
  | TensorEmpty => [0%Z]
  | TensorFloat64 shape _ | TensorUInt8 shape _ => shape
  end.

(** Modelled from the spec: [Tensor::GetLength()], "query length": the
    size of the first dimension. *)
Definition GetLength (t : Tensor) : Z :=
  match GetShape t with
  | n :: _ => n
  | [] => 0%Z
  end.

(** Modelled from the spec: [GetDataPtr<double>()[i] = x], a store
    through the "raw writable pointer".  The reader only stores below
    the number of elements it allocated ([stores_in_bounds] below);
    elsewhere the model leaves the tensor as it is. *)
Definition store_double (t : Tensor) (i : nat) (x : Libc.double) : Tensor :=
  match t with
  | TensorFloat64 shape data => TensorFloat64 shape (<[i := Some x]> data)
  | _ => t
  end.

(** Modelled from the spec: [GetDataPtr<uint8_t>()[i] = v], likewise. *)
Definition store_uint8 (t : Tensor) (i : nat) (v : Z) : Tensor :=
  match t with
  | TensorUInt8 shape data => TensorUInt8 shape (<[i := Some v]> data)
  | _ => t
  end.

(** Modelled from the spec: [t[i][j].Item<double>()], the "indexed
    element accessor" on a two-dimensional tensor.  [None] stands for
    the exception the accessor throws (wrong element type, index out of
    range, wrong rank); a cell that was never stored has no value to
    deliver and is treated alike. *)
Definition Item2_double (t : Tensor) (i j : nat) : option Libc.double :=
  match t with
  | TensorFloat64 [n; m] data =>
      if bool_decide (Z.of_nat i < n ∧ Z.of_nat j < m)%Z
      then mjoin (data !! (i * Z.to_nat m + j)%nat) else None
  | _ => None
  end.

(** Modelled from the spec: [t[i][j].Item<uint8_t>()], likewise. *)
Definition Item2_uint8 (t : Tensor) (i j : nat) : option Z :=
  match t with
  | TensorUInt8 [n; m] data =>
      if bool_decide (Z.of_nat i < n ∧ Z.of_nat j < m)%Z
      then mjoin (data !! (i * Z.to_nat m + j)%nat) else None
  | _ => None
  end.

(** Modelled from the spec: [t[i].Item<double>()]; row [i] must hold
    exactly one element. *)
Definition Item1_double (t : Tensor) (i : nat) : option Libc.double :=
  match t with
  | TensorFloat64 [n; 1%Z] data | TensorFloat64 [n] data =>
      if bool_decide (Z.of_nat i < n)%Z then mjoin (data !! i) else None
  | _ => None
  end.
End Tensor.
End Core.

Module Geometry.
Section PointCloud.
Context `{Libc.Stdio}.
Import Core.

(** Modelled from the spec: [t::geometry::PointCloud] (declared in
    [open3d/t/geometry/PointCloud.h], which is not among the sources),
    the container that "exposes get/set for point positions and named
    per-point attributes, and queries for 'has attribute X'"; the
    colors are the attribute named [colors]. *)
Record PointCloud := {
  points : Tensor;
  point_attr : gmap string Tensor
}.

(** Modelled from the spec: [Clear()], which "clears the destination
    point cloud's contents (positions and attributes)". *)
Definition Clear (pc : PointCloud) : PointCloud :=
  {| points := TensorEmpty; point_attr := ∅ |}.

(** Modelled from the spec: a tensor is an array of rows of three
    elements, the shape of the positions ("N×3 floating-point array")
    and of the colors ("N×3 unsigned-byte array"). *)
Definition rows_of_three (t : Tensor) : bool :=
  match GetShape t with
  | [_; m] => (m =? 3)%Z
  | _ => false
  end.

(** Modelled from the spec: [SetPoints(value)].  A value that is not an
    array of rows of three elements (the default-constructed tensor,
    for one) is refused with an exception ([None]). *)
Definition SetPoints (pc : PointCloud) (value : Tensor) : option PointCloud :=
  if rows_of_three value
  then Some {| points := value; point_attr := point_attr pc |}
  else None.

(** Modelled from the spec: [SetPointAttr(key, value)]. *)
Definition SetPointAttr (pc : PointCloud) (key : string) (value : Tensor)
  : PointCloud :=
  {| points := points pc; point_attr := <[key := value]> (point_attr pc) |}.

(** Modelled from the spec: [SetPointColors(value)], which "assigns the
    color array as the colors attribute"; a value that is not an array
    of rows of three elements is refused like a value of [SetPoints]. *)
Definition SetPointColors (pc : PointCloud) (value : Tensor) : option PointCloud :=
  if rows_of_three value then Some (SetPointAttr pc "colors" value) else None.

(** Modelled from the spec: [GetPoints()]. *)
Definition GetPoints (pc : PointCloud) : Tensor := points pc.

(** Modelled from the spec: [HasPointAttr(key)], the query "has
    attribute X". *)
Definition HasPointAttr (pc : PointCloud) (key : string) : bool :=
  bool_decide (is_Some (point_attr pc !! key)).

(** Modelled from the spec: [HasPointColors()]. *)
Definition HasPointColors (pc : PointCloud) : bool := HasPointAttr pc "colors".

(** Modelled from the spec: [GetPointAttr(key)]; [None] where the
    attribute is missing. *)
Definition GetPointAttr (pc : PointCloud) (key : string) : option Tensor :=
  point_attr pc !! key.

(** Modelled from the spec: [GetPointColors()]. *)
Definition GetPointColors (pc : PointCloud) : option Tensor :=
  GetPointAttr pc "colors".

(** Modelled from the spec: [IsEmpty()], true when "the input cloud has
    zero points". *)
Definition IsEmpty (pc : PointCloud) : bool :=
  bool_decide (GetLength (GetPoints pc) = 0%Z).
End PointCloud.
End Geometry.

(** ** The reader and the writer *)

Module FilePTS.
Section FilePTS.
Context `{Libc.Stdio}.
Import Libc Helper FileSystem Core Geometry.

(** The warnings the two functions log before they return [false]. *)
Inductive Warning :=
| ReadUnableToOpenFile        (* Read PTS failed: unable to open file *)
| ReadUnableToReadHeader      (* Read PTS failed: unable to read header. *)
| ReadInsufficientDataFields  (* Read PTS failed: insufficient data fields. *)
| ReadUnequalElements         (* Read PTS failed: lines have unequal elements. *)
| ReadException               (* Read PTS failed with exception *)
| WriteUnableToOpenFile       (* Write PTS failed: unable to open file *)
| WriteZeroPoints             (* Write PTS failed: point cloud has 0 points. *)
| WriteUnableToWriteFile      (* Write PTS failed: unable to write file *)
| WriteException.             (* Write PTS failed with exception *)

(** How a call ends: [Done] returns [true], [Failed w] logs [w] and
    returns [false].  [Undefined] is a run that reaches an operation to
    which C++ gives no meaning (the overflow of a signed counter):
    nothing is known of what follows, and of what the call returns. *)
Inductive Status := Done | Failed (w : Warning) | Undefined.

(** Whether the call returned [true]: not so for a call that returned
    [false], nor for an undefined run, of which no return value can be
    relied on. *)
Definition returned (s : Status) : bool :=
  match s with Done => true | Failed _ | Undefined => false end.

(** *** ReadPointCloudFromPTS *)

(** The locals the read loop updates.  The three pointers of the
    source alias the storage of the three tensors, so a store through
    a pointer is a store into the tensor. *)
Record Reading := {
  r_points : Tensor;
  r_intensities : Tensor;
  r_colors : Tensor;
  r_idx : nat;
  r_num_of_fields : Z
}.

(** The locals before the loop: default-constructed tensors, [idx = 0]
    and [num_of_fields = 0]. *)
Definition reading_init : Reading :=
  {| r_points := TensorEmpty; r_intensities := TensorEmpty;
     r_colors := TensorEmpty; r_idx := 0; r_num_of_fields := 0 |}.

(** [sscanf(line_buffer, "%lf %lf %lf %lf %d %d %d", ...) == 7] *)
Definition scan7 (line : string)
  : option (double * double * double * double * Z * Z * Z) :=
  match sscanf line [Conv_lf; Conv_lf; Conv_lf; Conv_lf; Conv_d; Conv_d; Conv_d] with
  | [ArgF x; ArgF y; ArgF z; ArgF i; ArgI r; ArgI g; ArgI b] =>
      Some (x, y, z, i, r, g, b)
  | _ => None
  end.

(** [sscanf(line_buffer, "%lf %lf %lf %lf", ...) == 4] *)
Definition scan4 (line : string) : option (double * double * double * double) :=
  match sscanf line [Conv_lf; Conv_lf; Conv_lf; Conv_lf] with
  | [ArgF x; ArgF y; ArgF z; ArgF i] => Some (x, y, z, i)
  | _ => None
  end.

(** [sscanf(line_buffer, "%lf %lf %lf", ...) == 3] *)
Definition scan3 (line : string) : option (double * double * double) :=
  match sscanf line [Conv_lf; Conv_lf; Conv_lf] with
  | [ArgF x; ArgF y; ArgF z] => Some (x, y, z)
  | _ => None
  end.

Definition store_xyz (t : Tensor) (idx : nat) (x y z : double) : Tensor :=
  store_double (store_double (store_double t (3 * idx + 0) x)
                             (3 * idx + 1) y) (3 * idx + 2) z.

Definition store_rgb (t : Tensor) (idx : nat) (r g b : Z) : Tensor :=
  store_uint8 (store_uint8 (store_uint8 t (3 * idx + 0) (to_uint8 r))
                           (3 * idx + 1) (to_uint8 g)) (3 * idx + 2) (to_uint8 b).

(** An allocation [t = core::Tensor(shape, dtype)] of the loop: the
    exception of the constructor ends the read in the handler of the
    function, which logs [ReadException]. *)
Definition allocate (shape : list Z) (dtype : Dtype) : Warning + Tensor :=
  match Tensor_new shape dtype with
  | Some t => inr t
  | None => inl ReadException
  end.

(** The first statement of the loop body, [if (num_of_fields == 0)]:
    the first data line fixes the field count and allocates the
    storage, of [(int64_t)num_of_pts] rows. *)
Definition commit_fields (num_of_pts : N) (st : list string) (s : Reading)
  : Warning + Reading :=
  if (r_num_of_fields s =? 0)%Z then
    let num_of_fields := Z.of_nat (length st) in
    let rows := to_int64 (Z.of_N num_of_pts) in
    if (num_of_fields <? 3)%Z then inl ReadInsufficientDataFields
    else
      match allocate [rows; 3%Z] Float64 with
      | inl w => inl w
      | inr points =>
          match (if (4 <=? num_of_fields)%Z then allocate [rows; 1%Z] Float64
                 else inr (r_intensities s)) with
          | inl w => inl w
          | inr intensities =>
              match (if (7 <=? num_of_fields)%Z then allocate [rows; 3%Z] UInt8
                     else inr (r_colors s)) with
              | inl w => inl w
              | inr colors =>
                  inr {| r_points := points; r_intensities := intensities;
                         r_colors := colors; r_idx := r_idx s;
                         r_num_of_fields := num_of_fields |}
              end
          end
      end
  else inr s.

(** The chain of [sscanf] attempts and the stores of the one that
    succeeds. *)
Definition parse_line (line : string) (s : Reading) : Reading :=
  let idx := r_idx s in
  let stored points intensities colors :=
    {| r_points := points; r_intensities := intensities; r_colors := colors;
       r_idx := idx; r_num_of_fields := r_num_of_fields s |} in
  match (if (7 <=? r_num_of_fields s)%Z then scan7 line else None) with
  | Some (x, y, z, i, r, g, b) =>
      stored (store_xyz (r_points s) idx x y z)
             (store_double (r_intensities s) idx i)
             (store_rgb (r_colors s) idx r g b)
  | None =>
      match (if (4 <=? r_num_of_fields s)%Z then scan4 line else None) with
      | Some (x, y, z, i) =>
          stored (store_xyz (r_points s) idx x y z)
                 (store_double (r_intensities s) idx i)
                 (r_colors s)
      | None =>
          match scan3 line with
          | Some (x, y, z) =>
              stored (store_xyz (r_points s) idx x y z)
                     (r_intensities s) (r_colors s)
          | None => s
          end
      end
  end.

Definition next_idx (s : Reading) : Reading :=
  {| r_points := r_points s; r_intensities := r_intensities s;
     r_colors := r_colors s; r_idx := S (r_idx s);
     r_num_of_fields := r_num_of_fields s |}.

(** One turn of the loop body on the line just read; [inl w] is the
    [return false] after the warning [w]. *)
Definition read_line (num_of_pts : N) (line : string) (s : Reading)
  : Warning + Reading :=
  let st := SplitString line " " in
  match commit_fields num_of_pts st s with
  | inl w => inl w
  | inr s1 =>
      if (Z.of_nat (length st) <? r_num_of_fields s1)%Z
      then inl ReadUnequalElements
      else inr (next_idx (parse_line line s1))
  end.

(** [while (idx < num_of_pts && (line_buffer = file.ReadLine()))]. *)
Fixpoint read_loop (num_of_pts : N) (file : CFile) (s : Reading)
  : Warning + Reading :=
  if (N.of_nat (r_idx s) <? num_of_pts)%N then
    match file with
    | [] => inr s
    | line :: file' =>
        match read_line num_of_pts line s with
        | inl w => inl w
        | inr s' => read_loop num_of_pts file' s'
        end
    end
  else inr s.

(** The header: [num_of_pts] stays 0 unless a line is read and [%zu]
    converts. *)
Definition read_header (file : CFile) : N * CFile :=
  match ReadLine file with
  | Some (line_buffer, file') =>
      match sscanf line_buffer [Conv_zu] with
      | [ArgU n] => (n, file')
      | _ => (0%N, file')
      end
  | None => (0%N, file)
  end.

(** What the reader sets on the cloud after the loop, and how the call
    ends: an exception of a setter leaves the cloud as it is at that
    point and ends the read in the handler. *)
Definition commit_cloud (pointcloud : PointCloud) (s : Reading)
  : Status * PointCloud :=
  match SetPoints pointcloud (r_points s) with
  | None => (Failed ReadException, pointcloud)
  | Some pc1 =>
      let pc2 :=
        if (4 <=? r_num_of_fields s)%Z
        then SetPointAttr pc1 "intensities" (r_intensities s) else pc1 in
      if (7 <=? r_num_of_fields s)%Z then
        match SetPointColors pc2 (r_colors s) with
        | None => (Failed ReadException, pc2)
        | Some pc3 => (Done, pc3)
        end
      else (Done, pc2)
  end.

(** [ReadPointCloudFromPTS(filename, pointcloud, params)]: [file] is
    what [filename] denotes, [pointcloud] the cloud passed by
    reference; the result is how the call ends and the cloud after
    it.  The exceptions of the calls in the [try] block (the
    constructor of a tensor, the setters of the cloud) end in the
    handler, which logs [ReadException] and returns [false]. *)
Definition ReadPointCloudFromPTS (file : option string) (pointcloud : PointCloud)
  : Status * PointCloud :=
  match Open file with
  | None => (Failed ReadUnableToOpenFile, pointcloud)
  | Some f =>
      let '(num_of_pts, f1) := read_header f in
      if (num_of_pts <=? 0)%N then (Failed ReadUnableToReadHeader, pointcloud)
      else
        let pointcloud := Clear pointcloud in
        match read_loop num_of_pts f1 reading_init with
        | inl w => (Failed w, pointcloud)
        | inr s => commit_cloud pointcloud s
        end
  end.

(** *** WritePointCloudToPTS *)

(** The file system the writer meets: whether [file.Open(filename, "w")]
    succeeds, and which calls of [fprintf] (numbered from 0 in the
    order they are made) return a negative value. *)
Record WriteEnv := {
  open_ok : bool;
  fprintf_fails : nat -> bool
}.

Definition SP : string := " ".

(** ["%.10f %.10f %.10f\r\n"] *)
Definition format3 (x y z : double) : string :=
  printf_f10 x +:+ SP +:+ printf_f10 y +:+ SP +:+ printf_f10 z +:+ CRLF.

(** ["%.10f %.10f %.10f %.10f\r\n"] *)
Definition format4 (x y z i : double) : string :=
  printf_f10 x +:+ SP +:+ printf_f10 y +:+ SP +:+ printf_f10 z +:+ SP
    +:+ printf_f10 i +:+ CRLF.

(** ["%.10f %.10f %.10f %.10f %d %d %d\r\n"] *)
Definition format7 (x y z i : double) (r g b : Z) : string :=
  printf_f10 x +:+ SP +:+ printf_f10 y +:+ SP +:+ printf_f10 z +:+ SP
    +:+ printf_f10 i +:+ SP +:+ printf_d r +:+ SP +:+ printf_d g +:+ SP
    +:+ printf_d b +:+ CRLF.

(** The text row [i] is formatted to; [None] when an accessor throws. *)
Definition format_row (pointcloud : PointCloud) (points colors intensities : Tensor)
    (i : nat) : option string :=
  if HasPointColors pointcloud && HasPointAttr pointcloud "intensities" then
    x ← Item2_double points i 0; y ← Item2_double points i 1;
    z ← Item2_double points i 2; v ← Item1_double intensities i;
    r ← Item2_uint8 colors i 0; g ← Item2_uint8 colors i 1;
    b ← Item2_uint8 colors i 2;
    Some (format7 x y z v r g b)
  else if HasPointAttr pointcloud "intensities" then
    x ← Item2_double points i 0; y ← Item2_double points i 1;
    z ← Item2_double points i 2; v ← Item1_double intensities i;
    Some (format4 x y z v)
  else
    x ← Item2_double points i 0; y ← Item2_double points i 1;
    z ← Item2_double points i 2;
    Some (format3 x y z).

(** [for (int i = 0; i < num_points; i++)], with [todo] rows left and
    [out] the text written so far.  The counter is an [int] where
    [num_points] is an [int64_t]: [i++] at [INT_MAX] overflows, and the
    run has no defined behaviour from there. *)
Fixpoint write_rows (env : WriteEnv) (pointcloud : PointCloud)
    (points colors intensities : Tensor) (todo i : nat) (out : string)
  : Status * string :=
  match todo with
  | O => (Done, out)
  | S todo' =>
      match format_row pointcloud points colors intensities i with
      | None => (Failed WriteException, out)
      | Some line =>
          if fprintf_fails env (S i) then (Failed WriteUnableToWriteFile, out)
          else if (Z.of_nat i =? INT_MAX)%Z then (Undefined, out +:+ line)
          else write_rows env pointcloud points colors intensities todo' (S i)
                          (out +:+ line)
      end
  end.

(** [WritePointCloudToPTS(filename, pointcloud, params)]: how the call
    ends and the text of the file after it ([None] when the file was
    not opened; a file opened for writing starts empty). *)
Definition WritePointCloudToPTS (env : WriteEnv) (pointcloud : PointCloud)
  : Status * option string :=
  if negb (open_ok env) then (Failed WriteUnableToOpenFile, None)
  else if IsEmpty pointcloud then (Failed WriteZeroPoints, Some "")
  else
    let points := GetPoints pointcloud in
    let num_points := GetLength points in
    let colors :=
      if HasPointColors pointcloud
      then default TensorEmpty (GetPointColors pointcloud) else TensorEmpty in
    let intensities :=
      if HasPointAttr pointcloud "intensities"
      then default TensorEmpty (GetPointAttr pointcloud "intensities")
      else TensorEmpty in
    if fprintf_fails env 0 then (Failed WriteUnableToWriteFile, Some "")
    else
      let '(status, out) :=
        write_rows env pointcloud points colors intensities
                   (Z.to_nat num_points) 0 (printf_u (Z.to_N num_points) +:+ CRLF) in
      (status, Some out).
End FilePTS.
End FilePTS.

(** ** An instance of the interface: decimal fixed-point numbers *)

Module Decimal.
Import Libc.

(** A number is an integer count of units of [10^-10]. *)
Definition SCALE : N := 10 ^ 10.

(** [%.10f]: sign, integer part, point, ten decimals. *)
Definition print_fixed (z : Z) : string :=
  let m := Z.abs_N z in
  let text := printf_u (m / SCALE) +:+ String "."%char (print_digits 10 (m mod SCALE) "") in
  if (z <? 0)%Z then String "-"%char text else text.

(** [%lf] on plain decimal notation: an optional sign, digits, and an
    optional point followed by digits; decimals beyond the tenth are
    dropped. *)
Definition scan_fixed (s : string) : option (Z * string) :=
  let '(neg, s1) := scan_sign s in
  let '(v, cnt, r1) := scan_digits s1 0 0 in
  match cnt with
  | O => None
  | S _ =>
      let '(f, r2) :=
        match r1 with
        | String "."%char r =>
            let '(fv, k, r') := scan_digits r 0 0 in
            ((fv * SCALE / 10 ^ N.of_nat k)%N, r')
        | _ => (0%N, r1)
        end in
      let m := Z.of_N (v * SCALE + f) in
      Some (if neg then (- m)%Z else m, r2)
  end.

(** The machine of the instance allocates up to 64 GiB at a time. *)
Definition stdio : Stdio :=
  {| double := Z; printf_f10 := print_fixed; conv_lf := scan_fixed;
     malloc_ok := fun n => (n <=? 2 ^ 36)%Z |}.

End Decimal.

(** ** Notions the statements use *)

Import Libc Helper FileSystem Core Geometry FilePTS.

(** Text that begins with a decimal digit. *)
Definition digit_first (s : string) : Prop :=
  exists d rest, (d < 10)%N /\ s = String (digit_char d) rest.

(** Text without white space, and words: such text when not empty. *)
Fixpoint no_space (s : string) : bool :=
  match s with
  | EmptyString => true
  | String c s' => negb (isspace c) && no_space s'
  end.

Definition is_word (s : string) : bool :=
  match s with
  | EmptyString => false
  | String _ _ => no_space s
  end.

(** Text without the delimiter the reader splits at. *)
Fixpoint no_blank (s : string) : bool :=
  match s with
  | EmptyString => true
  | String c s' => negb (is_delimiter " " c) && no_blank s'
  end.

(** Text without a line feed. *)
Fixpoint no_line_feed (s : string) : bool :=
  match s with
  | EmptyString => true
  | String c s' => negb (Ascii.eqb c LF) && no_line_feed s'
  end.

(** Words separated by single spaces. *)
Fixpoint join_words (ws : list string) : string :=
  match ws with
  | [] => ""
  | [w] => w
  | w :: ws' => w +:+ String " "%char (join_words ws')
  end.

(** A header line on which [%zu] finds no number: after the white space
    and an optional sign there is no digit. *)
Definition non_numeric (line : string) : Prop :=
  match snd (scan_sign (skip_space line)) with
  | EmptyString => True
  | String c _ => digit_value c = None
  end.

(** A byte, the range of a color channel. *)
Definition is_byte (v : Z) : Prop := (0 <= v < 256)%Z.

Section Statements.
Context `{Stdio}.

(** What the C library promises about [%.10f] and [%lf]: the text of a
    double is a word, and followed by white space it reads back as a
    double that is [close] to the one printed. *)
Definition printf_f10_words : Prop :=
  forall x, is_word (printf_f10 x) = true.

Definition rereads (close : double -> double -> Prop) : Prop :=
  forall x c rest, isspace c = true ->
    exists y, conv_lf (printf_f10 x +:+ String c rest) = Some (y, String c rest)
              /\ close x y.

(** The token count of a line, as the reader takes it. *)
Definition token_count (line : string) : Z :=
  Z.of_nat (length (SplitString line " ")).

(** A line passes the check of the loop when it has at least the
    committed number of tokens. *)
Definition enough_tokens (nf : Z) (line : string) : bool :=
  negb (token_count line <? nf)%Z.

(** No layout the field count [nf] admits parses the line. *)
Definition no_layout_parses (nf : Z) (line : string) : Prop :=
  ((7 <= nf)%Z -> scan7 line = None) /\
  ((4 <= nf)%Z -> scan4 line = None) /\
  scan3 line = None.

(** The cells a data line leaves in its row of the three arrays when
    the committed field count is [nf]: the values of the first layout
    that parses, and unwritten cells where no layout stores. *)
Definition xyz_cells (nf : Z) (line : string) : list (option double) :=
  match (if (7 <=? nf)%Z then scan7 line else None) with
  | Some (x, y, z, _, _, _, _) => [Some x; Some y; Some z]
  | None =>
      match (if (4 <=? nf)%Z then scan4 line else None) with
      | Some (x, y, z, _) => [Some x; Some y; Some z]
      | None =>
          match scan3 line with
          | Some (x, y, z) => [Some x; Some y; Some z]
          | None => [None; None; None]
          end
      end
  end.

Definition intensity_cells (nf : Z) (line : string) : list (option double) :=
  match (if (7 <=? nf)%Z then scan7 line else None) with
  | Some (_, _, _, i, _, _, _) => [Some i]
  | None =>
      match (if (4 <=? nf)%Z then scan4 line else None) with
      | Some (_, _, _, i) => [Some i]
      | None => [None]
      end
  end.

Definition rgb_cells (nf : Z) (line : string) : list (option Z) :=
  match (if (7 <=? nf)%Z then scan7 line else None) with
  | Some (_, _, _, _, r, g, b) =>
      [Some (to_uint8 r); Some (to_uint8 g); Some (to_uint8 b)]
  | None => [None; None; None]
  end.

(** The locals of the loop once the lines [done] were read under the
    field count [nf], for a header that declared [num_of_pts] points:
    every array has one row per declared point, the rows of the lines
    read hold their cells, the rows after them are unwritten. *)
Definition state_after (num_of_pts : N) (nf : Z) (done : list string) : Reading :=
  let n := N.to_nat num_of_pts in
  let k := length done in
  {| r_points :=
       TensorFloat64 [Z.of_N num_of_pts; 3%Z]
         (flat_map (xyz_cells nf) done ++ replicate (3 * (n - k)) None);
     r_intensities :=
       if (4 <=? nf)%Z
       then TensorFloat64 [Z.of_N num_of_pts; 1%Z]
              (flat_map (intensity_cells nf) done ++ replicate (n - k) None)
       else TensorEmpty;
     r_colors :=
       if (7 <=? nf)%Z
       then TensorUInt8 [Z.of_N num_of_pts; 3%Z]
              (flat_map (rgb_cells nf) done ++ replicate (3 * (n - k)) None)
       else TensorEmpty;
     r_idx := k;
     r_num_of_fields := nf |}.

(** The machine can allocate the arrays of [num_of_pts] rows that the
    field count [nf] selects: 3 doubles a row for the positions, a
    double for the intensities, 3 bytes for the colors. *)
Definition storage_ok (num_of_pts : N) (nf : Z) : bool :=
  can_allocate (Z.of_N num_of_pts * 3 * 8)
  && ((nf <? 4)%Z || can_allocate (Z.of_N num_of_pts * 1 * 8))
  && ((nf <? 7)%Z || can_allocate (Z.of_N num_of_pts * 3 * 1)).

(** The cloud a read leaves when it ends well with the locals [s]: the
    positions, and the attributes the field count selects, on the
    cleared cloud. *)
Definition committed (s : Reading) : PointCloud :=
  let pc1 := {| points := r_points s; point_attr := ∅ |} in
  let pc2 :=
    if (4 <=? r_num_of_fields s)%Z
    then SetPointAttr pc1 "intensities" (r_intensities s) else pc1 in
  if (7 <=? r_num_of_fields s)%Z
  then SetPointAttr pc2 "colors" (r_colors s) else pc2.

(** The data lines of a file are well formed for the reader's checks:
    the first has at least 3 tokens, the others at least as many as the
    first. *)
Definition lines_pass_checks (lines : list string) : Prop :=
  match lines with
  | [] => True
  | first :: rest =>
      (3 <= token_count first)%Z /\
      Forall (fun line => (token_count first <= token_count line)%Z) rest
  end.

(** The locals after the loop read all of [lines]. *)
Definition state_after_lines (num_of_pts : N) (lines : list string) : Reading :=
  match lines with
  | [] => reading_init
  | first :: _ => state_after num_of_pts (token_count first) lines
  end.

(** The number of cells a tensor owns, and the cells [from], ...,
    [from + count - 1] of a tensor being unwritten. *)
Definition cell_count (t : Tensor) : nat :=
  match t with
  | TensorEmpty => 0
  | TensorFloat64 _ data => length data
  | TensorUInt8 _ data => length data
  end.

Definition cells_unwritten (t : Tensor) (from count : nat) : Prop :=
  match t with
  | TensorEmpty => False
  | TensorFloat64 _ data =>
      forall k, k < count -> data !! (from + k) = Some None
  | TensorUInt8 _ data =>
      forall k, k < count -> data !! (from + k) = Some None
  end.

(** *** Clouds given by their rows *)

Definition cells3 {A} (rows : list (A * A * A)) : list (option A) :=
  flat_map (fun '(x, y, z) => [Some x; Some y; Some z]) rows.

Definition points_tensor (pts : list (double * double * double)) : Tensor :=
  TensorFloat64 [Z.of_nat (length pts); 3%Z] (cells3 pts).

Definition intensities_tensor (ints : list double) : Tensor :=
  TensorFloat64 [Z.of_nat (length ints); 1%Z] (map Some ints).

Definition colors_tensor (cols : list (Z * Z * Z)) : Tensor :=
  TensorUInt8 [Z.of_nat (length cols); 3%Z] (cells3 cols).

(** The cloud with the positions [pts] and, when given, the intensities
    [ints] and the colors [cols]. *)
Definition cloud_of (pts : list (double * double * double))
    (ints : option (list double)) (cols : option (list (Z * Z * Z))) : PointCloud :=
  let pc0 := {| points := points_tensor pts; point_attr := ∅ |} in
  let pc1 :=
    match ints with
    | Some l => SetPointAttr pc0 "intensities" (intensities_tensor l)
    | None => pc0
    end in
  match cols with
  | Some l => SetPointAttr pc1 "colors" (colors_tensor l)
  | None => pc1
  end.

(** The text of the rows of such a cloud, one line per point. *)
Fixpoint lines3 (pts : list (double * double * double)) : list string :=
  match pts with
  | (x, y, z) :: pts' => format3 x y z :: lines3 pts'
  | [] => []
  end.

Fixpoint lines4 (pts : list (double * double * double)) (ints : list double)
  : list string :=
  match pts, ints with
  | (x, y, z) :: pts', i :: ints' => format4 x y z i :: lines4 pts' ints'
  | _, _ => []
  end.

Fixpoint lines7 (pts : list (double * double * double)) (ints : list double)
    (cols : list (Z * Z * Z)) : list string :=
  match pts, ints, cols with
  | (x, y, z) :: pts', i :: ints', (r, g, b) :: cols' =>
      format7 x y z i r g b :: lines7 pts' ints' cols'
  | _, _, _ => []
  end.

Definition rows_text (pts : list (double * double * double))
    (ints : option (list double)) (cols : option (list (Z * Z * Z))) : list string :=
  match ints, cols with
  | Some vs, Some cs => lines7 pts vs cs
  | Some vs, None => lines4 pts vs
  | None, _ => lines3 pts
  end.

(** The three attribute sets the format can hold, [n] points each. *)
Definition representable (n : nat) (ints : option (list double))
    (cols : option (list (Z * Z * Z))) : Prop :=
  match ints, cols with
  | None, None => True
  | Some vs, None => length vs = n
  | Some vs, Some cs =>
      length vs = n /\ length cs = n /\
      Forall (fun '(r, g, b) => is_byte r /\ is_byte g /\ is_byte b) cs
  | None, Some _ => False
  end.

Definition close3 (close : double -> double -> Prop)
    (p q : double * double * double) : Prop :=
  close p.1.1 q.1.1 /\ close p.1.2 q.1.2 /\ close p.2 q.2.

(** A file system on which the writer meets no failure. *)
Definition io_ok (env : WriteEnv) : Prop :=
  open_ok env = true /\ forall k, fprintf_fails env k = false.

(** *** Layouts of a data line *)

Inductive Layout := XYZ | XYZI | XYZIRGB.

Definition field_count (l : Layout) : Z :=
  match l with XYZ => 3 | XYZI => 4 | XYZIRGB => 7 end%Z.

(** [line] is the text of one row in layout [l]. *)
Definition has_layout (l : Layout) (line : string) : Prop :=
  match l with
  | XYZ => exists x y z, line = format3 x y z
  | XYZI => exists x y z i, line = format4 x y z i
  | XYZIRGB => exists x y z i r g b, line = format7 x y z i r g b
  end.

(** The data lines of a written text: all lines after the header. *)
Definition data_lines (text : string) : list string := tail (text_lines text).
End Statements.

(** *** Sample files and clouds on the decimal instance *)

Module Sample.

(** A text file with the given lines, each ended by a line feed. *)
Definition unlines (lines : list string) : string :=
  foldr (fun line text => line +:+ String LF text) "" lines.

Definition no_cloud : @PointCloud Decimal.stdio :=
  {| points := TensorEmpty; point_attr := ∅ |}.

Definition disk : WriteEnv :=
  {| open_ok := true; fprintf_fails := fun _ => false |}.

(** Points (0, 0, 0) and (1, 1, 1), in units of [10^-10]. *)
Definition number : Type := @double Decimal.stdio.

Definition two_points : list (number * number * number) :=
  [(0, 0, 0); (10000000000, 10000000000, 10000000000)]%Z.

Definition three_points : list (number * number * number) :=
  [(0, 0, 0); (10000000000, 10000000000, 10000000000);
   (20000000000, 20000000000, 20000000000)]%Z.

Definition two_intensities : list number := [55000000000; 32000000000]%Z.

Definition two_colors : list (Z * Z * Z) := [(255, 0, 0); (0, 255, 0)]%Z.

End Sample.

(** *** Tokens as the specification words them *)

(** The "whitespace-separated tokens" of a line, in the words of the
    specification: the maximal runs of characters that are not white
    space.  The reader does not count these; it counts the tokens of
    [SplitString], see [token_count]. *)
Fixpoint spec_tokens_from (str token : string) : list string :=
  match str with
  | EmptyString => push_token token []
  | String c str' =>
      if isspace c then push_token token (spec_tokens_from str' "")
      else spec_tokens_from str' (token +:+ String c "")
  end.

Definition spec_whitespace_tokens (line : string) : list string :=
  spec_tokens_from line "".

(** *** Notions of the further properties *)

Section MoreStatements.
Context `{Stdio}.

(** The call number [k] of [fprintf] is the first that fails. *)
Definition fails_first_at (env : WriteEnv) (k : nat) : Prop :=
  (forall j, j < k -> fprintf_fails env j = false) /\ fprintf_fails env k = true.

(** The richest layout the field count [nf] admits parses the line. *)
Definition line_parses (nf : Z) (line : string) : Prop :=
  if (7 <=? nf)%Z then is_Some (scan7 line)
  else if (4 <=? nf)%Z then is_Some (scan4 line)
  else is_Some (scan3 line).

(** The number of fields the writer gives a cloud that was read under
    the field count [nf]. *)
Definition written_fields (nf : Z) : Z :=
  if (7 <=? nf)%Z then 7%Z else if (4 <=? nf)%Z then 4%Z else 3%Z.

(** The number of fields of the lines the writer makes for a cloud with
    the given attributes. *)
Definition row_fields (ints : option (list double))
    (cols : option (list (Z * Z * Z))) : Z :=
  match ints, cols with
  | Some _, Some _ => 7%Z
  | Some _, None => 4%Z
  | None, _ => 3%Z
  end.

(** The cloud without its colors. *)
Definition without_colors (pc : PointCloud) : PointCloud :=
  {| points := points pc; point_attr := delete "colors" (point_attr pc) |}.
End MoreStatements.

(** A file system on which the call number [k] of [fprintf] fails, and
    no other. *)
Definition disk_failing_at (k : nat) : WriteEnv :=
  {| open_ok := true; fprintf_fails := Nat.eqb k |}.

(** A cloud of [2^31] points, all at the origin. *)
Definition origin : Sample.number * Sample.number * Sample.number :=
  (0, 0, 0)%Z.

Definition huge_cloud : @PointCloud Decimal.stdio :=
  cloud_of (replicate (Z.to_nat 2147483648) origin) None None.

(** ** Facts about the C library model *)

Section LibcFacts.

Lemma string_app_cons (x : ascii) (a b : string) :
  String x a +:+ b = String x (a +:+ b).
Proof. reflexivity. Qed.

Lemma string_app_nil_l (a : string) : "" +:+ a = a.
Proof. reflexivity. Qed.

Lemma string_app_assoc (a b c : string) : (a +:+ b) +:+ c = a +:+ (b +:+ c).
Proof.
  induction a as [|x a IH]; [reflexivity|].
  rewrite !string_app_cons. f_equal. exact IH.
Qed.

Lemma string_app_nil_r (a : string) : a +:+ "" = a.
Proof.
  induction a as [|x a IH]; [reflexivity|].
  rewrite string_app_cons. f_equal. exact IH.
Qed.

Lemma digit_value_char d : (d < 10)%N -> digit_value (digit_char d) = Some d.
Proof.
  intros Hd. unfold digit_value, digit_char.
  rewrite N_ascii_embedding by lia.
  destruct (N.leb_spec 48 (48 + d)); [|lia].
  destruct (N.leb_spec (48 + d) 57); [|lia].
  simpl. f_equal. lia.
Qed.

Lemma isspace_not_digit c : isspace c = true -> digit_value c = None.
Proof.
  unfold isspace, digit_value. intros Hs.
  destruct (N.leb_spec 48 (N_of_ascii c)); [|reflexivity].
  destruct (N.leb_spec (N_of_ascii c) 57); [|reflexivity].
  exfalso.
  destruct (N.eqb_spec (N_of_ascii c) 32); [lia|].
  destruct (N.leb_spec 9 (N_of_ascii c)); [|discriminate].
  destruct (N.leb_spec (N_of_ascii c) 13); [lia|discriminate].
Qed.

Lemma digit_char_not_space d : (d < 10)%N -> isspace (digit_char d) = false.
Proof.
  intros Hd. destruct (isspace (digit_char d)) eqn:E; [|reflexivity].
  apply isspace_not_digit in E. rewrite digit_value_char in E by assumption.
  discriminate.
Qed.

Lemma scan_digits_stop c rest acc cnt :
  digit_value c = None ->
  scan_digits (String c rest) acc cnt = (acc, cnt, String c rest).
Proof. intros Hc. simpl. now rewrite Hc. Qed.

Lemma print_digits_app k n tail s :
  print_digits k n tail +:+ s = print_digits k n (tail +:+ s).
Proof.
  revert n tail. induction k as [|k IH]; intros n tail; simpl; [reflexivity|].
  now rewrite IH.
Qed.

(** Scanning the digits just printed adds their value to the
    accumulator. *)
Lemma scan_print_digits k n tail acc cnt :
  scan_digits (print_digits k n tail) acc cnt
  = scan_digits tail (acc * 10 ^ N.of_nat k + n mod 10 ^ N.of_nat k)%N (cnt + k).
Proof.
  revert n tail. induction k as [|k IH]; intros n tail.
  - simpl. rewrite N.mod_1_r. f_equal; lia.
  - cbn [print_digits]. rewrite IH. cbn [scan_digits].
    rewrite digit_value_char by (apply N.mod_lt; lia).
    f_equal; [|lia].
    rewrite Nat2N.inj_succ, N.pow_succ_r'.
    rewrite (N.Div0.mod_mul_r n 10 (10 ^ N.of_nat k)). lia.
Qed.

Lemma num_digits_pos fuel n : 1 <= num_digits fuel n.
Proof. destruct fuel; simpl; [lia|]. destruct (n <? 10)%N; lia. Qed.

Lemma num_digits_bound fuel n :
  (n < 2 ^ N.of_nat fuel)%N -> (n < 10 ^ N.of_nat (num_digits fuel n))%N.
Proof.
  revert n. induction fuel as [|fuel IH]; intros n Hn.
  - simpl in *. lia.
  - cbn [num_digits]. destruct (N.ltb_spec n 10) as [Hlt | Hge].
    + simpl. lia.
    + rewrite Nat2N.inj_succ, N.pow_succ_r' in *.
      assert (n / 10 < 2 ^ N.of_nat fuel)%N as Hd.
      { apply N.Div0.div_lt_upper_bound. lia. }
      specialize (IH _ Hd).
      pose proof (N.Div0.div_mod n 10) as Hdm.
      pose proof (N.mod_lt n 10 ltac:(lia)). lia.
Qed.

Lemma printf_u_bound n :
  (n < 10 ^ N.of_nat (num_digits (N.to_nat (N.size n)) n))%N.
Proof.
  apply num_digits_bound. rewrite N2Nat.id. apply N.size_gt.
Qed.

(** [%u] followed by a character that is no digit reads back as the
    number printed. *)
Lemma scan_printf_u n c rest :
  digit_value c = None ->
  exists cnt, scan_digits (printf_u n +:+ String c rest) 0 0
              = (n, S cnt, String c rest).
Proof.
  intros Hc. unfold printf_u. rewrite print_digits_app, scan_print_digits.
  rewrite string_app_nil_l, scan_digits_stop by assumption.
  pose proof (num_digits_pos (N.to_nat (N.size n)) n) as Hp.
  destruct (num_digits _ n) as [|k] eqn:Ek; [lia|].
  exists k. rewrite <- Ek, N.mod_small by (apply printf_u_bound).
  rewrite Ek, N.mul_0_l, N.add_0_l. reflexivity.
Qed.

Lemma print_digits_digit_first k n tail :
  digit_first (print_digits (S k) n tail).
Proof.
  revert n tail. induction k as [|k IH]; intros n tail.
  - exists (n mod 10)%N, tail. split; [apply N.mod_lt; lia | reflexivity].
  - change (print_digits (S (S k)) n tail)
      with (print_digits (S k) (n / 10) (String (digit_char (n mod 10)) tail)).
    apply IH.
Qed.

Lemma printf_u_digit_first n s : digit_first (printf_u n +:+ s).
Proof.
  unfold printf_u. rewrite print_digits_app.
  pose proof (num_digits_pos (N.to_nat (N.size n)) n) as Hp.
  destruct (num_digits _ n) as [|k]; [lia|]. apply print_digits_digit_first.
Qed.

Lemma digit_char_cases d :
  (d < 10)%N ->
  digit_char d <> "-"%char /\ digit_char d <> "+"%char /\ digit_char d <> "."%char.
Proof.
  intros Hd.
  assert (d = 0 \/ d = 1 \/ d = 2 \/ d = 3 \/ d = 4 \/ d = 5 \/ d = 6 \/ d = 7
          \/ d = 8 \/ d = 9)%N as Hc by lia.
  repeat (destruct Hc as [-> | Hc]); try subst d; repeat split; discriminate.
Qed.

Lemma scan_sign_digit_first s : digit_first s -> scan_sign s = (false, s).
Proof.
  intros (d & rest & Hd & ->).
  destruct (digit_char_cases d Hd) as (Hm & Hp & _).
  unfold scan_sign.
  destruct (digit_char d) as [[] [] [] [] [] [] [] []]; try reflexivity;
    congruence.
Qed.
End LibcFacts.

(** ** Words, fields and lines *)

Section Words.

Lemma skip_space_word w s : is_word w = true -> skip_space (w +:+ s) = w +:+ s.
Proof.
  destruct w as [|c w]; [discriminate|]. simpl. intros Hw.
  apply andb_true_iff in Hw as [Hc _].
  rewrite string_app_cons. simpl.
  destruct (isspace c); [discriminate | reflexivity].
Qed.

Lemma space_is_delimiter c :
  is_delimiter " " c = true -> isspace c = true.
Proof.
  unfold is_delimiter. simpl. rewrite orb_false_r.
  intros Hc. apply Ascii.eqb_eq in Hc. subst c. reflexivity.
Qed.

Lemma no_space_no_blank s : no_space s = true -> no_blank s = true.
Proof.
  induction s as [|c s IH]; [reflexivity|]. simpl.
  intros Hs. apply andb_true_iff in Hs as [Hc Hs]. rewrite IH by assumption.
  destruct (is_delimiter " " c) eqn:Ed; [|reflexivity].
  apply space_is_delimiter in Ed. rewrite Ed in Hc. discriminate.
Qed.

Lemma split_from_no_blank t s token :
  no_blank t = true ->
  split_from (t +:+ s) " " token = split_from s " " (token +:+ t).
Proof.
  revert token. induction t as [|c t IH]; intros token Ht.
  - now rewrite string_app_nil_l, string_app_nil_r.
  - simpl in Ht. apply andb_true_iff in Ht as [Hc Ht].
    rewrite string_app_cons. cbn [split_from].
    destruct (is_delimiter " " c); [discriminate|].
    rewrite IH by assumption. f_equal.
    now rewrite string_app_assoc.
Qed.

Lemma split_from_space s token :
  split_from (String " "%char s) " " token
  = push_token token (split_from s " " "").
Proof. reflexivity. Qed.

Lemma push_token_word w tokens :
  is_word w = true -> push_token w tokens = w :: tokens.
Proof. destruct w; [discriminate | reflexivity]. Qed.

Lemma is_word_no_space w : is_word w = true -> no_space w = true.
Proof. destruct w; [discriminate | intros Hw; exact Hw]. Qed.

Lemma is_word_app w s : is_word w = true -> exists c r, w +:+ s = String c r.
Proof. destruct w as [|c w]; [discriminate|]. intros _. now exists c, (w +:+ s). Qed.

(** A line of words ends with the line terminator attached to its
    last word: it has as many tokens as words. *)
Lemma split_words_crlf w ws :
  Forall (fun w => is_word w = true) (w :: ws) ->
  length (split_from (join_words (w :: ws) +:+ CRLF) " " "") = S (length ws).
Proof.
  revert w. induction ws as [|w' ws IH]; intros w Hw.
  - apply Forall_cons in Hw as [Hw _].
    cbn [join_words]. rewrite split_from_no_blank by now apply no_space_no_blank, is_word_no_space.
    rewrite string_app_nil_l. change CRLF with (CRLF +:+ "").
    rewrite split_from_no_blank by reflexivity. cbn [split_from].
    destruct (is_word_app w CRLF Hw) as (c & r & ->). reflexivity.
  - apply Forall_cons in Hw as [Hw Hws].
    change (join_words (w :: w' :: ws))
      with (w +:+ String " "%char (join_words (w' :: ws))).
    rewrite string_app_assoc, string_app_cons.
    rewrite split_from_no_blank by now apply no_space_no_blank, is_word_no_space.
    rewrite split_from_space, string_app_nil_l, push_token_word by assumption.
    cbn [length]. f_equal. now apply IH.
Qed.

Lemma token_count_words ws :
  ws <> [] -> Forall (fun w => is_word w = true) ws ->
  Z.of_nat (length (SplitString (join_words ws +:+ CRLF) " "))
  = Z.of_nat (length ws).
Proof.
  intros Hne Hw. destruct ws as [|w ws]; [congruence|].
  unfold SplitString. now rewrite split_words_crlf.
Qed.

Lemma no_space_no_line_feed s : no_space s = true -> no_line_feed s = true.
Proof.
  induction s as [|c s IH]; [reflexivity|]. simpl.
  intros Hs. apply andb_true_iff in Hs as [Hc Hs]. rewrite IH by assumption.
  destruct (Ascii.eqb_spec c LF) as [-> | _]; [discriminate | reflexivity].
Qed.

Lemma join_words_no_line_feed ws :
  Forall (fun w => is_word w = true) ws -> no_line_feed (join_words ws) = true.
Proof.
  assert (forall a b, no_line_feed a = true -> no_line_feed b = true ->
                      no_line_feed (a +:+ b) = true) as Happ.
  { induction a as [|c a IH]; intros b Ha Hb; [exact Hb|].
    rewrite string_app_cons. simpl in *.
    apply andb_true_iff in Ha as [-> Ha]. now apply IH. }
  induction ws as [|w ws IH]; intros Hw; [reflexivity|].
  apply Forall_cons in Hw as [Hw Hws].
  destruct ws as [|w' ws].
  - now apply no_space_no_line_feed, is_word_no_space.
  - change (join_words (w :: w' :: ws))
      with (w +:+ String " "%char (join_words (w' :: ws))).
    apply Happ; [now apply no_space_no_line_feed, is_word_no_space|].
    simpl. apply IH, Hws.
Qed.

(** [ReadLine] delivers a line up to its line feed. *)
Lemma text_lines_crlf body rest :
  no_line_feed body = true ->
  text_lines ((body +:+ CRLF) +:+ rest) = (body +:+ CRLF) :: text_lines rest.
Proof.
  induction body as [|c body IH]; intros Hb.
  - reflexivity.
  - simpl in Hb. apply andb_true_iff in Hb as [Hc Hb].
    rewrite !string_app_cons. cbn [text_lines].
    destruct (Ascii.eqb c LF); [discriminate|].
    now rewrite IH.
Qed.
End Words.

(** ** What the reader stores, line by line *)

Section ReaderFacts.
Context `{Stdio}.

Lemma xyz_cells_length nf line : length (xyz_cells nf line) = 3.
Proof.
  unfold xyz_cells.
  repeat match goal with
         | |- context [match ?e with _ => _ end] => destruct e
         end; reflexivity.
Qed.

Lemma intensity_cells_length nf line : length (intensity_cells nf line) = 1.
Proof.
  unfold intensity_cells.
  repeat match goal with
         | |- context [match ?e with _ => _ end] => destruct e
         end; reflexivity.
Qed.

Lemma rgb_cells_length nf line : length (rgb_cells nf line) = 3.
Proof.
  unfold rgb_cells.
  repeat match goal with
         | |- context [match ?e with _ => _ end] => destruct e
         end; reflexivity.
Qed.

Lemma flat_map_length_const {A B} (f : A -> list B) (c : nat) (l : list A) :
  (forall a, length (f a) = c) -> length (flat_map f l) = c * length l.
Proof.
  intros Hf. induction l as [|a l IH]; simpl; [lia|].
  rewrite length_app, Hf, IH. lia.
Qed.

(** Storing a row of three cells right after the rows already filled. *)
Lemma store_row3 {A} (filled : list (option A)) (k n : nat) (x y z : A) :
  length filled = 3 * k -> k < n ->
  <[3 * k + 2 := Some z]> (<[3 * k + 1 := Some y]> (<[3 * k + 0 := Some x]>
      (filled ++ replicate (3 * (n - k)) None)))
  = (filled ++ [Some x; Some y; Some z]) ++ replicate (3 * (n - S k)) None.
Proof.
  intros Hlen Hk.
  replace (3 * (n - k)) with (S (S (S (3 * (n - S k))))) by lia.
  rewrite !(insert_app_r_alt filled) by lia.
  replace (3 * k + 0 - length filled) with 0 by lia.
  replace (3 * k + 1 - length filled) with 1 by lia.
  replace (3 * k + 2 - length filled) with 2 by lia.
  simpl. rewrite <- app_assoc. reflexivity.
Qed.

Lemma store_row1 {A} (filled : list (option A)) (k n : nat) (x : A) :
  length filled = k -> k < n ->
  <[k := Some x]> (filled ++ replicate (n - k) None)
  = (filled ++ [Some x]) ++ replicate (n - S k) None.
Proof.
  intros Hlen Hk.
  replace (n - k) with (S (n - S k)) by lia.
  rewrite insert_app_r_alt by lia.
  replace (k - length filled) with 0 by lia.
  simpl. rewrite <- app_assoc. reflexivity.
Qed.

Lemma skip_row3 {A} (filled : list (option A)) (k n : nat) :
  k < n ->
  filled ++ replicate (3 * (n - k)) None
  = (filled ++ [None; None; None]) ++ replicate (3 * (n - S k)) None.
Proof.
  intros Hk. replace (3 * (n - k)) with (S (S (S (3 * (n - S k))))) by lia.
  simpl. rewrite <- app_assoc. reflexivity.
Qed.

Lemma skip_row1 {A} (filled : list (option A)) (k n : nat) :
  k < n ->
  filled ++ replicate (n - k) None
  = (filled ++ [None]) ++ replicate (n - S k) None.
Proof.
  intros Hk. replace (n - k) with (S (n - S k)) by lia.
  simpl. rewrite <- app_assoc. reflexivity.
Qed.

(** The cast [(int64_t)num_of_pts] keeps a count below [2^63] and
    makes a larger one negative. *)
Lemma to_int64_small (n : N) : (n < 2 ^ 63)%N -> to_int64 (Z.of_N n) = Z.of_N n.
Proof.
  intros Hn. unfold to_int64, wrap_signed.
  change (2 ^ (64 - 1))%Z with 9223372036854775808%Z.
  change (2 ^ 64)%Z with 18446744073709551616%Z.
  change (2 ^ 63)%N with 9223372036854775808%N in Hn.
  rewrite Z.mod_small by lia. lia.
Qed.

Lemma to_int64_large (n : N) :
  (2 ^ 63 <= n < 2 ^ 64)%N -> (to_int64 (Z.of_N n) < 0)%Z.
Proof.
  intros Hn. unfold to_int64, wrap_signed.
  change (2 ^ (64 - 1))%Z with 9223372036854775808%Z.
  change (2 ^ 64)%Z with 18446744073709551616%Z.
  change (2 ^ 63)%N with 9223372036854775808%N in Hn.
  change (2 ^ 64)%N with 18446744073709551616%N in Hn.
  replace (Z.of_N n + 9223372036854775808)%Z
    with (Z.of_N n - 9223372036854775808 + 1 * 18446744073709551616)%Z by lia.
  rewrite Z.mod_add by lia. rewrite Z.mod_small by lia. lia.
Qed.

(** The constructor of a tensor of [rows] rows. *)
Lemma allocate_rows (rows m : Z) dtype :
  (0 <= m)%Z ->
  allocate [rows; m] dtype
  = if (0 <=? rows)%Z && can_allocate (rows * m * ByteSize dtype)
    then inr match dtype with
             | Float64 => TensorFloat64 [rows; m]
                            (replicate (Z.to_nat (rows * (m * 1))) None)
             | UInt8 => TensorUInt8 [rows; m]
                          (replicate (Z.to_nat (rows * (m * 1))) None)
             end
    else inl ReadException.
Proof.
  intros Hm. unfold allocate, Tensor_new. cbn [forallb NumElements foldr].
  replace (rows * (m * 1) * ByteSize dtype)%Z with (rows * m * ByteSize dtype)%Z
    by lia.
  destruct (Z.leb_spec 0 rows); cbn [andb]; [|reflexivity].
  destruct (Z.leb_spec 0 m); [|lia]. cbn [andb].
  destruct (can_allocate _); reflexivity.
Qed.

Lemma commit_fields_first num_of_pts st :
  (num_of_pts < 2 ^ 63)%N ->
  storage_ok num_of_pts (Z.of_nat (length st)) = true ->
  commit_fields num_of_pts st reading_init
  = if (Z.of_nat (length st) <? 3)%Z then inl ReadInsufficientDataFields
    else inr (state_after num_of_pts (Z.of_nat (length st)) []).
Proof.
  intros Hn Hs. unfold commit_fields, reading_init, state_after.
  cbn [r_num_of_fields r_intensities r_colors r_idx length].
  rewrite to_int64_small by assumption. change (0 =? 0)%Z with true. cbv iota.
  destruct (Z.of_nat (length st) <? 3)%Z eqn:E; [reflexivity|].
  rewrite !allocate_rows by lia. cbn [ByteSize].
  unfold storage_ok in Hs. apply andb_prop in Hs as [Hs H7].
  apply andb_prop in Hs as [H3 H4]. rewrite H3.
  destruct (Z.leb_spec 0 (Z.of_N num_of_pts)); [|lia]. cbn [andb].
  replace (Z.to_nat (Z.of_N num_of_pts * (3 * 1))) with (3 * (N.to_nat num_of_pts - 0)) by lia.
  replace (Z.to_nat (Z.of_N num_of_pts * (1 * 1))) with (N.to_nat num_of_pts - 0) by lia.
  cbn [flat_map app].
  destruct (Z.leb_spec 4 (Z.of_nat (length st))) as [G4|G4].
  - destruct (Z.ltb_spec (Z.of_nat (length st)) 4) as [L4|_]; [lia|].
    cbn [orb] in H4. rewrite H4.
    destruct (Z.leb_spec 7 (Z.of_nat (length st))) as [G7|G7]; [|reflexivity].
    destruct (Z.ltb_spec (Z.of_nat (length st)) 7) as [L7|_]; [lia|].
    cbn [orb] in H7. rewrite H7. reflexivity.
  - destruct (Z.leb_spec 7 (Z.of_nat (length st))) as [G7|G7]; [lia|].
    reflexivity.
Qed.

(** A count from [2^63] on, or storage that cannot be allocated, makes
    an allocation of the first data line throw. *)
Lemma commit_fields_first_fails num_of_pts st :
  (num_of_pts < 2 ^ 64)%N ->
  (2 ^ 63 <= num_of_pts)%N \/ storage_ok num_of_pts (Z.of_nat (length st)) = false ->
  commit_fields num_of_pts st reading_init
  = if (Z.of_nat (length st) <? 3)%Z then inl ReadInsufficientDataFields
    else inl ReadException.
Proof.
  intros Hb Hn. unfold commit_fields, reading_init.
  cbn [r_num_of_fields r_intensities r_colors r_idx].
  change (0 =? 0)%Z with true. cbv iota.
  destruct (Z.of_nat (length st) <? 3)%Z eqn:E; [reflexivity|].
  rewrite !allocate_rows by lia. cbn [ByteSize].
  destruct (N.lt_ge_cases num_of_pts (2 ^ 63)) as [Hlt|Hge].
  - destruct Hn as [Hn|Hn]; [lia|].
    rewrite to_int64_small by assumption.
    unfold storage_ok in Hn.
    destruct (can_allocate (Z.of_N num_of_pts * 3 * 8)) eqn:M3,
      (can_allocate (Z.of_N num_of_pts * 1 * 8)) eqn:M1,
      (can_allocate (Z.of_N num_of_pts * 3 * 1)) eqn:MC;
      destruct (0 <=? Z.of_N num_of_pts)%Z;
      destruct (Z.leb_spec 4 (Z.of_nat (length st)));
      destruct (Z.ltb_spec (Z.of_nat (length st)) 4); try lia;
      destruct (Z.leb_spec 7 (Z.of_nat (length st)));
      destruct (Z.ltb_spec (Z.of_nat (length st)) 7); try lia;
      cbn [andb orb] in *; try discriminate; reflexivity.
  - pose proof (to_int64_large num_of_pts ltac:(lia)).
    destruct (Z.leb_spec 0 (to_int64 (Z.of_N num_of_pts))); [lia | reflexivity].
Qed.

Lemma commit_fields_later num_of_pts st nf done :
  (3 <= nf)%Z ->
  commit_fields num_of_pts st (state_after num_of_pts nf done)
  = inr (state_after num_of_pts nf done).
Proof.
  intros Hnf. unfold commit_fields. simpl.
  destruct (Z.eqb_spec nf 0); [lia | reflexivity].
Qed.

(** The stores of one line extend the filled rows by the cells of the
    line. *)
Lemma parse_line_state_after num_of_pts nf done line :
  length done < N.to_nat num_of_pts ->
  next_idx (parse_line line (state_after num_of_pts nf done))
  = state_after num_of_pts nf (done ++ [line]).
Proof.
  intros Hk.
  pose proof (flat_map_length_const (xyz_cells nf) 3 done (xyz_cells_length nf)) as Lx.
  pose proof (flat_map_length_const (intensity_cells nf) 1 done
                (intensity_cells_length nf)) as Li.
  pose proof (flat_map_length_const (rgb_cells nf) 3 done (rgb_cells_length nf)) as Lc.
  unfold state_after. rewrite !flat_map_app, !length_app.
  cbn [flat_map length]. rewrite !app_nil_r.
  replace (length done + 1) with (S (length done)) by lia.
  set (Fx := flat_map (xyz_cells nf) done) in *.
  set (Fi := flat_map (intensity_cells nf) done) in *.
  set (Fc := flat_map (rgb_cells nf) done) in *.
  unfold parse_line, next_idx, xyz_cells, intensity_cells, rgb_cells,
    store_xyz, store_rgb.
  cbn -[Nat.mul Nat.sub replicate Z.leb].
  destruct (7 <=? nf)%Z eqn:E7; destruct (4 <=? nf)%Z eqn:E4; try lia;
    repeat match goal with
      | |- context [match scan7 line with _ => _ end] =>
          destruct (scan7 line) as [[[[[[[? ?] ?] ?] ?] ?] ?]|]
      | |- context [match scan4 line with _ => _ end] =>
          destruct (scan4 line) as [[[[? ?] ?] ?]|]
      | |- context [match scan3 line with _ => _ end] =>
          destruct (scan3 line) as [[[? ?] ?]|]
      end; cbn -[Nat.mul Nat.sub replicate];
    rewrite ?store_row3, ?store_row1 by lia;
    rewrite <- ?skip_row3, <- ?skip_row1 by lia; try reflexivity.
Qed.

Lemma read_line_state_after num_of_pts nf done line :
  (3 <= nf)%Z -> length done < N.to_nat num_of_pts ->
  read_line num_of_pts line (state_after num_of_pts nf done)
  = if (token_count line <? nf)%Z then inl ReadUnequalElements
    else inr (state_after num_of_pts nf (done ++ [line])).
Proof.
  intros Hnf Hk. unfold read_line.
  rewrite commit_fields_later by assumption.
  fold (token_count line).
  change (r_num_of_fields (state_after num_of_pts nf done)) with nf.
  destruct (token_count line <? nf)%Z; [reflexivity|].
  rewrite parse_line_state_after by assumption. reflexivity.
Qed.

Lemma read_line_first num_of_pts line :
  (0 < num_of_pts < 2 ^ 63)%N ->
  storage_ok num_of_pts (token_count line) = true ->
  read_line num_of_pts line reading_init
  = if (token_count line <? 3)%Z then inl ReadInsufficientDataFields
    else inr (state_after num_of_pts (token_count line) [line]).
Proof.
  intros Hn Hs. unfold read_line. rewrite commit_fields_first by (assumption || lia).
  fold (token_count line).
  destruct (token_count line <? 3)%Z; [reflexivity|].
  change (r_num_of_fields (state_after num_of_pts (token_count line) []))
    with (token_count line).
  rewrite Z.ltb_irrefl.
  rewrite parse_line_state_after by (simpl; lia). reflexivity.
Qed.

Lemma read_loop_state_after num_of_pts nf file done :
  (3 <= nf)%Z ->
  read_loop num_of_pts file (state_after num_of_pts nf done)
  = let todo := take (N.to_nat num_of_pts - length done) file in
    if forallb (enough_tokens nf) todo
    then inr (state_after num_of_pts nf (done ++ todo))
    else inl ReadUnequalElements.
Proof.
  intros Hnf. revert done.
  induction file as [|line file IH]; intros done.
  - cbn -[state_after]. rewrite take_nil, app_nil_r.
    destruct (N.of_nat _ <? num_of_pts)%N; reflexivity.
  - cbn -[state_after read_line take].
    change (r_idx (state_after num_of_pts nf done)) with (length done).
    destruct (N.ltb_spec (N.of_nat (length done)) num_of_pts) as [Hlt | Hge].
    + rewrite read_line_state_after by (assumption || lia).
      replace (N.to_nat num_of_pts - length done)
        with (S (N.to_nat num_of_pts - S (length done))) by lia.
      cbn [take forallb]. unfold enough_tokens at 1.
      destruct (token_count line <? nf)%Z; [reflexivity|].
      rewrite IH, length_app. cbn [length negb andb].
      replace (length done + 1) with (S (length done)) by lia.
      cbn zeta. rewrite <- app_assoc. reflexivity.
    + replace (N.to_nat num_of_pts - length done) with 0 by lia.
      cbn [take forallb]. rewrite app_nil_r. reflexivity.
Qed.

Lemma read_line_first_fails num_of_pts line :
  (num_of_pts < 2 ^ 64)%N ->
  (2 ^ 63 <= num_of_pts)%N \/ storage_ok num_of_pts (token_count line) = false ->
  read_line num_of_pts line reading_init
  = if (token_count line <? 3)%Z then inl ReadInsufficientDataFields
    else inl ReadException.
Proof.
  intros Hb Hn. unfold read_line. rewrite commit_fields_first_fails by assumption.
  fold (token_count line).
  destruct (token_count line <? 3)%Z; reflexivity.
Qed.

(** The count [%zu] assigns fits [size_t]. *)
Lemma sscanf_zu_bound line num_of_pts :
  sscanf line [Conv_zu] = [ArgU num_of_pts] -> (num_of_pts < 2 ^ 64)%N.
Proof.
  cbn [sscanf convert]. unfold conv_zu.
  destruct (scan_sign (skip_space line)) as [neg s1].
  destruct (scan_digits s1 0 0) as [[v cnt] rest].
  destruct cnt as [|cnt]; [discriminate|]. cbn.
  intros [= <-]. unfold SIZE_MAX.
  change (2 ^ 64)%N with 18446744073709551616%N.
  destruct (N.ltb_spec (18446744073709551616 - 1) v); [lia|].
  destruct neg; [|lia].
  apply N.mod_upper_bound. discriminate.
Qed.

(** The setters accept what the loop allocated. *)
Lemma commit_cloud_state_after pointcloud num_of_pts nf done :
  commit_cloud (Clear pointcloud) (state_after num_of_pts nf done)
  = (Done, committed (state_after num_of_pts nf done)).
Proof.
  unfold commit_cloud, committed, SetPoints, SetPointColors, state_after, Clear.
  cbn [r_points r_colors r_intensities r_num_of_fields rows_of_three GetShape
         point_attr points].
  change (3 =? 3)%Z with true. cbv iota.
  destruct (7 <=? nf)%Z, (4 <=? nf)%Z; reflexivity.
Qed.

(** The ways a read goes on once the file is open. *)
Lemma read_header_fails content pointcloud :
  fst (read_header (text_lines content)) = 0%N ->
  ReadPointCloudFromPTS (Some content) pointcloud
  = (Failed ReadUnableToReadHeader, pointcloud).
Proof.
  intros Hh. unfold ReadPointCloudFromPTS. cbn [Open fmap option_fmap option_map].
  destruct (read_header (text_lines content)) as [n f]. simpl in Hh. subst n.
  reflexivity.
Qed.

Lemma read_no_data_line content pointcloud header num_of_pts :
  text_lines content = [header] ->
  sscanf header [Conv_zu] = [ArgU num_of_pts] -> (0 < num_of_pts)%N ->
  ReadPointCloudFromPTS (Some content) pointcloud
  = (Failed ReadException, Clear pointcloud).
Proof.
  intros Hl Hs Hn. unfold ReadPointCloudFromPTS.
  cbn [Open fmap option_fmap option_map]. rewrite Hl.
  unfold read_header. cbn [ReadLine]. rewrite Hs.
  destruct (N.leb_spec num_of_pts 0); [lia|].
  cbn. destruct (N.of_nat 0 <? num_of_pts)%N; reflexivity.
Qed.

Lemma read_data_lines content pointcloud header num_of_pts first rest :
  text_lines content = header :: first :: rest ->
  sscanf header [Conv_zu] = [ArgU num_of_pts] -> (0 < num_of_pts < 2 ^ 63)%N ->
  storage_ok num_of_pts (token_count first) = true ->
  ReadPointCloudFromPTS (Some content) pointcloud
  = if (token_count first <? 3)%Z
    then (Failed ReadInsufficientDataFields, Clear pointcloud)
    else
      let later := take (N.to_nat num_of_pts - 1) rest in
      if forallb (enough_tokens (token_count first)) later
      then (Done, committed
                    (state_after num_of_pts (token_count first) (first :: later)))
      else (Failed ReadUnequalElements, Clear pointcloud).
Proof.
  intros Hl Hs Hn Hst. unfold ReadPointCloudFromPTS.
  cbn [Open fmap option_fmap option_map]. rewrite Hl.
  unfold read_header. cbn [ReadLine]. rewrite Hs.
  destruct (N.leb_spec num_of_pts 0); [lia|].
  cbn -[read_line state_after commit_cloud committed take Clear].
  destruct (N.ltb_spec (N.of_nat 0) num_of_pts); [|lia].
  rewrite read_line_first by assumption.
  destruct (Z.ltb_spec (token_count first) 3); [reflexivity|].
  rewrite read_loop_state_after by assumption.
  cbn [length app]. cbn zeta.
  destruct (forallb _ _); [|reflexivity].
  apply commit_cloud_state_after.
Qed.

(** With a count from [2^63] on, or without the storage for the arrays,
    the first data line ends the read: by its field count, or by the
    exception of the allocation. *)
Lemma read_data_lines_fails content pointcloud header num_of_pts first rest :
  text_lines content = header :: first :: rest ->
  sscanf header [Conv_zu] = [ArgU num_of_pts] -> (0 < num_of_pts)%N ->
  (2 ^ 63 <= num_of_pts)%N \/ storage_ok num_of_pts (token_count first) = false ->
  ReadPointCloudFromPTS (Some content) pointcloud
  = if (token_count first <? 3)%Z
    then (Failed ReadInsufficientDataFields, Clear pointcloud)
    else (Failed ReadException, Clear pointcloud).
Proof.
  intros Hl Hs Hpos Hn. pose proof (sscanf_zu_bound _ _ Hs) as Hb.
  unfold ReadPointCloudFromPTS.
  cbn [Open fmap option_fmap option_map]. rewrite Hl.
  unfold read_header. cbn [ReadLine]. rewrite Hs.
  destruct (N.leb_spec num_of_pts 0); [lia|].
  cbn -[read_line take Clear].
  destruct (N.ltb_spec (N.of_nat 0) num_of_pts); [|lia].
  rewrite read_line_first_fails by assumption.
  destruct (Z.ltb_spec (token_count first) 3); reflexivity.
Qed.
End ReaderFacts.

(** ** What the writer emits, row by row *)

(** The bound of the loop counter, in figures. *)
Ltac int_bounds :=
  unfold INT_MAX in *; change (2 ^ 31)%Z with 2147483648%Z in *.

Section WriterFacts.
Context `{Stdio}.

Lemma foldl_append (out : string) (lines : list string) :
  foldl String.append out lines = out +:+ foldr String.append "" lines.
Proof.
  revert out. induction lines as [|l lines IH]; intros out.
  - simpl. now rewrite string_app_nil_r.
  - cbn [foldl foldr]. rewrite IH. apply string_app_assoc.
Qed.

(** Whatever way the loop ends, the text it added is made of the rows
    formatted in order from row [i] on. *)
Lemma write_rows_inv env pc P C I todo i out st out' :
  write_rows env pc P C I todo i out = (st, out') ->
  exists lines,
    out' = foldl String.append out lines /\ length lines <= todo /\
    (st = Done -> length lines = todo) /\
    forall j line, lines !! j = Some line ->
                   format_row pc P C I (i + j) = Some line.
Proof.
  revert i out. induction todo as [|todo IH]; intros i out Hw.
  - simpl in Hw. inversion Hw; subst. exists []. repeat split; auto.
    intros j line Hj. rewrite lookup_nil in Hj. discriminate.
  - cbn [write_rows] in Hw.
    destruct (format_row pc P C I i) as [line0|] eqn:Ef.
    + destruct (fprintf_fails env (S i)).
      * inversion Hw; subst. exists []. repeat split; simpl; try lia.
        { intros; discriminate. }
        intros j line Hj. rewrite lookup_nil in Hj. discriminate.
      * destruct (Z.of_nat i =? INT_MAX)%Z.
        { inversion Hw; subst. exists [line0]. repeat split; simpl; try lia.
          { intros; discriminate. }
          intros [|j] line Hj; simpl in Hj; [|rewrite lookup_nil in Hj; discriminate].
          inversion Hj; subst. now rewrite Nat.add_0_r. }
        apply IH in Hw as (lines & -> & Hlen & Hdone & Hrows).
        exists (line0 :: lines). repeat split; simpl; try lia.
        { intros Hs. specialize (Hdone Hs). lia. }
        intros [|j] line Hj; simpl in Hj.
        -- inversion Hj; subst. now rewrite Nat.add_0_r.
        -- replace (i + S j) with (S i + j) by lia. now apply Hrows.
    + inversion Hw; subst. exists []. repeat split; simpl; try lia.
      { intros; discriminate. }
      intros j line Hj. rewrite lookup_nil in Hj. discriminate.
Qed.

Lemma write_rows_done env pc P C I lines i out :
  (forall k, fprintf_fails env k = false) ->
  (Z.of_nat (i + length lines) < 2 ^ 31)%Z ->
  (forall j line, lines !! j = Some line ->
                  format_row pc P C I (i + j) = Some line) ->
  write_rows env pc P C I (length lines) i out
  = (Done, foldl String.append out lines).
Proof.
  intros Hio. revert i out. induction lines as [|l lines IH]; intros i out Hb Hrows.
  - reflexivity.
  - cbn [length write_rows foldl]. cbn [length] in Hb.
    pose proof (Hrows 0 l eq_refl) as H0. rewrite Nat.add_0_r in H0.
    rewrite H0, Hio.
    destruct (Z.eqb_spec (Z.of_nat i) INT_MAX) as [Hi|_]; [int_bounds; lia|].
    apply IH; [lia|]. intros j line Hj.
    replace (S i + j) with (i + S j) by lia. now apply Hrows.
Qed.

(** From [2^31] rows on, a loop that meets no failure overflows its
    counter after the row [INT_MAX]. *)
Lemma write_rows_overflow env pc P C I todo i out :
  (forall k, fprintf_fails env k = false) ->
  (Z.of_nat i <= INT_MAX < Z.of_nat (i + todo))%Z ->
  (forall j, j < todo -> is_Some (format_row pc P C I (i + j))) ->
  fst (write_rows env pc P C I todo i out) = Undefined.
Proof.
  intros Hio. revert i out. induction todo as [|todo IH]; intros i out Hb Hrows.
  - lia.
  - cbn [write_rows].
    destruct (Hrows 0 ltac:(lia)) as [line Hl]. rewrite Nat.add_0_r in Hl.
    rewrite Hl, Hio.
    destruct (Z.eqb_spec (Z.of_nat i) INT_MAX) as [Hi|Hi]; [reflexivity|].
    apply IH; [lia|]. intros j Hj.
    replace (S i + j) with (i + S j) by lia. apply Hrows. lia.
Qed.

Lemma format3_words x y z :
  format3 x y z = join_words [printf_f10 x; printf_f10 y; printf_f10 z] +:+ CRLF.
Proof.
  unfold format3, SP. cbn [join_words].
  rewrite !string_app_assoc, !string_app_cons, !string_app_nil_l.
  rewrite !string_app_assoc, ?string_app_cons. reflexivity.
Qed.

Lemma format4_words x y z i :
  format4 x y z i
  = join_words [printf_f10 x; printf_f10 y; printf_f10 z; printf_f10 i] +:+ CRLF.
Proof.
  unfold format4, SP. cbn [join_words].
  rewrite !string_app_assoc, !string_app_cons, !string_app_nil_l.
  repeat (rewrite ?string_app_assoc, ?string_app_cons). reflexivity.
Qed.

Lemma format7_words x y z i r g b :
  format7 x y z i r g b
  = join_words [printf_f10 x; printf_f10 y; printf_f10 z; printf_f10 i;
                printf_d r; printf_d g; printf_d b] +:+ CRLF.
Proof.
  unfold format7, SP. cbn [join_words].
  rewrite !string_app_assoc, !string_app_cons, !string_app_nil_l.
  repeat (rewrite ?string_app_assoc, ?string_app_cons). reflexivity.
Qed.

Lemma no_space_print_digits k n tail :
  no_space (print_digits k n tail) = no_space tail.
Proof.
  revert n tail. induction k as [|k IH]; intros n tail; [reflexivity|].
  cbn [print_digits]. rewrite IH. cbn [no_space].
  rewrite digit_char_not_space by (apply N.mod_lt; lia). reflexivity.
Qed.

Lemma printf_u_word n : is_word (printf_u n) = true.
Proof.
  destruct (printf_u_digit_first n "") as (d & rest & Hd & E).
  rewrite string_app_nil_r in E.
  assert (no_space (printf_u n) = true) as Hn
    by (unfold printf_u; now rewrite no_space_print_digits).
  rewrite E in *. exact Hn.
Qed.

Lemma printf_d_word z : is_word (printf_d z) = true.
Proof.
  unfold printf_d. destruct (z <? 0)%Z; [|apply printf_u_word].
  cbn [is_word no_space]. apply is_word_no_space, printf_u_word.
Qed.

(** A row in some layout is a line of as many words as the layout has
    fields. *)
Lemma has_layout_words l line :
  printf_f10_words -> has_layout l line ->
  exists ws, line = join_words ws +:+ CRLF /\
             Forall (fun w => is_word w = true) ws /\
             Z.of_nat (length ws) = field_count l.
Proof.
  intros Hw Hl. destruct l; simpl in Hl.
  - destruct Hl as (x & y & z & ->). eexists. split; [apply format3_words|].
    split; [|reflexivity]. repeat constructor; apply Hw.
  - destruct Hl as (x & y & z & i & ->). eexists. split; [apply format4_words|].
    split; [|reflexivity]. repeat constructor; apply Hw.
  - destruct Hl as (x & y & z & i & r & g & b & ->).
    eexists. split; [apply format7_words|].
    split; [|reflexivity].
    repeat constructor; try apply Hw; apply printf_d_word.
Qed.

Lemma has_layout_token_count l line :
  printf_f10_words -> has_layout l line -> token_count line = field_count l.
Proof.
  intros Hw Hl. destruct (has_layout_words l line Hw Hl) as (ws & -> & Hws & Hn).
  unfold token_count. rewrite token_count_words; [exact Hn | | exact Hws].
  intros ->. destruct l; discriminate.
Qed.

Lemma has_layout_line l line :
  printf_f10_words -> has_layout l line ->
  exists body, line = body +:+ CRLF /\ no_line_feed body = true.
Proof.
  intros Hw Hl. destruct (has_layout_words l line Hw Hl) as (ws & -> & Hws & Hn).
  eexists. split; [reflexivity|]. now apply join_words_no_line_feed.
Qed.

(** The layout of a row follows the two queries on the cloud. *)
Lemma format_row_layout pc P C I i line :
  format_row pc P C I i = Some line ->
  has_layout
    (if HasPointColors pc && HasPointAttr pc "intensities" then XYZIRGB
     else if HasPointAttr pc "intensities" then XYZI else XYZ) line.
Proof.
  unfold format_row. intros Hf.
  destruct (HasPointColors pc && HasPointAttr pc "intensities").
  - destruct (Item2_double P i 0) as [x|]; [|discriminate].
    destruct (Item2_double P i 1) as [y|]; [|discriminate].
    destruct (Item2_double P i 2) as [z|]; [|discriminate].
    destruct (Item1_double I i) as [v|]; [|discriminate].
    destruct (Item2_uint8 C i 0) as [r|]; [|discriminate].
    destruct (Item2_uint8 C i 1) as [g|]; [|discriminate].
    destruct (Item2_uint8 C i 2) as [b|]; [|discriminate].
    simpl in Hf. inversion Hf. simpl. eauto 10.
  - destruct (HasPointAttr pc "intensities").
    + destruct (Item2_double P i 0) as [x|]; [|discriminate].
      destruct (Item2_double P i 1) as [y|]; [|discriminate].
      destruct (Item2_double P i 2) as [z|]; [|discriminate].
      destruct (Item1_double I i) as [v|]; [|discriminate].
      simpl in Hf. inversion Hf. simpl. eauto 10.
    + destruct (Item2_double P i 0) as [x|]; [|discriminate].
      destruct (Item2_double P i 1) as [y|]; [|discriminate].
      destruct (Item2_double P i 2) as [z|]; [|discriminate].
      simpl in Hf. inversion Hf. simpl. eauto 10.
Qed.

(** Lines that end in the terminator and hold no other line feed are
    the lines [ReadLine] delivers. *)
Lemma text_lines_terminated (lines : list string) (rest : string) :
  Forall (fun line => exists body, line = body +:+ CRLF /\ no_line_feed body = true)
         lines ->
  text_lines (foldr String.append rest lines) = lines ++ text_lines rest.
Proof.
  induction lines as [|l lines IH]; intros Hl; [reflexivity|].
  apply Forall_cons in Hl as [(body & -> & Hb) Hls]. cbn [foldr app].
  rewrite <- IH by assumption. now apply text_lines_crlf.
Qed.

Lemma printf_u_no_line_feed n : no_line_feed (printf_u n) = true.
Proof. apply no_space_no_line_feed, is_word_no_space, printf_u_word. Qed.

(** The text of a file the writer wrote a header and [lines] to. *)
Lemma text_lines_written n (lines : list string) :
  Forall (fun line => exists body, line = body +:+ CRLF /\ no_line_feed body = true)
         lines ->
  text_lines (foldl String.append (printf_u n +:+ CRLF) lines)
  = (printf_u n +:+ CRLF) :: lines.
Proof.
  intros Hl. rewrite foldl_append, text_lines_crlf by apply printf_u_no_line_feed.
  rewrite text_lines_terminated by assumption. simpl. now rewrite app_nil_r.
Qed.
End WriterFacts.

(** ** Reading back what was printed *)

Section ScanFacts.
Context `{Stdio}.
Variable close : double -> double -> Prop.
Hypothesis Hwords : printf_f10_words.
Hypothesis Hrereads : rereads close.

Lemma sscanf_space c s fmt :
  isspace c = true -> sscanf (String c s) fmt = sscanf s fmt.
Proof. intros Hc. destruct fmt as [|cv fmt]; simpl; [reflexivity | now rewrite Hc]. Qed.

Lemma sscanf_lf_printf x c rest :
  isspace c = true ->
  exists x', close x x' /\
    forall fmt, sscanf (printf_f10 x +:+ String c rest) (Conv_lf :: fmt)
                = ArgF x' :: sscanf (String c rest) fmt.
Proof.
  intros Hc. destruct (Hrereads x c rest Hc) as (x' & Hx & Hcl).
  exists x'. split; [exact Hcl|]. intros fmt. cbn [sscanf].
  rewrite skip_space_word by apply Hwords. unfold convert. now rewrite Hx.
Qed.

(** An [int] that is not negative converts to itself. *)
Lemma to_int_small r : (0 <= r <= 2147483647)%Z -> to_int r = r.
Proof.
  intros Hr. unfold to_int, wrap_signed.
  change (2 ^ (32 - 1))%Z with 2147483648%Z.
  change (2 ^ 32)%Z with 4294967296%Z.
  rewrite Z.mod_small by lia. lia.
Qed.

Lemma conv_d_printf r c rest :
  (0 <= r <= 2147483647)%Z -> isspace c = true ->
  conv_d (printf_d r +:+ String c rest) = Some (r, String c rest).
Proof.
  intros Hr Hc. unfold printf_d, conv_d.
  destruct (Z.ltb_spec r 0); [lia|].
  rewrite scan_sign_digit_first by apply printf_u_digit_first.
  destruct (scan_printf_u (Z.abs_N r) c rest (isspace_not_digit c Hc)) as (cnt & ->).
  f_equal. f_equal.
  rewrite Z.min_l by (unfold LONG_MAX; lia).
  rewrite to_int_small by lia. lia.
Qed.

Lemma sscanf_d_printf r c rest fmt :
  (0 <= r <= 2147483647)%Z -> isspace c = true ->
  sscanf (printf_d r +:+ String c rest) (Conv_d :: fmt)
  = ArgI r :: sscanf (String c rest) fmt.
Proof.
  intros Hr Hc. cbn [sscanf].
  rewrite skip_space_word by apply printf_d_word. unfold convert.
  now rewrite conv_d_printf.
Qed.

Lemma sscanf_zu_printf n c rest :
  (n < 2 ^ 64)%N -> isspace c = true ->
  sscanf (printf_u n +:+ String c rest) [Conv_zu] = [ArgU n].
Proof.
  intros Hn Hc. cbn [sscanf].
  rewrite skip_space_word by apply printf_u_word. unfold convert, conv_zu.
  rewrite scan_sign_digit_first by apply printf_u_digit_first.
  destruct (scan_printf_u n c rest (isspace_not_digit c Hc)) as (cnt & ->).
  cbn. unfold SIZE_MAX.
  destruct (N.ltb_spec (2 ^ 64 - 1) n); [lia | reflexivity].
Qed.

Lemma scan3_format3 x y z :
  exists x' y' z', close x x' /\ close y y' /\ close z z' /\
    scan3 (format3 x y z) = Some (x', y', z').
Proof.
  unfold scan3, format3, SP, CRLF.
  destruct (sscanf_lf_printf x " "%char
              (printf_f10 y +:+ " " +:+ printf_f10 z +:+ CRLF) eq_refl)
    as (x' & Hx & Ex).
  destruct (sscanf_lf_printf y " "%char (printf_f10 z +:+ CRLF) eq_refl)
    as (y' & Hy & Ey).
  destruct (sscanf_lf_printf z (ascii_of_nat 13) (String (ascii_of_nat 10) "")
              eq_refl) as (z' & Hz & Ez).
  exists x', y', z'. repeat split; try assumption.
  rewrite !string_app_cons, !string_app_nil_l.
  rewrite Ex, sscanf_space by reflexivity.
  rewrite Ey, sscanf_space by reflexivity.
  rewrite Ez. reflexivity.
Qed.

Lemma scan4_format4 x y z i :
  exists x' y' z' i', close x x' /\ close y y' /\ close z z' /\ close i i' /\
    scan4 (format4 x y z i) = Some (x', y', z', i').
Proof.
  unfold scan4, format4, SP, CRLF.
  destruct (sscanf_lf_printf x " "%char
              (printf_f10 y +:+ " " +:+ printf_f10 z +:+ " " +:+ printf_f10 i +:+ CRLF)
              eq_refl) as (x' & Hx & Ex).
  destruct (sscanf_lf_printf y " "%char
              (printf_f10 z +:+ " " +:+ printf_f10 i +:+ CRLF) eq_refl)
    as (y' & Hy & Ey).
  destruct (sscanf_lf_printf z " "%char (printf_f10 i +:+ CRLF) eq_refl)
    as (z' & Hz & Ez).
  destruct (sscanf_lf_printf i (ascii_of_nat 13) (String (ascii_of_nat 10) "")
              eq_refl) as (i' & Hi & Ei).
  exists x', y', z', i'. repeat split; try assumption.
  rewrite !string_app_cons, !string_app_nil_l.
  rewrite Ex, sscanf_space by reflexivity.
  rewrite Ey, sscanf_space by reflexivity.
  rewrite Ez, sscanf_space by reflexivity.
  rewrite Ei. reflexivity.
Qed.

Lemma scan7_format7 x y z i r g b :
  (0 <= r <= 2147483647)%Z -> (0 <= g <= 2147483647)%Z ->
  (0 <= b <= 2147483647)%Z ->
  exists x' y' z' i', close x x' /\ close y y' /\ close z z' /\ close i i' /\
    scan7 (format7 x y z i r g b) = Some (x', y', z', i', r, g, b).
Proof.
  intros Hr Hg Hb. unfold scan7, format7, SP, CRLF.
  destruct (sscanf_lf_printf x " "%char
              (printf_f10 y +:+ " " +:+ printf_f10 z +:+ " " +:+ printf_f10 i
               +:+ " " +:+ printf_d r +:+ " " +:+ printf_d g +:+ " "
               +:+ printf_d b +:+ CRLF) eq_refl) as (x' & Hx & Ex).
  destruct (sscanf_lf_printf y " "%char
              (printf_f10 z +:+ " " +:+ printf_f10 i
               +:+ " " +:+ printf_d r +:+ " " +:+ printf_d g +:+ " "
               +:+ printf_d b +:+ CRLF) eq_refl) as (y' & Hy & Ey).
  destruct (sscanf_lf_printf z " "%char
              (printf_f10 i +:+ " " +:+ printf_d r +:+ " " +:+ printf_d g +:+ " "
               +:+ printf_d b +:+ CRLF) eq_refl) as (z' & Hz & Ez).
  destruct (sscanf_lf_printf i " "%char
              (printf_d r +:+ " " +:+ printf_d g +:+ " " +:+ printf_d b +:+ CRLF)
              eq_refl) as (i' & Hi & Ei).
  exists x', y', z', i'. repeat split; try assumption.
  rewrite !string_app_cons, !string_app_nil_l.
  rewrite Ex, sscanf_space by reflexivity.
  rewrite Ey, sscanf_space by reflexivity.
  rewrite Ez, sscanf_space by reflexivity.
  rewrite Ei, sscanf_space by reflexivity.
  unfold CRLF. rewrite !string_app_cons, !string_app_nil_l.
  rewrite sscanf_d_printf, sscanf_space by (assumption || reflexivity).
  rewrite sscanf_d_printf, sscanf_space by (assumption || reflexivity).
  rewrite sscanf_d_printf by (assumption || reflexivity).
  reflexivity.
Qed.
End ScanFacts.

(** ** The rows of a cloud, written and read back *)

Section RowFacts.
Context `{Stdio}.
Variable close : double -> double -> Prop.
Hypothesis Hwords : printf_f10_words.
Hypothesis Hrereads : rereads close.

Lemma to_uint8_byte v : is_byte v -> to_uint8 v = v.
Proof. unfold is_byte, to_uint8. intros Hv. now apply Z.mod_small. Qed.

Lemma lines3_read pts :
  exists pts', Forall2 (close3 close) pts pts' /\
    flat_map (xyz_cells 3) (lines3 pts) = cells3 pts'.
Proof.
  induction pts as [|[[x y] z] pts (pts' & Hc & Hx)].
  - exists []. split; [constructor | reflexivity].
  - destruct (scan3_format3 close Hwords Hrereads x y z)
      as (x' & y' & z' & Cx & Cy & Cz & Es).
    exists ((x', y', z') :: pts'). split.
    + constructor; [repeat split; assumption | exact Hc].
    + cbn [lines3 flat_map cells3]. fold (cells3 pts'). rewrite Hx.
      unfold xyz_cells. simpl (7 <=? 3)%Z. simpl (4 <=? 3)%Z. cbv iota.
      now rewrite Es.
Qed.

Lemma lines4_read pts ints :
  length ints = length pts ->
  exists pts' ints', Forall2 (close3 close) pts pts' /\ Forall2 close ints ints' /\
    flat_map (xyz_cells 4) (lines4 pts ints) = cells3 pts' /\
    flat_map (intensity_cells 4) (lines4 pts ints) = map Some ints'.
Proof.
  revert ints. induction pts as [|[[x y] z] pts IH]; intros [|i ints] Hl;
    try discriminate.
  - exists [], []. repeat split; constructor.
  - destruct (IH ints) as (pts' & ints' & Hc & Hci & Hx & Hi);
      [simpl in Hl; lia|].
    destruct (scan4_format4 close Hwords Hrereads x y z i)
      as (x' & y' & z' & i' & Cx & Cy & Cz & Ci & Es).
    exists ((x', y', z') :: pts'), (i' :: ints'). split; [|split; [|split]].
    + constructor; [repeat split; assumption | exact Hc].
    + constructor; assumption.
    + cbn [lines4 flat_map cells3]. fold (cells3 pts'). rewrite Hx.
      unfold xyz_cells. simpl (7 <=? 4)%Z. simpl (4 <=? 4)%Z. cbv iota.
      now rewrite Es.
    + cbn [lines4 flat_map map]. rewrite Hi.
      unfold intensity_cells. simpl (7 <=? 4)%Z. simpl (4 <=? 4)%Z. cbv iota.
      now rewrite Es.
Qed.

Lemma lines7_read pts ints cols :
  length ints = length pts -> length cols = length pts ->
  Forall (fun '(r, g, b) => is_byte r /\ is_byte g /\ is_byte b) cols ->
  exists pts' ints', Forall2 (close3 close) pts pts' /\ Forall2 close ints ints' /\
    flat_map (xyz_cells 7) (lines7 pts ints cols) = cells3 pts' /\
    flat_map (intensity_cells 7) (lines7 pts ints cols) = map Some ints' /\
    flat_map (rgb_cells 7) (lines7 pts ints cols) = cells3 cols.
Proof.
  revert ints cols.
  induction pts as [|[[x y] z] pts IH]; intros [|i ints] [|[[r g] b] cols] Hl Hlc Hb;
    try discriminate.
  - exists [], []. repeat split; constructor.
  - apply Forall_cons in Hb as [(Br & Bg & Bb) Hb].
    destruct (IH ints cols) as (pts' & ints' & Hc & Hci & Hx & Hi & Hrgb);
      [simpl in Hl; lia | simpl in Hlc; lia | exact Hb |].
    destruct (scan7_format7 close Hwords Hrereads x y z i r g b)
      as (x' & y' & z' & i' & Cx & Cy & Cz & Ci & Es);
      [unfold is_byte in Br; lia | unfold is_byte in Bg; lia
      | unfold is_byte in Bb; lia |].
    exists ((x', y', z') :: pts'), (i' :: ints'). split; [|split; [|split; [|split]]].
    + constructor; [repeat split; assumption | exact Hc].
    + constructor; assumption.
    + cbn [lines7 flat_map cells3]. fold (cells3 pts'). rewrite Hx.
      unfold xyz_cells. simpl (7 <=? 7)%Z. cbv iota. now rewrite Es.
    + cbn [lines7 flat_map map]. rewrite Hi.
      unfold intensity_cells. simpl (7 <=? 7)%Z. cbv iota. now rewrite Es.
    + cbn [lines7 flat_map cells3]. fold (cells3 cols). rewrite Hrgb.
      unfold rgb_cells. change (7 <=? 7)%Z with true. cbv iota. rewrite Es.
      cbv beta iota.
      now rewrite !to_uint8_byte by assumption.
Qed.

Lemma lines3_layout pts : Forall (has_layout XYZ) (lines3 pts).
Proof.
  induction pts as [|[[x y] z] pts IH]; constructor; [|exact IH].
  simpl. eauto.
Qed.

Lemma lines4_layout pts ints : Forall (has_layout XYZI) (lines4 pts ints).
Proof.
  revert ints. induction pts as [|[[x y] z] pts IH]; intros [|i ints];
    try constructor; [|apply IH].
  simpl. eauto.
Qed.

Lemma lines7_layout pts ints cols : Forall (has_layout XYZIRGB) (lines7 pts ints cols).
Proof.
  revert ints cols.
  induction pts as [|[[x y] z] pts IH]; intros [|i ints] [|[[r g] b] cols];
    try constructor; [|apply IH].
  simpl. eauto 10.
Qed.

Lemma lines3_length pts : length (lines3 pts) = length pts.
Proof. induction pts as [|[[x y] z] pts IH]; simpl; [reflexivity | now rewrite IH]. Qed.

Lemma lines4_length pts ints :
  length ints = length pts -> length (lines4 pts ints) = length pts.
Proof.
  revert ints. induction pts as [|[[x y] z] pts IH]; intros [|i ints] Hl;
    try discriminate; simpl; [reflexivity|].
  rewrite IH; [reflexivity | simpl in Hl; lia].
Qed.

Lemma lines7_length pts ints cols :
  length ints = length pts -> length cols = length pts ->
  length (lines7 pts ints cols) = length pts.
Proof.
  revert ints cols.
  induction pts as [|[[x y] z] pts IH]; intros [|i ints] [|[[r g] b] cols] Hl Hc;
    try discriminate; simpl; [reflexivity|].
  rewrite IH; [reflexivity | simpl in Hl; lia | simpl in Hc; lia].
Qed.
End RowFacts.

(** ** Writing a cloud given by its rows, and reading the text back *)

Section CloudFacts.
Context `{Stdio}.

Lemma cells3_lookup {A} (rows : list (A * A * A)) i x y z :
  rows !! i = Some (x, y, z) ->
  cells3 rows !! (i * 3 + 0) = Some (Some x) /\
  cells3 rows !! (i * 3 + 1) = Some (Some y) /\
  cells3 rows !! (i * 3 + 2) = Some (Some z).
Proof.
  revert i. induction rows as [|[[a b] c] rows IH]; intros i Hi.
  - rewrite lookup_nil in Hi. discriminate.
  - destruct i as [|i]; simpl in Hi.
    + inversion Hi; subst. repeat split; reflexivity.
    + destruct (IH i Hi) as (Hx & Hy & Hz).
      replace (S i * 3 + 0) with (S (S (S (i * 3 + 0)))) by lia.
      replace (S i * 3 + 1) with (S (S (S (i * 3 + 1)))) by lia.
      replace (S i * 3 + 2) with (S (S (S (i * 3 + 2)))) by lia.
      repeat split; assumption.
Qed.

Lemma Item2_double_points pts i x y z :
  pts !! i = Some (x, y, z) ->
  Item2_double (points_tensor pts) i 0 = Some x /\
  Item2_double (points_tensor pts) i 1 = Some y /\
  Item2_double (points_tensor pts) i 2 = Some z.
Proof.
  intros Hi. pose proof (lookup_lt_Some _ _ _ Hi) as Hlt.
  destruct (cells3_lookup pts i x y z Hi) as (Hx & Hy & Hz).
  unfold Item2_double, points_tensor.
  change (Z.to_nat 3) with 3.
  rewrite !bool_decide_eq_true_2 by lia.
  rewrite Hx, Hy, Hz. repeat split; reflexivity.
Qed.

Lemma Item2_uint8_colors cols i r g b :
  cols !! i = Some (r, g, b) ->
  Item2_uint8 (colors_tensor cols) i 0 = Some r /\
  Item2_uint8 (colors_tensor cols) i 1 = Some g /\
  Item2_uint8 (colors_tensor cols) i 2 = Some b.
Proof.
  intros Hi. pose proof (lookup_lt_Some _ _ _ Hi) as Hlt.
  destruct (cells3_lookup cols i r g b Hi) as (Hx & Hy & Hz).
  unfold Item2_uint8, colors_tensor.
  change (Z.to_nat 3) with 3.
  rewrite !bool_decide_eq_true_2 by lia.
  rewrite Hx, Hy, Hz. repeat split; reflexivity.
Qed.

Lemma Item1_double_intensities ints i v :
  ints !! i = Some v -> Item1_double (intensities_tensor ints) i = Some v.
Proof.
  intros Hi. pose proof (lookup_lt_Some _ _ _ Hi) as Hlt.
  unfold Item1_double, intensities_tensor.
  rewrite bool_decide_eq_true_2 by lia.
  now rewrite list_lookup_fmap, Hi.
Qed.

Lemma lines3_lookup pts j line :
  lines3 pts !! j = Some line ->
  exists x y z, pts !! j = Some (x, y, z) /\ line = format3 x y z.
Proof.
  revert j. induction pts as [|[[x y] z] pts IH]; intros j Hj.
  - simpl in Hj. rewrite ?lookup_nil in Hj. discriminate.
  - destruct j as [|j]; simpl in Hj.
    + inversion Hj. eauto.
    + apply IH in Hj. exact Hj.
Qed.

Lemma lines4_lookup pts ints j line :
  lines4 pts ints !! j = Some line ->
  exists x y z i, pts !! j = Some (x, y, z) /\ ints !! j = Some i /\
                  line = format4 x y z i.
Proof.
  revert ints j. induction pts as [|[[x y] z] pts IH]; intros [|i ints] j Hj;
    try (simpl in Hj; rewrite ?lookup_nil in Hj; discriminate).
  destruct j as [|j]; simpl in Hj.
  - inversion Hj. eauto 10.
  - apply IH in Hj. exact Hj.
Qed.

Lemma lines7_lookup pts ints cols j line :
  lines7 pts ints cols !! j = Some line ->
  exists x y z i r g b,
    pts !! j = Some (x, y, z) /\ ints !! j = Some i /\ cols !! j = Some (r, g, b) /\
    line = format7 x y z i r g b.
Proof.
  revert ints cols j.
  induction pts as [|[[x y] z] pts IH]; intros [|i ints] [|[[r g] b] cols] j Hj;
    try (simpl in Hj; rewrite ?lookup_nil in Hj; discriminate).
  destruct j as [|j]; simpl in Hj.
  - inversion Hj. eauto 15.
  - apply IH in Hj. exact Hj.
Qed.

Lemma rows_text_length pts ints cols :
  representable (length pts) ints cols ->
  length (rows_text pts ints cols) = length pts.
Proof.
  destruct ints as [vs|], cols as [cs|]; simpl; intros Hr.
  - destruct Hr as (Hi & Hc & _). now apply lines7_length.
  - now apply lines4_length.
  - contradiction.
  - apply lines3_length.
Qed.

(** The queries of the writer on such a cloud. *)
Lemma cloud_of_queries pts ints cols :
  HasPointAttr (cloud_of pts ints cols) "intensities" = bool_decide (is_Some ints) /\
  HasPointColors (cloud_of pts ints cols) = bool_decide (is_Some cols) /\
  GetPointAttr (cloud_of pts ints cols) "intensities" = intensities_tensor <$> ints /\
  GetPointColors (cloud_of pts ints cols) = colors_tensor <$> cols /\
  GetPoints (cloud_of pts ints cols) = points_tensor pts.
Proof.
  unfold HasPointColors, GetPointColors, HasPointAttr, GetPointAttr, cloud_of,
    SetPointAttr, GetPoints.
  destruct ints as [vs|], cols as [cs|]; cbn [points point_attr fmap option_fmap option_map];
    rewrite ?lookup_insert_eq, ?lookup_insert_ne, ?lookup_insert_eq, ?lookup_empty
      by discriminate;
    repeat split; reflexivity.
Qed.

Lemma format_row_cloud pts ints cols j line :
  representable (length pts) ints cols ->
  rows_text pts ints cols !! j = Some line ->
  format_row (cloud_of pts ints cols) (points_tensor pts)
    (default TensorEmpty (colors_tensor <$> cols))
    (default TensorEmpty (intensities_tensor <$> ints)) j = Some line.
Proof.
  intros Hr Hj. unfold format_row.
  destruct (cloud_of_queries pts ints cols) as (-> & -> & _).
  destruct ints as [vs|], cols as [cs|]; simpl in Hr; try contradiction;
    cbn [rows_text] in Hj; simpl bool_decide; cbv iota;
    cbn [andb fmap option_fmap option_map from_option id].
  - apply lines7_lookup in Hj
      as (x & y & z & i & r & g & b & Hp & Hi & Hc & ->).
    destruct (Item2_double_points pts j x y z Hp) as (-> & -> & ->).
    destruct (Item2_uint8_colors cs j r g b Hc) as (-> & -> & ->).
    rewrite (Item1_double_intensities vs j i Hi). reflexivity.
  - apply lines4_lookup in Hj as (x & y & z & i & Hp & Hi & ->).
    destruct (Item2_double_points pts j x y z Hp) as (-> & -> & ->).
    rewrite (Item1_double_intensities vs j i Hi). reflexivity.
  - apply lines3_lookup in Hj as (x & y & z & Hp & ->).
    destruct (Item2_double_points pts j x y z Hp) as (-> & -> & ->).
    reflexivity.
Qed.

Lemma write_cloud env pts ints cols :
  io_ok env -> pts <> [] -> (Z.of_nat (length pts) < 2 ^ 31)%Z ->
  representable (length pts) ints cols ->
  WritePointCloudToPTS env (cloud_of pts ints cols)
  = (Done, Some (foldl String.append (printf_u (N.of_nat (length pts)) +:+ CRLF)
                       (rows_text pts ints cols))).
Proof.
  intros [Hopen Hio] Hne Hsize Hr. unfold WritePointCloudToPTS, IsEmpty.
  destruct (cloud_of_queries pts ints cols) as (-> & -> & -> & -> & ->).
  rewrite Hopen, Hio. cbn [negb].
  change (GetLength (points_tensor pts)) with (Z.of_nat (length pts)).
  rewrite bool_decide_eq_false_2 by (destruct pts; [congruence | simpl; lia]).
  rewrite Nat2Z.id, <- (rows_text_length pts ints cols Hr).
  replace (if bool_decide (is_Some cols)
           then default TensorEmpty (colors_tensor <$> cols) else TensorEmpty)
    with (default TensorEmpty (colors_tensor <$> cols))
    by (destruct cols; reflexivity).
  replace (if bool_decide (is_Some ints)
           then default TensorEmpty (intensities_tensor <$> ints) else TensorEmpty)
    with (default TensorEmpty (intensities_tensor <$> ints))
    by (destruct ints; reflexivity).
  rewrite write_rows_done.
  - now replace (Z.to_N (Z.of_nat (length (rows_text pts ints cols))))
      with (N.of_nat (length (rows_text pts ints cols))) by lia.
  - exact Hio.
  - now rewrite (rows_text_length pts ints cols Hr).
  - intros j line Hj. now apply format_row_cloud.
Qed.

(** Reading a text made of a header and of lines that all have [nf]
    tokens, as many as the header declares. *)
Lemma read_written num_of_pts lines nf pointcloud :
  (0 < num_of_pts < 2 ^ 63)%N -> storage_ok num_of_pts nf = true ->
  length lines = N.to_nat num_of_pts ->
  (3 <= nf)%Z -> Forall (fun line => token_count line = nf) lines ->
  Forall (fun line => exists body, line = body +:+ CRLF /\ no_line_feed body = true)
         lines ->
  ReadPointCloudFromPTS
    (Some (foldl String.append (printf_u num_of_pts +:+ CRLF) lines)) pointcloud
  = (Done, committed (state_after num_of_pts nf lines)).
Proof.
  intros Hn Hst Hlen Hnf Htok Hterm.
  destruct lines as [|first rest]; [simpl in Hlen; lia|].
  pose proof Htok as Htok'. apply Forall_cons in Htok' as [Hf' _].
  rewrite (read_data_lines _ pointcloud (printf_u num_of_pts +:+ CRLF)
             num_of_pts first rest).
  - apply Forall_cons in Htok as [Hf Hrest]. rewrite Hf.
    destruct (Z.ltb_spec nf 3); [lia|]. cbn zeta.
    rewrite take_ge by (simpl in Hlen; lia).
    replace (forallb (enough_tokens nf) rest) with true; [reflexivity|].
    symmetry. apply forallb_forall. intros l Hl.
    rewrite Forall_forall in Hrest. unfold enough_tokens.
    rewrite (Hrest l) by now apply list_elem_of_In.
    now rewrite Z.ltb_irrefl.
  - now apply text_lines_written.
  - apply sscanf_zu_printf; [|reflexivity].
    change (2 ^ 63)%N with 9223372036854775808%N in Hn.
    change (2 ^ 64)%N with 18446744073709551616%N. lia.
  - lia.
  - now rewrite Hf'.
Qed.
End CloudFacts.

(** ** The decimal instance keeps the promises of the C library *)

Section DecimalFacts.

Lemma no_space_app a b : no_space (a +:+ b) = no_space a && no_space b.
Proof.
  induction a as [|c a IH]; [reflexivity|].
  rewrite string_app_cons. cbn [no_space]. rewrite IH. apply andb_assoc.
Qed.

Lemma is_word_app_l a b :
  is_word a = true -> no_space b = true -> is_word (a +:+ b) = true.
Proof.
  intros Ha Hb. destruct (is_word_app a b Ha) as (c & r & E).
  assert (no_space (a +:+ b) = true) as Hn.
  { rewrite no_space_app, Hb. now rewrite (is_word_no_space a Ha). }
  rewrite E in *. exact Hn.
Qed.

Lemma print_fixed_word z : is_word (Decimal.print_fixed z) = true.
Proof.
  unfold Decimal.print_fixed.
  assert (is_word (printf_u (Z.abs_N z / Decimal.SCALE)
                   +:+ String "."%char
                         (print_digits 10 (Z.abs_N z mod Decimal.SCALE) "")) = true)
    as Hw.
  { apply is_word_app_l; [apply printf_u_word|].
    cbn [no_space]. now rewrite no_space_print_digits. }
  destruct (z <? 0)%Z; [|exact Hw].
  cbn [is_word no_space]. now rewrite (is_word_no_space _ Hw).
Qed.

Lemma decimal_words : @printf_f10_words Decimal.stdio.
Proof. intros x. apply print_fixed_word. Qed.

Lemma scan_fixed_digits m c rest :
  isspace c = true ->
  let text := (printf_u (m / Decimal.SCALE)
               +:+ String "."%char (print_digits 10 (m mod Decimal.SCALE) ""))
              +:+ String c rest in
  exists cnt, scan_digits text 0 0
              = ((m / Decimal.SCALE)%N, S cnt,
                 String "."%char (print_digits 10 (m mod Decimal.SCALE) (String c rest)))
  /\ scan_digits (print_digits 10 (m mod Decimal.SCALE) (String c rest)) 0 0
     = ((m mod Decimal.SCALE)%N, 10, String c rest).
Proof.
  intros Hc text. subst text.
  rewrite string_app_assoc, string_app_cons, print_digits_app, string_app_nil_l.
  destruct (scan_printf_u (m / Decimal.SCALE) "."%char
              (print_digits 10 (m mod Decimal.SCALE) (String c rest)) eq_refl)
    as (cnt & E).
  exists cnt. split; [exact E|].
  rewrite scan_print_digits, scan_digits_stop by now apply isspace_not_digit.
  f_equal. f_equal. rewrite N.mul_0_l, N.add_0_l.
  apply N.mod_small. apply N.mod_lt. discriminate.
Qed.

(** Ten decimals printed by [%.10f] read back exactly. *)
Lemma scan_print_fixed z c rest :
  isspace c = true ->
  Decimal.scan_fixed (Decimal.print_fixed z +:+ String c rest)
  = Some (z, String c rest).
Proof.
  intros Hc. unfold Decimal.print_fixed, Decimal.scan_fixed.
  destruct (scan_fixed_digits (Z.abs_N z) c rest Hc) as (cnt & E1 & E2).
  cbv zeta in E1.
  assert ((Z.abs_N z mod Decimal.SCALE) * Decimal.SCALE / 10 ^ N.of_nat 10
          = Z.abs_N z mod Decimal.SCALE)%N as Ef
    by (apply N.div_mul; discriminate).
  pose proof (N.Div0.div_mod (Z.abs_N z) Decimal.SCALE) as Hdm.
  destruct (Z.ltb_spec z 0) as [Hneg | Hpos].
  - rewrite string_app_cons. cbn [scan_sign]. rewrite E1, E2, Ef.
    f_equal. f_equal. lia.
  - rewrite scan_sign_digit_first.
    + rewrite E1, E2, Ef. f_equal. f_equal. lia.
    + rewrite string_app_assoc. apply printf_u_digit_first.
Qed.

Lemma decimal_rereads : @rereads Decimal.stdio eq.
Proof.
  intros x c rest Hc. exists x. split; [|reflexivity].
  now apply scan_print_fixed.
Qed.
End DecimalFacts.

(** ** Every way a read ends *)

Section ReadCases.
Context `{Stdio}.

(** A result whose first component is known. *)
Lemma result_with_status {A B} (r : A * B) (a : A) : fst r = a -> r = (a, snd r).
Proof. intros <-. now destruct r. Qed.

Lemma sscanf_zu_cases line :
  sscanf line [Conv_zu] = [] \/ exists n, sscanf line [Conv_zu] = [ArgU n].
Proof.
  cbn [sscanf convert]. destruct (conv_zu (skip_space line)) as [[n r]|]; simpl.
  - right. now exists n.
  - now left.
Qed.

Lemma non_numeric_sscanf line : non_numeric line -> sscanf line [Conv_zu] = [].
Proof.
  unfold non_numeric. intros Hn. cbn [sscanf convert]. unfold conv_zu.
  destruct (scan_sign (skip_space line)) as [neg s1]. simpl in Hn.
  destruct s1 as [|c s1]; simpl; [reflexivity|]. now rewrite Hn.
Qed.

Lemma forallb_enough_tokens nf lines :
  forallb (enough_tokens nf) lines = true
  <-> Forall (fun line => (nf <= token_count line)%Z) lines.
Proof.
  rewrite forallb_forall, Forall_forall. unfold enough_tokens.
  split; intros Hl line Hin.
  - apply list_elem_of_In in Hin. specialize (Hl line Hin).
    destruct (Z.ltb_spec (token_count line) nf); [discriminate | assumption].
  - apply list_elem_of_In in Hin. specialize (Hl line Hin).
    destruct (Z.ltb_spec (token_count line) nf); [lia | reflexivity].
Qed.

Lemma take_cons_pos {A} (n : nat) (x : A) (l : list A) :
  0 < n -> take n (x :: l) = x :: take (n - 1) l.
Proof.
  intros Hn. destruct n as [|n]; [lia|]. simpl. now rewrite Nat.sub_0_r.
Qed.

(** The count of a header, against the range of [int64_t] and the
    storage of the machine. *)
Lemma count_cases (n : N) (nf : Z) :
  ((n < 2 ^ 63)%N /\ storage_ok n nf = true) \/
  ((2 ^ 63 <= n)%N \/ storage_ok n nf = false).
Proof.
  destruct (N.lt_ge_cases n (2 ^ 63)); [|now right; left].
  destruct (storage_ok n nf); [now left | now right; right].
Qed.

(** A read that ends well read a header that declares fewer than [2^63]
    points and at least one data line; its lines pass the checks, and
    it committed the locals of the loop after them. *)
Lemma read_done_inv file pointcloud pc' :
  ReadPointCloudFromPTS file pointcloud = (Done, pc') ->
  exists content header num_of_pts lines,
    file = Some content /\ text_lines content = header :: lines /\
    sscanf header [Conv_zu] = [ArgU num_of_pts] /\ (0 < num_of_pts)%N /\
    lines_pass_checks (take (N.to_nat num_of_pts) lines) /\
    pc' = committed
            (state_after_lines num_of_pts (take (N.to_nat num_of_pts) lines)).
Proof.
  intros Hr. destruct file as [content|]; [|discriminate].
  destruct (text_lines content) as [|header lines] eqn:El.
  { rewrite read_header_fails in Hr by now rewrite El. discriminate. }
  destruct (sscanf_zu_cases header) as [Hs | [n Hs]].
  { rewrite read_header_fails in Hr; [discriminate|].
    rewrite El. unfold read_header. cbn [ReadLine]. now rewrite Hs. }
  destruct (N.eq_dec n 0%N) as [-> | Hn].
  { rewrite read_header_fails in Hr; [discriminate|].
    rewrite El. unfold read_header. cbn [ReadLine]. now rewrite Hs. }
  destruct lines as [|first rest].
  { rewrite (read_no_data_line content pointcloud header n) in Hr
      by (assumption || lia). discriminate. }
  destruct (count_cases n (token_count first)) as [[Hb Hst] | Hb].
  2:{ rewrite (read_data_lines_fails content pointcloud header n first rest) in Hr
        by (assumption || lia).
      destruct (token_count first <? 3)%Z; discriminate. }
  rewrite (read_data_lines content pointcloud header n first rest) in Hr
    by (assumption || lia).
  exists content, header, n, (first :: rest).
  rewrite take_cons_pos by lia.
  destruct (Z.ltb_spec (token_count first) 3); [discriminate|].
  cbn zeta in Hr.
  destruct (forallb _ _) eqn:Ef; [|discriminate].
  repeat split; try assumption; try lia.
  - now apply forallb_enough_tokens.
  - now inversion Hr.
Qed.

Lemma read_done_bound content pointcloud pc' header num_of_pts lines :
  text_lines content = header :: lines ->
  sscanf header [Conv_zu] = [ArgU num_of_pts] ->
  ReadPointCloudFromPTS (Some content) pointcloud = (Done, pc') ->
  (0 < num_of_pts < 2 ^ 63)%N /\ lines <> [].
Proof.
  intros El Hs Hr.
  destruct (N.eq_dec num_of_pts 0%N) as [-> | Hn].
  { rewrite read_header_fails in Hr; [discriminate|].
    rewrite El. unfold read_header. cbn [ReadLine]. now rewrite Hs. }
  destruct lines as [|first rest].
  { rewrite (read_no_data_line content pointcloud header num_of_pts) in Hr
      by (assumption || lia). discriminate. }
  destruct (count_cases num_of_pts (token_count first)) as [[Hb Hst] | Hb].
  - split; [lia | discriminate].
  - rewrite (read_data_lines_fails content pointcloud header num_of_pts first rest)
      in Hr by (assumption || lia).
    destruct (token_count first <? 3)%Z; discriminate.
Qed.

Lemma read_done_storage content pointcloud pc' header num_of_pts first rest :
  text_lines content = header :: first :: rest ->
  sscanf header [Conv_zu] = [ArgU num_of_pts] ->
  ReadPointCloudFromPTS (Some content) pointcloud = (Done, pc') ->
  storage_ok num_of_pts (token_count first) = true.
Proof.
  intros El Hs Hr.
  destruct (read_done_bound _ _ _ _ _ _ El Hs Hr) as [Hn _].
  destruct (storage_ok num_of_pts (token_count first)) eqn:Hst; [reflexivity|].
  rewrite (read_data_lines_fails content pointcloud header num_of_pts first rest)
    in Hr by (assumption || lia || now right).
  destruct (token_count first <? 3)%Z; discriminate.
Qed.

(** And the converse: lines that pass the checks are read to the end. *)
Lemma read_lines_done content pointcloud header num_of_pts first rest :
  text_lines content = header :: first :: rest ->
  sscanf header [Conv_zu] = [ArgU num_of_pts] -> (0 < num_of_pts < 2 ^ 63)%N ->
  storage_ok num_of_pts (token_count first) = true ->
  lines_pass_checks (take (N.to_nat num_of_pts) (first :: rest)) ->
  ReadPointCloudFromPTS (Some content) pointcloud
  = (Done, committed
             (state_after_lines num_of_pts
                (take (N.to_nat num_of_pts) (first :: rest)))).
Proof.
  intros El Hs Hn Hst Hp.
  rewrite take_cons_pos in * by lia. destruct Hp as [Hf Hrest].
  rewrite (read_data_lines content pointcloud header num_of_pts first rest)
    by assumption.
  destruct (Z.ltb_spec (token_count first) 3); [lia|]. cbn zeta.
  apply forallb_enough_tokens in Hrest. now rewrite Hrest.
Qed.

Lemma committed_points s : points (committed s) = r_points s.
Proof.
  unfold committed.
  destruct (7 <=? r_num_of_fields s)%Z, (4 <=? r_num_of_fields s)%Z; reflexivity.
Qed.

Lemma committed_intensities s :
  point_attr (committed s) !! "intensities"
  = if (4 <=? r_num_of_fields s)%Z then Some (r_intensities s) else None.
Proof.
  unfold committed, SetPointAttr.
  destruct (7 <=? r_num_of_fields s)%Z, (4 <=? r_num_of_fields s)%Z;
    cbn [point_attr points];
    rewrite ?lookup_insert_ne, ?lookup_insert_eq, ?lookup_empty by discriminate;
    reflexivity.
Qed.

Lemma committed_colors s :
  point_attr (committed s) !! "colors"
  = if (7 <=? r_num_of_fields s)%Z then Some (r_colors s) else None.
Proof.
  unfold committed, SetPointAttr.
  destruct (7 <=? r_num_of_fields s)%Z, (4 <=? r_num_of_fields s)%Z;
    cbn [point_attr points];
    rewrite ?lookup_insert_eq, ?lookup_insert_ne, ?lookup_empty by discriminate;
    reflexivity.
Qed.

Lemma committed_other s key :
  key <> "intensities" -> key <> "colors" ->
  point_attr (committed s) !! key = None.
Proof.
  intros Hi Hc.
  unfold committed, SetPointAttr.
  destruct (7 <=? r_num_of_fields s)%Z, (4 <=? r_num_of_fields s)%Z;
    cbn [point_attr points];
    rewrite ?lookup_insert_ne, ?lookup_empty by congruence;
    reflexivity.
Qed.

(** The cells of the row of a line, among the rows filled so far. *)
Lemma flat_map_row_lookup {A B} (f : A -> list B) (c : nat) (l : list A)
    (rest : list B) j a k :
  (forall a, length (f a) = c) -> l !! j = Some a -> k < c ->
  (flat_map f l ++ rest) !! (c * j + k) = f a !! k.
Proof.
  intros Hf. revert j. induction l as [|b l IH]; intros j Hj Hk.
  - rewrite lookup_nil in Hj. discriminate.
  - cbn [flat_map]. rewrite <- app_assoc. destruct j as [|j]; simpl in Hj.
    + inversion Hj; subst. rewrite Nat.mul_0_r, Nat.add_0_l.
      apply lookup_app_l. now rewrite Hf.
    + rewrite lookup_app_r by (rewrite Hf; lia).
      rewrite Hf. replace (c * S j + k - c) with (c * j + k) by lia.
      now apply IH.
Qed.
End ReadCases.

(** ** The size of the arrays during the read *)

Section ArrayFacts.
Context `{Stdio}.

Lemma unwritten_tail {A} (filled : list (option A)) (from m : nat) :
  length filled = from ->
  forall k, k < m -> (filled ++ replicate m None) !! (from + k) = Some None.
Proof.
  intros Hl k Hk. rewrite lookup_app_r by lia.
  apply lookup_replicate_2. lia.
Qed.

Lemma state_after_points num_of_pts nf done :
  length done <= N.to_nat num_of_pts ->
  GetShape (r_points (state_after num_of_pts nf done)) = [Z.of_N num_of_pts; 3%Z] /\
  cell_count (r_points (state_after num_of_pts nf done)) = 3 * N.to_nat num_of_pts /\
  cells_unwritten (r_points (state_after num_of_pts nf done))
    (3 * length done) (3 * (N.to_nat num_of_pts - length done)).
Proof.
  intros Hl.
  pose proof (flat_map_length_const (xyz_cells nf) 3 done (xyz_cells_length nf)) as Lx.
  cbn [state_after r_points GetShape cell_count cells_unwritten].
  split; [reflexivity|]. split.
  - rewrite length_app, length_replicate, Lx. lia.
  - now apply unwritten_tail.
Qed.

Lemma state_after_intensities num_of_pts nf done :
  length done <= N.to_nat num_of_pts -> (4 <= nf)%Z ->
  GetShape (r_intensities (state_after num_of_pts nf done))
    = [Z.of_N num_of_pts; 1%Z] /\
  cell_count (r_intensities (state_after num_of_pts nf done)) = N.to_nat num_of_pts /\
  cells_unwritten (r_intensities (state_after num_of_pts nf done))
    (length done) (N.to_nat num_of_pts - length done).
Proof.
  intros Hl Hnf.
  pose proof (flat_map_length_const (intensity_cells nf) 1 done
                (intensity_cells_length nf)) as Li.
  cbn [state_after r_intensities].
  destruct (Z.leb_spec 4 nf); [|lia].
  cbn [GetShape cell_count cells_unwritten].
  split; [reflexivity|]. split.
  - rewrite length_app, length_replicate, Li. lia.
  - apply unwritten_tail. lia.
Qed.

Lemma state_after_colors num_of_pts nf done :
  length done <= N.to_nat num_of_pts -> (7 <= nf)%Z ->
  GetShape (r_colors (state_after num_of_pts nf done)) = [Z.of_N num_of_pts; 3%Z] /\
  cell_count (r_colors (state_after num_of_pts nf done)) = 3 * N.to_nat num_of_pts /\
  cells_unwritten (r_colors (state_after num_of_pts nf done))
    (3 * length done) (3 * (N.to_nat num_of_pts - length done)).
Proof.
  intros Hl Hnf.
  pose proof (flat_map_length_const (rgb_cells nf) 3 done (rgb_cells_length nf)) as Lc.
  cbn [state_after r_colors].
  destruct (Z.leb_spec 7 nf); [|lia].
  cbn [GetShape cell_count cells_unwritten].
  split; [reflexivity|]. split.
  - rewrite length_app, length_replicate, Lc. lia.
  - now apply unwritten_tail.
Qed.

(** Every store of a turn of the loop falls inside the arrays: the
    turn on the line after [done] stores at the row [length done], which
    the allocation covers. *)
Lemma stores_in_bounds num_of_pts nf done :
  length done < N.to_nat num_of_pts ->
  3 * r_idx (state_after num_of_pts nf done) + 2
    < cell_count (r_points (state_after num_of_pts nf done)) /\
  ((4 <= nf)%Z ->
   r_idx (state_after num_of_pts nf done)
     < cell_count (r_intensities (state_after num_of_pts nf done))) /\
  ((7 <= nf)%Z ->
   3 * r_idx (state_after num_of_pts nf done) + 2
     < cell_count (r_colors (state_after num_of_pts nf done))).
Proof.
  intros Hl.
  assert (length done <= N.to_nat num_of_pts) as Hle by lia.
  destruct (state_after_points num_of_pts nf done Hle) as (_ & Hp & _).
  change (r_idx (state_after num_of_pts nf done)) with (length done).
  split; [lia|]. split; intros Hnf.
  - destruct (state_after_intensities num_of_pts nf done Hle Hnf) as (_ & Hi & _).
    lia.
  - destruct (state_after_colors num_of_pts nf done Hle Hnf) as (_ & Hc & _).
    lia.
Qed.

(** The locals of the loop after it read a first line and any number of
    further lines. *)
Lemma read_loop_from_first num_of_pts first later s :
  (0 < num_of_pts < 2 ^ 63)%N ->
  storage_ok num_of_pts (token_count first) = true ->
  read_loop num_of_pts (first :: later) reading_init = inr s ->
  s = state_after num_of_pts (token_count first)
        (first :: take (N.to_nat num_of_pts - 1) later).
Proof.
  intros Hn Hst Hr. cbn -[read_line] in Hr.
  destruct (N.ltb_spec (N.of_nat 0) num_of_pts); [|lia].
  rewrite read_line_first in Hr by assumption.
  destruct (Z.ltb_spec (token_count first) 3); [discriminate|].
  rewrite read_loop_state_after in Hr by assumption.
  cbn [length app] in Hr. cbn zeta in Hr.
  destruct (forallb _ _); [|discriminate]. now inversion Hr.
Qed.
End ArrayFacts.

(** ** Layouts that agree, and writes that stop *)

Section LayoutFacts.
Context `{Stdio}.

(** A shorter format assigns the first objects of a longer one. *)
Lemma sscanf_prefix line fmt1 fmt2 :
  sscanf line fmt1 = take (length fmt1) (sscanf line (fmt1 ++ fmt2)).
Proof.
  revert line. induction fmt1 as [|c fmt1 IH]; intros line; [reflexivity|].
  cbn [app sscanf length].
  destruct (convert c (skip_space line)) as [[a rest]|]; [|reflexivity].
  cbn [take]. now rewrite IH.
Qed.

Lemma scan7_inv line x y z i r g b :
  scan7 line = Some (x, y, z, i, r, g, b) ->
  sscanf line [Conv_lf; Conv_lf; Conv_lf; Conv_lf; Conv_d; Conv_d; Conv_d]
  = [ArgF x; ArgF y; ArgF z; ArgF i; ArgI r; ArgI g; ArgI b].
Proof.
  unfold scan7. intros Hs.
  repeat match type of Hs with
         | match ?l with _ => _ end = _ => destruct l; try discriminate
         end.
  now inversion Hs.
Qed.

Lemma scan4_inv line x y z i :
  scan4 line = Some (x, y, z, i) ->
  sscanf line [Conv_lf; Conv_lf; Conv_lf; Conv_lf]
  = [ArgF x; ArgF y; ArgF z; ArgF i].
Proof.
  unfold scan4. intros Hs.
  repeat match type of Hs with
         | match ?l with _ => _ end = _ => destruct l; try discriminate
         end.
  now inversion Hs.
Qed.

Lemma scan7_scan4 line x y z i r g b :
  scan7 line = Some (x, y, z, i, r, g, b) -> scan4 line = Some (x, y, z, i).
Proof.
  intros Hs. apply scan7_inv in Hs. unfold scan4.
  rewrite (sscanf_prefix line [Conv_lf; Conv_lf; Conv_lf; Conv_lf]
             [Conv_d; Conv_d; Conv_d]).
  cbn [app]. rewrite Hs. reflexivity.
Qed.

Lemma scan4_scan3 line x y z i :
  scan4 line = Some (x, y, z, i) -> scan3 line = Some (x, y, z).
Proof.
  intros Hs. apply scan4_inv in Hs. unfold scan3.
  rewrite (sscanf_prefix line [Conv_lf; Conv_lf; Conv_lf] [Conv_lf]).
  cbn [app]. rewrite Hs. reflexivity.
Qed.

(** Whatever the field count, the positions a line leaves are those the
    three-number format reads. *)
Lemma xyz_cells_scan3 nf line :
  xyz_cells nf line
  = match scan3 line with
    | Some (x, y, z) => [Some x; Some y; Some z]
    | None => [None; None; None]
    end.
Proof.
  unfold xyz_cells.
  destruct (7 <=? nf)%Z.
  - destruct (scan7 line) as [[[[[[[x y] z] i] r] g] b]|] eqn:E7.
    { now rewrite (scan4_scan3 _ _ _ _ _ (scan7_scan4 _ _ _ _ _ _ _ _ E7)). }
    destruct (4 <=? nf)%Z; [|reflexivity].
    destruct (scan4 line) as [[[[x y] z] i]|] eqn:E4; [|reflexivity].
    now rewrite (scan4_scan3 _ _ _ _ _ E4).
  - destruct (4 <=? nf)%Z; [|reflexivity].
    destruct (scan4 line) as [[[[x y] z] i]|] eqn:E4; [|reflexivity].
    now rewrite (scan4_scan3 _ _ _ _ _ E4).
Qed.

Lemma intensity_cells_scan4 nf line :
  (4 <= nf)%Z ->
  intensity_cells nf line
  = match scan4 line with
    | Some (_, _, _, i) => [Some i]
    | None => [None]
    end.
Proof.
  intros Hnf. unfold intensity_cells.
  destruct (Z.leb_spec 4 nf); [|lia].
  destruct (7 <=? nf)%Z; [|reflexivity].
  destruct (scan7 line) as [[[[[[[x y] z] i] r] g] b]|] eqn:E7; [|reflexivity].
  now rewrite (scan7_scan4 _ _ _ _ _ _ _ _ E7).
Qed.

Lemma rgb_cells_scan7 nf line :
  (7 <= nf)%Z ->
  rgb_cells nf line
  = match scan7 line with
    | Some (_, _, _, _, r, g, b) =>
        [Some (to_uint8 r); Some (to_uint8 g); Some (to_uint8 b)]
    | None => [None; None; None]
    end.
Proof.
  intros Hnf. unfold rgb_cells. destruct (Z.leb_spec 7 nf); [reflexivity | lia].
Qed.
End LayoutFacts.

Section ReadRows.
Context `{Stdio}.

(** The cloud of a read that ended well on a file with data lines. *)
Lemma read_done_rows content pointcloud pc' header num_of_pts first rest :
  text_lines content = header :: first :: rest ->
  sscanf header [Conv_zu] = [ArgU num_of_pts] ->
  ReadPointCloudFromPTS (Some content) pointcloud = (Done, pc') ->
  (0 < num_of_pts < 2 ^ 63)%N /\ (3 <= token_count first)%Z /\
  pc' = committed
          (state_after num_of_pts (token_count first)
             (take (N.to_nat num_of_pts) (first :: rest))).
Proof.
  intros El Hs Hr.
  destruct (read_done_bound _ _ _ _ _ _ El Hs Hr) as [Hb _].
  apply read_done_inv in Hr
    as (c & h & n & ls & [= <-] & El' & Hs' & Hn & Hp & ->).
  rewrite El in El'. injection El' as <- <-.
  rewrite Hs in Hs'. injection Hs' as <-.
  rewrite take_cons_pos in * by lia. cbn [state_after_lines].
  destruct Hp as [Hp _]. split; [exact Hb|]. split; [exact Hp | reflexivity].
Qed.

Lemma lookup_cons_take {A} (l : list A) (n j : nat) (x : A) :
  l !! j = Some x -> j < n -> take n l !! j = Some x.
Proof. intros Hj Hn. now rewrite lookup_take_lt. Qed.
End ReadRows.

Section WriteMore.
Context `{Stdio}.

(** The loop of the writer stops at the first [fprintf] that fails, with
    the rows before it written. *)
Lemma write_rows_fail env pc P C I lines i k out :
  k < length lines -> (Z.of_nat (i + k) < 2 ^ 31)%Z ->
  (forall j, j < k -> fprintf_fails env (S (i + j)) = false) ->
  fprintf_fails env (S (i + k)) = true ->
  (forall j line, lines !! j = Some line ->
                  format_row pc P C I (i + j) = Some line) ->
  write_rows env pc P C I (length lines) i out
  = (Failed WriteUnableToWriteFile, foldl String.append out (take k lines)).
Proof.
  revert i k out.
  induction lines as [|l lines IH]; intros i k out Hk Hb Hok Hfail Hrows.
  - simpl in Hk. lia.
  - cbn [length write_rows].
    pose proof (Hrows 0 l eq_refl) as H0. rewrite Nat.add_0_r in H0. rewrite H0.
    destruct k as [|k].
    + rewrite Nat.add_0_r in Hfail. rewrite Hfail. reflexivity.
    + pose proof (Hok 0 ltac:(lia)) as Hi. rewrite Nat.add_0_r in Hi. rewrite Hi.
      destruct (Z.eqb_spec (Z.of_nat i) INT_MAX) as [Ho|_]; [int_bounds; lia|].
      cbn [take foldl]. apply IH.
      * simpl in Hk. lia.
      * lia.
      * intros j Hj. replace (S i + j) with (i + S j) by lia. apply Hok. lia.
      * replace (S i + k) with (i + S k) by lia. exact Hfail.
      * intros j line Hj. replace (S i + j) with (i + S j) by lia. now apply Hrows.
Qed.

(** The rows are formatted alike for two clouds that answer the two
    queries alike. *)
Lemma write_rows_ext env pc1 pc2 P C I todo i out :
  HasPointColors pc1 = HasPointColors pc2 ->
  HasPointAttr pc1 "intensities" = HasPointAttr pc2 "intensities" ->
  write_rows env pc1 P C I todo i out = write_rows env pc2 P C I todo i out.
Proof.
  intros Hc Hi. revert i out. induction todo as [|todo IH]; intros i out;
    [reflexivity|].
  cbn [write_rows]. unfold format_row. rewrite Hc, Hi.
  destruct (if HasPointColors pc2 && HasPointAttr pc2 "intensities" then _ else _);
    [|reflexivity].
  destruct (fprintf_fails env (S i)); [reflexivity|].
  destruct (Z.of_nat i =? INT_MAX)%Z; [reflexivity | apply IH].
Qed.

(** Without intensities, neither the colors nor the intensities passed
    to the loop matter. *)
Lemma write_rows_positions_only env pc1 pc2 P C1 C2 I1 I2 todo i out :
  HasPointAttr pc1 "intensities" = false ->
  HasPointAttr pc2 "intensities" = false ->
  write_rows env pc1 P C1 I1 todo i out = write_rows env pc2 P C2 I2 todo i out.
Proof.
  intros H1 H2. revert i out. induction todo as [|todo IH]; intros i out;
    [reflexivity|].
  cbn [write_rows]. unfold format_row. rewrite H1, H2, !andb_false_r.
  destruct (Item2_double P i 0 ≫= _); [|reflexivity].
  destruct (fprintf_fails env (S i)); [reflexivity|].
  destruct (Z.of_nat i =? INT_MAX)%Z; [reflexivity | apply IH].
Qed.

(** The layout of the text of a cloud given by its rows. *)
Lemma rows_text_layout pts ints cols :
  Forall (has_layout match ints, cols with
                     | Some _, Some _ => XYZIRGB
                     | Some _, None => XYZI
                     | None, _ => XYZ
                     end) (rows_text pts ints cols).
Proof.
  destruct ints as [vs|], cols as [cs|]; cbn [rows_text].
  - apply lines7_layout.
  - apply lines4_layout.
  - apply lines3_layout.
  - apply lines3_layout.
Qed.

(** The rows a file holds when the richest layout parses every line. *)
Lemma parsed_positions nf lines :
  Forall (line_parses nf) lines ->
  exists pts, flat_map (xyz_cells nf) lines = cells3 pts /\
              length pts = length lines.
Proof.
  induction lines as [|line lines IH]; intros Hp.
  - now exists [].
  - apply Forall_cons in Hp as [Hl Hp]. destruct (IH Hp) as (pts & E & L).
    assert (exists x y z, scan3 line = Some (x, y, z)) as (x & y & z & E3).
    { unfold line_parses in Hl.
      destruct (7 <=? nf)%Z.
      - destruct Hl as [[[[[[[x y] z] i] r] g] b] E7].
        apply scan7_scan4, scan4_scan3 in E7. eauto.
      - destruct (4 <=? nf)%Z.
        + destruct Hl as [[[[x y] z] i] E4]. apply scan4_scan3 in E4. eauto.
        + destruct Hl as [[[x y] z] E3]. eauto. }
    exists ((x, y, z) :: pts). cbn [flat_map cells3 length]. fold (cells3 pts).
    rewrite xyz_cells_scan3, E3, E, L. split; reflexivity.
Qed.

Lemma parsed_intensities nf lines :
  (4 <= nf)%Z -> Forall (line_parses nf) lines ->
  exists ints, flat_map (intensity_cells nf) lines = map Some ints /\
               length ints = length lines.
Proof.
  intros Hnf. induction lines as [|line lines IH]; intros Hp.
  - now exists [].
  - apply Forall_cons in Hp as [Hl Hp]. destruct (IH Hp) as (ints & E & L).
    assert (exists x y z i, scan4 line = Some (x, y, z, i)) as (x & y & z & i & E4).
    { unfold line_parses in Hl. destruct (Z.leb_spec 4 nf); [|lia].
      destruct (7 <=? nf)%Z.
      - destruct Hl as [[[[[[[x y] z] i] r] g] b] E7].
        apply scan7_scan4 in E7. eauto.
      - destruct Hl as [[[[x y] z] i] E4]. eauto. }
    exists (i :: ints). cbn [flat_map map length].
    rewrite intensity_cells_scan4, E4, E, L by assumption. split; reflexivity.
Qed.

Lemma parsed_colors nf lines :
  (7 <= nf)%Z -> Forall (line_parses nf) lines ->
  exists cols, flat_map (rgb_cells nf) lines = cells3 cols /\
               length cols = length lines /\
               Forall (fun '(r, g, b) => is_byte r /\ is_byte g /\ is_byte b) cols.
Proof.
  intros Hnf. induction lines as [|line lines IH]; intros Hp.
  - exists []. repeat split. constructor.
  - apply Forall_cons in Hp as [Hl Hp]. destruct (IH Hp) as (cols & E & L & B).
    unfold line_parses in Hl. destruct (Z.leb_spec 7 nf); [|lia].
    destruct Hl as [[[[[[[x y] z] i] r] g] b] E7].
    exists ((to_uint8 r, to_uint8 g, to_uint8 b) :: cols).
    cbn [flat_map cells3 length]. fold (cells3 cols).
    rewrite rgb_cells_scan7, E7, E, L by assumption.
    split; [reflexivity|]. split; [reflexivity|].
    constructor; [|exact B].
    unfold is_byte, to_uint8. repeat split; apply Z.mod_pos_bound; lia.
Qed.
End WriteMore.

Section Composition.
Context `{Stdio}.

(** The writer on a cloud given by its rows, up to the loop. *)
Lemma write_cloud_steps env pts ints cols :
  open_ok env = true -> pts <> [] -> representable (length pts) ints cols ->
  WritePointCloudToPTS env (cloud_of pts ints cols)
  = if fprintf_fails env 0 then (Failed WriteUnableToWriteFile, Some "")
    else let '(status, out) :=
           write_rows env (cloud_of pts ints cols) (points_tensor pts)
             (default TensorEmpty (colors_tensor <$> cols))
             (default TensorEmpty (intensities_tensor <$> ints))
             (length (rows_text pts ints cols)) 0
             (printf_u (N.of_nat (length pts)) +:+ CRLF) in
         (status, Some out).
Proof.
  intros Hopen Hne Hr. unfold WritePointCloudToPTS, IsEmpty.
  destruct (cloud_of_queries pts ints cols) as (-> & -> & -> & -> & ->).
  rewrite Hopen. cbn [negb].
  change (GetLength (points_tensor pts)) with (Z.of_nat (length pts)).
  rewrite bool_decide_eq_false_2 by (destruct pts; [congruence | simpl; lia]).
  rewrite Nat2Z.id, (rows_text_length pts ints cols Hr).
  replace (Z.to_N (Z.of_nat (length pts))) with (N.of_nat (length pts)) by lia.
  destruct cols, ints; reflexivity.
Qed.

(** The writer on a cloud whose arrays are those of the rows [pts],
    [ints] and [cols]; the colors are looked at only when there are
    intensities. *)
Lemma write_of_rows env pc pts ints cols :
  GetPoints pc = points_tensor pts ->
  GetPointAttr pc "intensities" = intensities_tensor <$> ints ->
  (is_Some ints -> GetPointColors pc = colors_tensor <$> cols) ->
  (ints = None -> cols = None) ->
  WritePointCloudToPTS env pc = WritePointCloudToPTS env (cloud_of pts ints cols).
Proof.
  intros Hp Hi Hc Hn.
  assert (HasPointAttr pc "intensities" = bool_decide (is_Some ints)) as Hhi.
  { unfold HasPointAttr. unfold GetPointAttr in Hi. rewrite Hi.
    destruct ints; reflexivity. }
  destruct (cloud_of_queries pts ints cols) as (Qi & Qc & Qai & Qac & Qp).
  unfold WritePointCloudToPTS, IsEmpty. rewrite Hp, Qp, Hhi, Qi, Qai, Qac, Qc, Hi.
  destruct (negb (open_ok env)); [reflexivity|].
  destruct (bool_decide (GetLength (points_tensor pts) = 0%Z)); [reflexivity|].
  destruct (fprintf_fails env 0); [reflexivity|].
  destruct ints as [vs|].
  - rewrite (Hc ltac:(eauto)).
    assert (HasPointColors pc = bool_decide (is_Some cols)) as Hhc.
    { unfold HasPointColors, HasPointAttr.
      unfold GetPointColors, GetPointAttr in Hc. rewrite (Hc ltac:(eauto)).
      destruct cols; reflexivity. }
    rewrite Hhc.
    now rewrite (write_rows_ext env pc (cloud_of pts (Some vs) cols))
      by (rewrite ?Hhc, ?Qc, ?Hhi, ?Qi; reflexivity).
  - rewrite (Hn eq_refl) in *. cbn [bool_decide decide_rel fmap option_fmap option_map].
    now rewrite (write_rows_positions_only env pc (cloud_of pts None None)
                   (points_tensor pts) _ TensorEmpty _ TensorEmpty)
      by (rewrite ?Hhi, ?Qi; reflexivity).
Qed.

(** The data lines of a text made of a header and of the rows of a
    cloud. *)
Lemma data_lines_rows n pts ints cols :
  printf_f10_words ->
  data_lines (foldl String.append (printf_u n +:+ CRLF) (rows_text pts ints cols))
  = rows_text pts ints cols.
Proof.
  intros Hw. unfold data_lines. rewrite text_lines_written; [reflexivity|].
  eapply Forall_impl; [apply rows_text_layout|].
  intros line Hl. eapply has_layout_line; eassumption.
Qed.

Lemma write_cloud_fail env pts ints cols k :
  open_ok env = true -> representable (length pts) ints cols ->
  k < length pts -> (Z.of_nat k < 2 ^ 31)%Z -> fails_first_at env (S k) ->
  WritePointCloudToPTS env (cloud_of pts ints cols)
  = (Failed WriteUnableToWriteFile,
     Some (foldl String.append (printf_u (N.of_nat (length pts)) +:+ CRLF)
             (take k (rows_text pts ints cols)))).
Proof.
  intros Hopen Hr Hk Hb [Hok Hf].
  pose proof (rows_text_length pts ints cols Hr) as Hlen.
  assert (pts <> []) as Hne by (intros ->; simpl in Hk; lia).
  rewrite write_cloud_steps, (Hok 0) by (assumption || lia).
  rewrite (write_rows_fail env _ _ _ _ (rows_text pts ints cols) 0 k).
  - reflexivity.
  - lia.
  - exact Hb.
  - intros j Hj. apply Hok. simpl. lia.
  - exact Hf.
  - intros j line Hj. now apply format_row_cloud.
Qed.

(** The lines of the rows of a cloud end in CR LF and hold no other
    line feed, and all hold the same number of tokens. *)
Lemma rows_text_lines pts ints cols :
  printf_f10_words ->
  Forall (fun line => exists body, line = body +:+ CRLF /\ no_line_feed body = true)
         (rows_text pts ints cols).
Proof.
  intros Hw. eapply Forall_impl; [apply rows_text_layout|].
  intros line Hl. eapply has_layout_line; eassumption.
Qed.

Lemma rows_text_token_count pts ints cols :
  printf_f10_words ->
  Forall (fun line => token_count line = row_fields ints cols)
         (rows_text pts ints cols).
Proof.
  intros Hw. eapply Forall_impl; [apply rows_text_layout|].
  intros line Hl. apply has_layout_token_count in Hl; [|assumption].
  rewrite Hl. destruct ints, cols; reflexivity.
Qed.

(** When the richest layout parses every one of the declared number of
    lines, the cloud the reader commits has every cell written. *)
Lemma committed_parsed_cloud num_of_pts nf lines :
  (3 <= nf)%Z -> length lines = N.to_nat num_of_pts ->
  Forall (line_parses nf) lines ->
  exists pts ints cols,
    committed (state_after num_of_pts nf lines) = cloud_of pts ints cols /\
    length pts = length lines /\ representable (length pts) ints cols /\
    row_fields ints cols = written_fields nf.
Proof.
  intros Hnf Hlen Hp.
  destruct (parsed_positions nf lines Hp) as (pts & Ep & Lp).
  assert (Z.of_N num_of_pts = Z.of_nat (length lines)) as Hn by lia.
  unfold committed, state_after, written_fields.
  cbn [r_points r_intensities r_colors r_num_of_fields].
  rewrite Hn, <- Hlen, Nat.sub_diag, Nat.mul_0_r. cbn [replicate].
  rewrite !app_nil_r, Ep.
  destruct (Z.leb_spec 7 nf) as [H7|H7].
  - destruct (Z.leb_spec 4 nf) as [H4|H4]; [|lia].
    destruct (parsed_intensities nf lines H4 Hp) as (ints & Ei & Li).
    destruct (parsed_colors nf lines H7 Hp) as (cols & Ec & Lc & Bc).
    exists pts, (Some ints), (Some cols). rewrite Ei, Ec.
    unfold cloud_of, points_tensor, intensities_tensor, colors_tensor.
    cbn [point_attr points]. rewrite Lp, Li, Lc.
    split; [reflexivity|]. split; [reflexivity|]. split; [|reflexivity].
    cbn [representable]. rewrite Li, Lc, <- Lp. auto.
  - destruct (Z.leb_spec 4 nf) as [H4|H4].
    + destruct (parsed_intensities nf lines H4 Hp) as (ints & Ei & Li).
      exists pts, (Some ints), None. rewrite Ei.
      unfold cloud_of, points_tensor, intensities_tensor.
      cbn [point_attr points]. rewrite Lp, Li.
      split; [reflexivity|]. split; [reflexivity|]. split; [|reflexivity].
      cbn [representable]. now rewrite Li, <- Lp.
    + exists pts, None, None.
      unfold cloud_of, points_tensor.
      cbn [point_attr points]. rewrite Lp.
      split; [reflexivity|]. split; [reflexivity|]. split; [exact I | reflexivity].
Qed.
End Composition.

(** ** The scenarios of the specification, on the decimal instance *)

Section Scenarios.

(** Scenario A: three points, positions only. *)
Example scenario_A_positions :
  points (snd (ReadPointCloudFromPTS
                 (Some (Sample.unlines ["3"; "0 0 0"; "1 1 1"; "2 2 2"]))
                 Sample.no_cloud))
  = points_tensor Sample.three_points.
Proof. reflexivity. Qed.

Example scenario_A_no_attribute :
  HasPointAttr
    (snd (ReadPointCloudFromPTS
            (Some (Sample.unlines ["3"; "0 0 0"; "1 1 1"; "2 2 2"]))
            Sample.no_cloud)) "intensities" = false /\
  HasPointColors
    (snd (ReadPointCloudFromPTS
            (Some (Sample.unlines ["3"; "0 0 0"; "1 1 1"; "2 2 2"]))
            Sample.no_cloud)) = false.
Proof. split; reflexivity. Qed.

(** Scenario B: two points with intensity and color. *)
Example scenario_B_attributes :
  GetPointAttr
    (snd (ReadPointCloudFromPTS
            (Some (Sample.unlines ["2"; "0 0 0 5.5 255 0 0"; "1 1 1 3.2 0 255 0"]))
            Sample.no_cloud)) "intensities"
  = Some (intensities_tensor Sample.two_intensities) /\
  GetPointColors
    (snd (ReadPointCloudFromPTS
            (Some (Sample.unlines ["2"; "0 0 0 5.5 255 0 0"; "1 1 1 3.2 0 255 0"]))
            Sample.no_cloud))
  = Some (colors_tensor Sample.two_colors).
Proof. split; reflexivity. Qed.

(** Scenario C: the cloud of scenario B is written as a header and two
    lines of seven fields, each ended by carriage return and line feed. *)
Example scenario_C_text :
  snd (WritePointCloudToPTS Sample.disk
         (cloud_of Sample.two_points (Some Sample.two_intensities)
            (Some Sample.two_colors)))
  = Some ("2" +:+ CRLF
          +:+ "0.0000000000 0.0000000000 0.0000000000 5.5000000000 255 0 0" +:+ CRLF
          +:+ "1.0000000000 1.0000000000 1.0000000000 3.2000000000 0 255 0" +:+ CRLF).
Proof. reflexivity. Qed.

(** The limits of the integer types.  A header of [-1] reads as
    [SIZE_MAX], which is negative as an [int64_t]: the allocation
    throws. *)
Example header_minus_one :
  sscanf (H := Decimal.stdio) (String.append "-1" (String LF "")) [Conv_zu]
    = [ArgU 18446744073709551615%N] /\
  fst (ReadPointCloudFromPTS (Some (Sample.unlines ["-1"; "0 0 0"])) Sample.no_cloud)
    = Failed ReadException.
Proof. split; reflexivity. Qed.

(** A color field beyond [long] reads as [LONG_MAX], which is [-1] as an
    [int] and 255 as a byte; 256 is stored as 0. *)
Example color_field_out_of_range :
  GetPointColors
    (snd (ReadPointCloudFromPTS
            (Some (Sample.unlines ["1"; "0 0 0 1 9223372036854775808 256 -1"]))
            Sample.no_cloud))
  = Some (TensorUInt8 [1%Z; 3%Z] [Some 255%Z; Some 0%Z; Some 255%Z]).
Proof. reflexivity. Qed.

End Scenarios.

(** ** The properties of the specification *)

(** C3. A file whose first line is absent, holds no number, or holds the
    number zero makes the reader fail with the header warning, and the
    cloud passed in is returned as it was: no points and no attributes
    are set on it. *)
Theorem read_header_error `{Stdio} (content : string) (pointcloud : PointCloud) :
  (text_lines content = [] \/
   exists header rest, text_lines content = header :: rest /\
     (non_numeric header \/ sscanf header [Conv_zu] = [ArgU 0%N])) ->
  ReadPointCloudFromPTS (Some content) pointcloud
  = (Failed ReadUnableToReadHeader, pointcloud).
Proof.
  intros Hc. apply read_header_fails.
  destruct Hc as [-> | (header & rest & -> & Hh)]; [reflexivity|].
  unfold read_header. cbn [ReadLine].
  destruct Hh as [Hn | ->]; [|reflexivity].
  now rewrite non_numeric_sscanf.
Qed.

Lemma read_header_error_witness :
  ReadPointCloudFromPTS (Some "") Sample.no_cloud
    = (Failed ReadUnableToReadHeader, Sample.no_cloud) /\
  ReadPointCloudFromPTS (Some (Sample.unlines ["abc"; "1 2 3"])) Sample.no_cloud
    = (Failed ReadUnableToReadHeader, Sample.no_cloud) /\
  ReadPointCloudFromPTS (Some (Sample.unlines ["0"; "1 2 3"])) Sample.no_cloud
    = (Failed ReadUnableToReadHeader, Sample.no_cloud).
Proof.
  split; [|split].
  - apply read_header_error. left. reflexivity.
  - apply read_header_error. right.
    eexists _, _. split; [reflexivity|]. left. reflexivity.
  - apply read_header_error. right.
    eexists _, _. split; [reflexivity|]. right. reflexivity.
Defined.










(** C9. After a read that ends well, the positions of the cloud are an
    array of doubles of shape N×3, N the count the header declares,
    with all its 3N cells.  The arrays are allocated on the first data
    line, and a read does not end well on a file without one (the
    setter refuses the tensor that was never allocated), so this holds
    after every read that returns true. *)
Theorem read_sets_positions `{Stdio} (file : option string)
    (pointcloud pc' : PointCloud) :
  ReadPointCloudFromPTS file pointcloud = (Done, pc') ->
  exists content header num_of_pts lines data,
    file = Some content /\ text_lines content = header :: lines /\
    sscanf header [Conv_zu] = [ArgU num_of_pts] /\ lines <> [] /\
    points pc' = TensorFloat64 [Z.of_N num_of_pts; 3%Z] data /\
    length data = 3 * N.to_nat num_of_pts.
Proof.
  intros Hr. pose proof Hr as Hr'. apply read_done_inv in Hr
    as (content & header & n & lines & -> & El & Hs & Hn & Hp & ->).
  destruct (read_done_bound _ _ _ _ _ _ El Hs Hr') as [_ Hne].
  destruct lines as [|first rest]; [congruence|].
  exists content, header, n, (first :: rest). eexists.
  split; [reflexivity|]. split; [assumption|]. split; [assumption|].
  split; [discriminate|].
  rewrite take_cons_pos by lia. cbn [state_after_lines].
  rewrite committed_points. split; [reflexivity|].
  pose proof (flat_map_length_const (xyz_cells (token_count first)) 3
                (first :: take (N.to_nat n - 1) rest)
                (xyz_cells_length (token_count first))) as Lx.
  rewrite length_app, length_replicate, Lx. cbn [length].
  rewrite length_take. lia.
Qed.

Lemma read_sets_positions_witness :
  exists content header num_of_pts lines data,
    Some (Sample.unlines ["2"; "0 0 0"; "1 1 1"]) = Some content /\
    text_lines content = header :: lines /\
    sscanf (H := Decimal.stdio) header [Conv_zu] = [ArgU num_of_pts] /\
    lines <> [] /\
    points (snd (ReadPointCloudFromPTS
                   (Some (Sample.unlines ["2"; "0 0 0"; "1 1 1"]))
                   Sample.no_cloud))
    = TensorFloat64 [Z.of_N num_of_pts; 3%Z] data /\
    length data = 3 * N.to_nat num_of_pts.
Proof.
  apply (read_sets_positions
           (Some (Sample.unlines ["2"; "0 0 0"; "1 1 1"])) Sample.no_cloud).
  apply result_with_status. vm_compute. reflexivity.
Defined.

(** C10. When the header declares more points than the file has data
    lines and the read ends well, every array the cloud receives has one
    row per declared point: the positions (and the intensities and the
    colors when they are set) have the declared shape and as many cells,
    and the cells of the rows after the last line read are unwritten.
    The arrays have that size from the first line on: after any number
    of lines the loop has read, the positions have the declared shape
    and number of cells. *)
Theorem read_arrays_have_declared_size `{Stdio} (content : string)
    (pointcloud pc' : PointCloud) (header first : string) (rest : list string)
    (num_of_pts : N) :
  text_lines content = header :: first :: rest ->
  sscanf header [Conv_zu] = [ArgU num_of_pts] ->
  S (length rest) < N.to_nat num_of_pts ->
  ReadPointCloudFromPTS (Some content) pointcloud = (Done, pc') ->
  let n := N.to_nat num_of_pts in
  let k := S (length rest) in
  (GetShape (points pc') = [Z.of_N num_of_pts; 3%Z] /\
   cell_count (points pc') = 3 * n /\
   cells_unwritten (points pc') (3 * k) (3 * (n - k))) /\
  (forall t, point_attr pc' !! "intensities" = Some t ->
     GetShape t = [Z.of_N num_of_pts; 1%Z] /\ cell_count t = n /\
     cells_unwritten t k (n - k)) /\
  (forall t, point_attr pc' !! "colors" = Some t ->
     GetShape t = [Z.of_N num_of_pts; 3%Z] /\ cell_count t = 3 * n /\
     cells_unwritten t (3 * k) (3 * (n - k))) /\
  (forall later s,
     read_loop num_of_pts (first :: later) reading_init = inr s ->
     GetShape (r_points s) = [Z.of_N num_of_pts; 3%Z] /\
     cell_count (r_points s) = 3 * n).
Proof.
  intros El Hs Hlen Hr n k.
  destruct (read_done_bound _ _ _ _ _ _ El Hs Hr) as [Hb _].
  pose proof (read_done_storage _ _ _ _ _ _ _ El Hs Hr) as Hst.
  apply read_done_inv in Hr
    as (c & h & m & ls & [= <-] & El' & Hs' & Hn & Hp & ->).
  rewrite El in El'. injection El' as <- <-.
  rewrite Hs in Hs'. injection Hs' as <-.
  rewrite take_ge by (cbn [length]; lia). cbn [state_after_lines].
  rewrite committed_points, committed_intensities, committed_colors.
  change (r_num_of_fields (state_after num_of_pts (token_count first) (first :: rest)))
    with (token_count first).
  assert (length (first :: rest) <= N.to_nat num_of_pts) as Hle
    by (cbn [length]; lia).
  split; [|split; [|split]].
  - exact (state_after_points num_of_pts (token_count first) (first :: rest) Hle).
  - intros t Ht. destruct (Z.leb_spec 4 (token_count first)); [|discriminate].
    injection Ht as <-.
    now apply (state_after_intensities num_of_pts (token_count first) (first :: rest)).
  - intros t Ht. destruct (Z.leb_spec 7 (token_count first)); [|discriminate].
    injection Ht as <-.
    now apply (state_after_colors num_of_pts (token_count first) (first :: rest)).
  - intros later s Hl. apply read_loop_from_first in Hl; [|assumption..]. subst s.
    edestruct (state_after_points num_of_pts (token_count first)
                 (first :: take (N.to_nat num_of_pts - 1) later)) as (Hsh & Hc & _).
    + cbn [length]. rewrite length_take. lia.
    + split; assumption.
Qed.

Lemma read_arrays_have_declared_size_witness :
  GetShape
    (points (snd (ReadPointCloudFromPTS
                    (Some (Sample.unlines ["100"; "0 0 0"; "1 1 1"]))
                    Sample.no_cloud))) = [100%Z; 3%Z] /\
  cell_count
    (points (snd (ReadPointCloudFromPTS
                    (Some (Sample.unlines ["100"; "0 0 0"; "1 1 1"]))
                    Sample.no_cloud))) = 300 /\
  cells_unwritten
    (points (snd (ReadPointCloudFromPTS
                    (Some (Sample.unlines ["100"; "0 0 0"; "1 1 1"]))
                    Sample.no_cloud))) 6 294.
Proof.
  destruct (read_arrays_have_declared_size
              (Sample.unlines ["100"; "0 0 0"; "1 1 1"]) Sample.no_cloud
              (snd (ReadPointCloudFromPTS
                      (Some (Sample.unlines ["100"; "0 0 0"; "1 1 1"]))
                      Sample.no_cloud))
              (String.append "100" (String LF ""))
              (String.append "0 0 0" (String LF ""))
              [String.append "1 1 1" (String LF "")] 100%N) as (Hp & _).
  - reflexivity.
  - reflexivity.
  - vm_compute. lia.
  - apply result_with_status. vm_compute. reflexivity.
  - exact Hp.
Defined.

(** C7. Writing a cloud that has zero points fails, and nothing is
    written: the file, when it could be opened, stays empty, without
    header and without data line. *)
Theorem write_empty_cloud `{Stdio} (env : WriteEnv) (pointcloud : PointCloud) :
  GetLength (GetPoints pointcloud) = 0%Z ->
  let r := WritePointCloudToPTS env pointcloud in
  returned (fst r) = false /\
  (snd r = None \/ snd r = Some "") /\
  text_lines (default "" (snd r)) = [] /\
  (open_ok env = true -> r = (Failed WriteZeroPoints, Some "")).
Proof.
  intros He. unfold WritePointCloudToPTS, IsEmpty.
  rewrite bool_decide_eq_true_2 by assumption.
  destruct (open_ok env); simpl; repeat split; auto; discriminate.
Qed.

Lemma write_empty_cloud_witness :
  WritePointCloudToPTS Sample.disk Sample.no_cloud
  = (Failed WriteZeroPoints, Some "").
Proof.
  apply (write_empty_cloud Sample.disk Sample.no_cloud eq_refl). reflexivity.
Defined.

(** C8. The writer chooses the layout of the data lines by the two
    queries on the cloud, and emits one line per point in it.  A cloud
    without intensities is written as the three-field lines [X Y Z] of
    its points, with or without colors, so that colors without
    intensities are dropped; a cloud with intensities and no colors as
    the four-field lines [X Y Z I]; a cloud with both as the
    seven-field lines [X Y Z I R G B].  This is so when the file system
    does not fail, the arrays have one row per point and there are
    fewer than [2^31] points.  However a write ends, the data lines in
    the file have the layout the queries select, and all the same
    number of fields. *)
Theorem write_layout `{Stdio} (env : WriteEnv) (pointcloud : PointCloud) :
  printf_f10_words ->
  (forall pts,
     io_ok env -> pts <> [] -> (Z.of_nat (length pts) < 2 ^ 31)%Z ->
     GetPoints pointcloud = points_tensor pts ->
     (HasPointAttr pointcloud "intensities" = false ->
      exists text,
        WritePointCloudToPTS env pointcloud = (Done, Some text) /\
        data_lines text = lines3 pts) /\
     (forall ints,
        GetPointAttr pointcloud "intensities" = Some (intensities_tensor ints) ->
        length ints = length pts ->
        HasPointColors pointcloud = false ->
        exists text,
          WritePointCloudToPTS env pointcloud = (Done, Some text) /\
          data_lines text = lines4 pts ints) /\
     (forall ints cols,
        GetPointAttr pointcloud "intensities" = Some (intensities_tensor ints) ->
        length ints = length pts ->
        GetPointColors pointcloud = Some (colors_tensor cols) ->
        length cols = length pts ->
        Forall (fun '(r, g, b) => is_byte r /\ is_byte g /\ is_byte b) cols ->
        exists text,
          WritePointCloudToPTS env pointcloud = (Done, Some text) /\
          data_lines text = lines7 pts ints cols)) /\
  (forall status text,
     WritePointCloudToPTS env pointcloud = (status, Some text) ->
     (HasPointColors pointcloud = true ->
      HasPointAttr pointcloud "intensities" = true ->
      Forall (fun line => has_layout XYZIRGB line /\ token_count line = 7%Z)
             (data_lines text)) /\
     (HasPointColors pointcloud = false ->
      HasPointAttr pointcloud "intensities" = true ->
      Forall (fun line => has_layout XYZI line /\ token_count line = 4%Z)
             (data_lines text)) /\
     (HasPointAttr pointcloud "intensities" = false ->
      Forall (fun line => has_layout XYZ line /\ token_count line = 3%Z)
             (data_lines text)) /\
     (forall line1 line2, In line1 (data_lines text) -> In line2 (data_lines text) ->
                          token_count line1 = token_count line2) /\
     (status = Done ->
      length (data_lines text) = Z.to_nat (GetLength (GetPoints pointcloud)))).
Proof.
  intros Hwords. split.
  { intros pts Hio Hne Hsize Hp.
    assert (forall ints cols,
              representable (length pts) ints cols ->
              WritePointCloudToPTS env pointcloud
              = WritePointCloudToPTS env (cloud_of pts ints cols) ->
              exists text,
                WritePointCloudToPTS env pointcloud = (Done, Some text) /\
                data_lines text = rows_text pts ints cols) as Hrows.
    { intros ints cols Hr ->. eexists. split; [now apply write_cloud|].
      now apply data_lines_rows. }
    split; [|split].
    - intros Hi. apply (Hrows None None I).
      apply write_of_rows; [assumption | | intros [? ?]; discriminate | reflexivity].
      unfold HasPointAttr in Hi. unfold GetPointAttr.
      destruct (point_attr pointcloud !! "intensities"); [|reflexivity].
      rewrite bool_decide_eq_true_2 in Hi by eauto. discriminate.
    - intros ints Hi Hl Hc. apply (Hrows (Some ints) None Hl).
      apply write_of_rows; [assumption | assumption | | discriminate].
      intros _. unfold HasPointColors, HasPointAttr in Hc.
      unfold GetPointColors, GetPointAttr.
      destruct (point_attr pointcloud !! "colors"); [|reflexivity].
      rewrite bool_decide_eq_true_2 in Hc by eauto. discriminate.
    - intros ints cols Hi Hl Hc Hlc Hb.
      apply (Hrows (Some ints) (Some cols)); [now repeat split|].
      apply write_of_rows; [assumption | assumption | now intros _ | discriminate]. }
  intros status text Hw.
  set (layout := if HasPointColors pointcloud && HasPointAttr pointcloud "intensities"
                 then XYZIRGB
                 else if HasPointAttr pointcloud "intensities" then XYZI else XYZ).
  assert (Forall (has_layout layout) (data_lines text) /\
          (status = Done ->
           length (data_lines text) = Z.to_nat (GetLength (GetPoints pointcloud))))
    as [Hall Hdone].
  { unfold WritePointCloudToPTS in Hw.
    destruct (open_ok env); [|discriminate]. cbn [negb] in Hw.
    destruct (IsEmpty pointcloud).
    { injection Hw as <- <-. split; [constructor | discriminate]. }
    destruct (fprintf_fails env 0).
    { injection Hw as <- <-. split; [constructor | discriminate]. }
    destruct (write_rows _ _ _ _ _ _ _ _) as [st out] eqn:Er.
    injection Hw as <- <-.
    apply write_rows_inv in Er as (lines & -> & Hlen & Hend & Hrows).
    assert (Forall (has_layout layout) lines) as Hl.
    { apply Forall_forall. intros line Hin.
      apply list_elem_of_lookup in Hin as [j Hj].
      apply Hrows in Hj. now apply format_row_layout in Hj. }
    unfold data_lines. rewrite text_lines_written.
    - split; [exact Hl | exact Hend].
    - eapply Forall_impl; [exact Hl|].
      intros line Hline. now apply (has_layout_line layout). }
  assert (Forall (fun line => has_layout layout line
                              /\ token_count line = field_count layout)
                 (data_lines text)) as Hboth.
  { eapply Forall_impl; [exact Hall|]. intros line Hline.
    split; [exact Hline | now apply has_layout_token_count]. }
  split; [|split; [|split; [|split]]].
  - intros Hc Hi. subst layout. rewrite Hc, Hi in Hboth. exact Hboth.
  - intros Hc Hi. subst layout. rewrite Hc, Hi in Hboth. exact Hboth.
  - intros Hi. subst layout. rewrite Hi, andb_false_r in Hboth. exact Hboth.
  - intros line1 line2 H1 H2. rewrite Forall_forall in Hboth.
    destruct (Hboth line1) as [_ ->]; [now apply list_elem_of_In|].
    destruct (Hboth line2) as [_ ->]; [now apply list_elem_of_In|].
    reflexivity.
  - exact Hdone.
Qed.

Lemma write_layout_witness :
  exists text,
    WritePointCloudToPTS Sample.disk
      (cloud_of Sample.two_points None (Some Sample.two_colors))
    = (Done, Some text) /\
    data_lines text = lines3 Sample.two_points.
Proof.
  apply (proj1 (write_layout Sample.disk
                  (cloud_of Sample.two_points None (Some Sample.two_colors))
                  decimal_words) Sample.two_points).
  - split; [reflexivity | intros k; reflexivity].
  - discriminate.
  - reflexivity.
  - reflexivity.
  - reflexivity.
Defined.



(** ** Further properties of the reader *)

(** X1. A read that fails never hands back a partly filled cloud.  When
    it fails before the cloud is cleared (the file cannot be opened, or
    the header is bad) the cloud is the one passed in; when it fails
    after that (too few fields on the first line, a shorter later
    line, or an exception: of the allocation, for a count that is
    negative as an [int64_t] or for want of storage, or of the setter
    of the positions when there was no data line) the cloud is the
    cleared one, and the
    arrays allocated so far are dropped.  No other warning ends a
    read. *)
Theorem read_failure_cloud `{Stdio} (file : option string)
    (pointcloud pc' : PointCloud) (w : Warning) :
  ReadPointCloudFromPTS file pointcloud = (Failed w, pc') ->
  (w = ReadUnableToOpenFile /\ file = None /\ pc' = pointcloud) \/
  (w = ReadUnableToReadHeader /\ pc' = pointcloud) \/
  ((w = ReadInsufficientDataFields \/ w = ReadUnequalElements \/
    w = ReadException) /\
   pc' = Clear pointcloud).
Proof.
  intros Hr. destruct file as [content|].
  2:{ left. cbn in Hr. now inversion Hr. }
  right.
  destruct (text_lines content) as [|header lines] eqn:El.
  { rewrite read_header_fails in Hr by now rewrite El. left. now inversion Hr. }
  destruct (sscanf_zu_cases header) as [Hs | [n Hs]].
  { rewrite read_header_fails in Hr.
    - left. now inversion Hr.
    - rewrite El. unfold read_header. cbn [ReadLine]. now rewrite Hs. }
  destruct (N.eq_dec n 0%N) as [-> | Hn].
  { rewrite read_header_fails in Hr.
    - left. now inversion Hr.
    - rewrite El. unfold read_header. cbn [ReadLine]. now rewrite Hs. }
  right. destruct lines as [|first rest].
  { rewrite (read_no_data_line content pointcloud header n) in Hr
      by (assumption || lia).
    inversion Hr. split; [now right; right | reflexivity]. }
  destruct (count_cases n (token_count first)) as [[Hb Hst] | Hb].
  - rewrite (read_data_lines content pointcloud header n first rest) in Hr
      by (assumption || lia).
    destruct (token_count first <? 3)%Z.
    { inversion Hr. split; [now left | reflexivity]. }
    cbn zeta in Hr. destruct (forallb _ _); [discriminate|].
    inversion Hr. split; [now right; left | reflexivity].
  - rewrite (read_data_lines_fails content pointcloud header n first rest) in Hr
      by (assumption || lia).
    destruct (token_count first <? 3)%Z; inversion Hr.
    + split; [now left | reflexivity].
    + split; [now right; right | reflexivity].
Qed.

Lemma read_failure_cloud_witness :
  (ReadException = ReadUnableToOpenFile /\
   Some (Sample.unlines ["-1"; "1 2 3"]) = None /\
   snd (ReadPointCloudFromPTS (Some (Sample.unlines ["-1"; "1 2 3"]))
          (cloud_of Sample.two_points None None))
   = cloud_of Sample.two_points None None) \/
  (ReadException = ReadUnableToReadHeader /\
   snd (ReadPointCloudFromPTS (Some (Sample.unlines ["-1"; "1 2 3"]))
          (cloud_of Sample.two_points None None))
   = cloud_of Sample.two_points None None) \/
  ((ReadException = ReadInsufficientDataFields \/
    ReadException = ReadUnequalElements \/
    ReadException = ReadException) /\
   snd (ReadPointCloudFromPTS (Some (Sample.unlines ["-1"; "1 2 3"]))
          (cloud_of Sample.two_points None None))
   = Clear (cloud_of Sample.two_points None None)).
Proof.
  apply (read_failure_cloud (Some (Sample.unlines ["-1"; "1 2 3"]))
           (cloud_of Sample.two_points None None)).
  apply result_with_status. vm_compute. reflexivity.
Defined.

(** X2. What a read returns does not depend on what the cloud held
    before: the outcome is the same for every cloud passed in, and so is
    the cloud after a read that ended well. *)
Theorem read_ignores_previous_contents `{Stdio} (file : option string)
    (pc1 pc2 : PointCloud) :
  fst (ReadPointCloudFromPTS file pc1) = fst (ReadPointCloudFromPTS file pc2) /\
  (fst (ReadPointCloudFromPTS file pc1) = Done ->
   snd (ReadPointCloudFromPTS file pc1) = snd (ReadPointCloudFromPTS file pc2)).
Proof.
  unfold ReadPointCloudFromPTS. destruct (Open file) as [f|]; [|now split].
  destruct (read_header f) as [n f1].
  destruct (n <=? 0)%N; [now split|].
  change (Clear pc2) with (Clear pc1).
  destruct (read_loop n f1 reading_init); split; reflexivity || discriminate.
Qed.

Lemma read_ignores_previous_contents_witness :
  snd (ReadPointCloudFromPTS (Some (Sample.unlines ["1"; "0 0 0"])) Sample.no_cloud)
  = snd (ReadPointCloudFromPTS (Some (Sample.unlines ["1"; "0 0 0"]))
           (cloud_of Sample.two_points None None)).
Proof.
  apply (proj2 (read_ignores_previous_contents
                  (Some (Sample.unlines ["1"; "0 0 0"])) Sample.no_cloud
                  (cloud_of Sample.two_points None None))).
  vm_compute. reflexivity.
Defined.

(** X3. The loop reads at most as many lines as the header declares:
    two files with the same header and the same first [num_of_pts] data
    lines are read alike, whatever follows (a short or unparsable line
    after the last declared one is no error). *)
Theorem read_ignores_lines_past_count `{Stdio} (content1 content2 : string)
    (pointcloud : PointCloud) (header : string) (lines1 lines2 : list string)
    (num_of_pts : N) :
  text_lines content1 = header :: lines1 ->
  text_lines content2 = header :: lines2 ->
  sscanf header [Conv_zu] = [ArgU num_of_pts] ->
  take (N.to_nat num_of_pts) lines1 = take (N.to_nat num_of_pts) lines2 ->
  ReadPointCloudFromPTS (Some content1) pointcloud
  = ReadPointCloudFromPTS (Some content2) pointcloud.
Proof.
  intros E1 E2 Hs Ht.
  destruct (N.eq_dec num_of_pts 0%N) as [-> | Hn].
  { rewrite !read_header_fails; [reflexivity| |].
    - rewrite E2. unfold read_header. cbn [ReadLine]. now rewrite Hs.
    - rewrite E1. unfold read_header. cbn [ReadLine]. now rewrite Hs. }
  destruct lines1 as [|f1 r1], lines2 as [|f2 r2].
  - rewrite (read_no_data_line content1 pointcloud header num_of_pts),
      (read_no_data_line content2 pointcloud header num_of_pts)
      by (assumption || lia). reflexivity.
  - rewrite take_nil, take_cons_pos in Ht by lia. discriminate.
  - rewrite take_nil, take_cons_pos in Ht by lia. discriminate.
  - rewrite !take_cons_pos in Ht by lia. injection Ht as <- Ht.
    destruct (count_cases num_of_pts (token_count f1)) as [[Hb Hst] | Hb].
    + rewrite (read_data_lines content1 pointcloud header num_of_pts f1 r1),
        (read_data_lines content2 pointcloud header num_of_pts f1 r2)
        by (assumption || lia).
      now rewrite Ht.
    + now rewrite (read_data_lines_fails content1 pointcloud header num_of_pts f1 r1),
        (read_data_lines_fails content2 pointcloud header num_of_pts f1 r2)
        by (assumption || lia).
Qed.

Lemma read_ignores_lines_past_count_witness :
  ReadPointCloudFromPTS (Some (Sample.unlines ["1"; "0 0 0"])) Sample.no_cloud
  = ReadPointCloudFromPTS (Some (Sample.unlines ["1"; "0 0 0"; "x"; "1 1"]))
      Sample.no_cloud.
Proof.
  apply (read_ignores_lines_past_count
           (Sample.unlines ["1"; "0 0 0"]) (Sample.unlines ["1"; "0 0 0"; "x"; "1 1"])
           Sample.no_cloud (String.append "1" (String LF "")) _ _ 1%N
           eq_refl eq_refl eq_refl).
  reflexivity.
Defined.



(** X5. After a read that ended well, the row of positions of every
    line read holds what the three-number format reads on that line,
    whatever the committed field count: the three numbers when it
    converts, and unwritten cells when it does not. *)
Theorem read_positions_row `{Stdio} (content : string) (pointcloud pc' : PointCloud)
    (header : string) (lines : list string) (num_of_pts : N)
    (j : nat) (line : string) :
  text_lines content = header :: lines ->
  sscanf header [Conv_zu] = [ArgU num_of_pts] ->
  ReadPointCloudFromPTS (Some content) pointcloud = (Done, pc') ->
  lines !! j = Some line -> j < N.to_nat num_of_pts ->
  exists data,
    points pc' = TensorFloat64 [Z.of_N num_of_pts; 3%Z] data /\
    match scan3 line with
    | Some (x, y, z) =>
        data !! (3 * j + 0) = Some (Some x) /\
        data !! (3 * j + 1) = Some (Some y) /\
        data !! (3 * j + 2) = Some (Some z)
    | None =>
        data !! (3 * j + 0) = Some None /\
        data !! (3 * j + 1) = Some None /\
        data !! (3 * j + 2) = Some None
    end.
Proof.
  intros El Hs Hr Hj Hlt.
  destruct lines as [|first rest]; [rewrite lookup_nil in Hj; discriminate|].
  destruct (read_done_rows content pointcloud pc' header num_of_pts first rest
              El Hs Hr) as (Hn & Hnf & ->).
  rewrite committed_points. cbn [state_after r_points].
  eexists. split; [reflexivity|].
  pose proof (lookup_cons_take _ (N.to_nat num_of_pts) j line Hj Hlt) as Hj'.
  set (nf := token_count first) in *.
  assert (forall k, k < 3 ->
            (flat_map (xyz_cells nf) (take (N.to_nat num_of_pts) (first :: rest)) ++
             replicate (3 * (N.to_nat num_of_pts
                             - length (take (N.to_nat num_of_pts) (first :: rest))))
               None) !! (3 * j + k)
            = xyz_cells nf line !! k) as Hrow.
  { intros k Hk. now apply (flat_map_row_lookup (xyz_cells nf) 3 _ _ j line k
                              (xyz_cells_length nf)). }
  rewrite (Hrow 0), (Hrow 1), (Hrow 2) by lia.
  rewrite xyz_cells_scan3.
  destruct (scan3 line) as [[[x y] z]|]; repeat split; reflexivity.
Qed.

Lemma read_positions_row_witness :
  exists data,
    points (snd (ReadPointCloudFromPTS
                   (Some (Sample.unlines ["2"; "0 0 0 5.5"; "1 1 1 x"]))
                   Sample.no_cloud))
    = TensorFloat64 [Z.of_N 2; 3%Z] data /\
    match scan3 (H := Decimal.stdio) (String.append "1 1 1 x" (String LF "")) with
    | Some (x, y, z) =>
        data !! (3 * 1 + 0) = Some (Some x) /\
        data !! (3 * 1 + 1) = Some (Some y) /\
        data !! (3 * 1 + 2) = Some (Some z)
    | None =>
        data !! (3 * 1 + 0) = Some None /\
        data !! (3 * 1 + 1) = Some None /\
        data !! (3 * 1 + 2) = Some None
    end.
Proof.
  apply (read_positions_row
           (Sample.unlines ["2"; "0 0 0 5.5"; "1 1 1 x"]) Sample.no_cloud
           (snd (ReadPointCloudFromPTS
                   (Some (Sample.unlines ["2"; "0 0 0 5.5"; "1 1 1 x"]))
                   Sample.no_cloud))
           (String.append "2" (String LF ""))
           [String.append "0 0 0 5.5" (String LF "");
            String.append "1 1 1 x" (String LF "")] 2%N 1
           (String.append "1 1 1 x" (String LF ""))).
  - reflexivity.
  - reflexivity.
  - apply result_with_status. vm_compute. reflexivity.
  - reflexivity.
  - vm_compute. lia.
Defined.

(** X6. After a read that ended well and set the intensities, the cell
    of every line read holds the fourth number the four-number format
    reads on that line, and is unwritten when that format does not
    convert four numbers, even if the positions of the line were
    stored. *)
Theorem read_intensity_row `{Stdio} (content : string) (pointcloud pc' : PointCloud)
    (header : string) (lines : list string) (num_of_pts : N)
    (j : nat) (line : string) (t : Tensor) :
  text_lines content = header :: lines ->
  sscanf header [Conv_zu] = [ArgU num_of_pts] ->
  ReadPointCloudFromPTS (Some content) pointcloud = (Done, pc') ->
  lines !! j = Some line -> j < N.to_nat num_of_pts ->
  point_attr pc' !! "intensities" = Some t ->
  exists data,
    t = TensorFloat64 [Z.of_N num_of_pts; 1%Z] data /\
    data !! j = Some (match scan4 line with
                      | Some (_, _, _, i) => Some i
                      | None => None
                      end).
Proof.
  intros El Hs Hr Hj Hlt Ht.
  destruct lines as [|first rest]; [rewrite lookup_nil in Hj; discriminate|].
  destruct (read_done_rows content pointcloud pc' header num_of_pts first rest
              El Hs Hr) as (Hn & Hnf & ->).
  rewrite committed_intensities in Ht.
  cbn [state_after r_intensities r_num_of_fields] in Ht.
  set (nf := token_count first) in *.
  destruct (Z.leb_spec 4 nf) as [H4|]; [|discriminate].
  injection Ht as <-. eexists. split; [reflexivity|].
  pose proof (lookup_cons_take _ (N.to_nat num_of_pts) j line Hj Hlt) as Hj'.
  replace j with (1 * j + 0) at 1 by lia.
  rewrite (flat_map_row_lookup (intensity_cells nf) 1 _ _ j line 0
             (intensity_cells_length nf) Hj') by lia.
  rewrite intensity_cells_scan4 by assumption.
  destruct (scan4 line) as [[[[x y] z] i]|]; reflexivity.
Qed.

Lemma read_intensity_row_witness :
  exists data,
    TensorFloat64 (H := Decimal.stdio) [2%Z; 1%Z]
      [Some (55000000000%Z : Sample.number); None]
    = TensorFloat64 [Z.of_N 2; 1%Z] data /\
    data !! 1 = Some (match scan4 (H := Decimal.stdio)
                              (String.append "1 1 1 x" (String LF "")) with
                      | Some (_, _, _, i) => Some i
                      | None => None
                      end).
Proof.
  apply (read_intensity_row
           (Sample.unlines ["2"; "0 0 0 5.5"; "1 1 1 x"]) Sample.no_cloud
           (snd (ReadPointCloudFromPTS
                   (Some (Sample.unlines ["2"; "0 0 0 5.5"; "1 1 1 x"]))
                   Sample.no_cloud))
           (String.append "2" (String LF ""))
           [String.append "0 0 0 5.5" (String LF "");
            String.append "1 1 1 x" (String LF "")] 2%N 1
           (String.append "1 1 1 x" (String LF ""))).
  - reflexivity.
  - reflexivity.
  - apply result_with_status. vm_compute. reflexivity.
  - reflexivity.
  - vm_compute. lia.
  - reflexivity.
Defined.

(** X7. After a read that ended well and set the colors, the row of
    every line read holds the three [int]s the seven-field format
    converts on that line (see [conv_d] for fields outside the range of
    [int]), each reduced modulo 256 by the store into a byte, and is
    unwritten when that format does not convert seven fields, even if
    positions and intensity of the line were stored. *)
Theorem read_color_row `{Stdio} (content : string) (pointcloud pc' : PointCloud)
    (header : string) (lines : list string) (num_of_pts : N)
    (j : nat) (line : string) (t : Tensor) :
  text_lines content = header :: lines ->
  sscanf header [Conv_zu] = [ArgU num_of_pts] ->
  ReadPointCloudFromPTS (Some content) pointcloud = (Done, pc') ->
  lines !! j = Some line -> j < N.to_nat num_of_pts ->
  point_attr pc' !! "colors" = Some t ->
  exists data,
    t = TensorUInt8 [Z.of_N num_of_pts; 3%Z] data /\
    match scan7 line with
    | Some (_, _, _, _, r, g, b) =>
        data !! (3 * j + 0) = Some (Some (r mod 256)%Z) /\
        data !! (3 * j + 1) = Some (Some (g mod 256)%Z) /\
        data !! (3 * j + 2) = Some (Some (b mod 256)%Z)
    | None =>
        data !! (3 * j + 0) = Some None /\
        data !! (3 * j + 1) = Some None /\
        data !! (3 * j + 2) = Some None
    end.
Proof.
  intros El Hs Hr Hj Hlt Ht.
  destruct lines as [|first rest]; [rewrite lookup_nil in Hj; discriminate|].
  destruct (read_done_rows content pointcloud pc' header num_of_pts first rest
              El Hs Hr) as (Hn & Hnf & ->).
  rewrite committed_colors in Ht.
  cbn [state_after r_colors r_num_of_fields] in Ht.
  set (nf := token_count first) in *.
  destruct (Z.leb_spec 7 nf) as [H7|]; [|discriminate].
  injection Ht as <-. eexists. split; [reflexivity|].
  pose proof (lookup_cons_take _ (N.to_nat num_of_pts) j line Hj Hlt) as Hj'.
  rewrite (flat_map_row_lookup (rgb_cells nf) 3 _ _ j line 0
             (rgb_cells_length nf) Hj') by lia.
  rewrite (flat_map_row_lookup (rgb_cells nf) 3 _ _ j line 1
             (rgb_cells_length nf) Hj') by lia.
  rewrite (flat_map_row_lookup (rgb_cells nf) 3 _ _ j line 2
             (rgb_cells_length nf) Hj') by lia.
  rewrite rgb_cells_scan7 by assumption.
  destruct (scan7 line) as [[[[[[[x y] z] i] r] g] b]|]; repeat split; reflexivity.
Qed.

Lemma read_color_row_witness :
  exists data,
    TensorUInt8 (H := Decimal.stdio) [1%Z; 3%Z] [Some 0%Z; Some 255%Z; Some 44%Z]
    = TensorUInt8 [Z.of_N 1; 3%Z] data /\
    match scan7 (H := Decimal.stdio)
            (String.append "0 0 0 5.5 256 -1 300" (String LF "")) with
    | Some (_, _, _, _, r, g, b) =>
        data !! (3 * 0 + 0) = Some (Some (r mod 256)%Z) /\
        data !! (3 * 0 + 1) = Some (Some (g mod 256)%Z) /\
        data !! (3 * 0 + 2) = Some (Some (b mod 256)%Z)
    | None =>
        data !! (3 * 0 + 0) = Some None /\
        data !! (3 * 0 + 1) = Some None /\
        data !! (3 * 0 + 2) = Some None
    end.
Proof.
  apply (read_color_row
           (Sample.unlines ["1"; "0 0 0 5.5 256 -1 300"]) Sample.no_cloud
           (snd (ReadPointCloudFromPTS
                   (Some (Sample.unlines ["1"; "0 0 0 5.5 256 -1 300"]))
                   Sample.no_cloud))
           (String.append "1" (String LF ""))
           [String.append "0 0 0 5.5 256 -1 300" (String LF "")] 1%N 0
           (String.append "0 0 0 5.5 256 -1 300" (String LF ""))).
  - reflexivity.
  - reflexivity.
  - apply result_with_status. vm_compute. reflexivity.
  - reflexivity.
  - vm_compute. lia.
  - reflexivity.
Defined.

(** X8. After a read that ended well, every attribute of the cloud is an
    array with as many rows as the positions, and with one cell per
    element of its shape: the arrays are allocated together, for the
    count the header declares. *)
Theorem read_attribute_rows_match `{Stdio} (file : option string)
    (pointcloud pc' : PointCloud) (key : string) (t : Tensor) :
  ReadPointCloudFromPTS file pointcloud = (Done, pc') ->
  point_attr pc' !! key = Some t ->
  GetLength t = GetLength (points pc') /\
  Z.of_nat (cell_count t) = NumElements (GetShape t) /\
  Z.of_nat (cell_count (points pc')) = NumElements (GetShape (points pc')).
Proof.
  intros Hr Ht.
  apply read_done_inv in Hr
    as (content & header & n & lines & -> & El & Hs & Hn & Hp & ->).
  destruct lines as [|first rest].
  { rewrite take_nil in Ht. cbn in Ht. rewrite lookup_empty in Ht. discriminate. }
  rewrite take_cons_pos in * by lia. cbn [state_after_lines] in *.
  set (later := take (N.to_nat n - 1) rest) in *.
  set (nf := token_count first) in *.
  assert (length (first :: later) <= N.to_nat n) as Hle.
  { subst later. cbn [length]. rewrite length_take. lia. }
  destruct (state_after_points n nf (first :: later) Hle) as (Sp & Cp & _).
  rewrite committed_points. unfold GetLength at 2. rewrite Sp, Cp.
  destruct (decide (key = "intensities")) as [-> | Hki].
  { rewrite committed_intensities in Ht.
    change (r_num_of_fields (state_after n nf (first :: later))) with nf in Ht.
    destruct (Z.leb_spec 4 nf) as [H4|]; [|discriminate].
    assert (t = r_intensities (state_after n nf (first :: later))) as ->
      by congruence.
    destruct (state_after_intensities n nf (first :: later) Hle H4) as (Si & Ci & _).
    unfold GetLength. rewrite Si, Ci. cbn [NumElements foldr]. lia. }
  destruct (decide (key = "colors")) as [-> | Hkc].
  { rewrite committed_colors in Ht.
    change (r_num_of_fields (state_after n nf (first :: later))) with nf in Ht.
    destruct (Z.leb_spec 7 nf) as [H7|]; [|discriminate].
    assert (t = r_colors (state_after n nf (first :: later))) as -> by congruence.
    destruct (state_after_colors n nf (first :: later) Hle H7) as (Sc & Cc & _).
    unfold GetLength. rewrite Sc, Cc. cbn [NumElements foldr]. lia. }
  rewrite committed_other in Ht by assumption. discriminate.
Qed.

Lemma read_attribute_rows_match_witness :
  GetLength (TensorUInt8 (H := Decimal.stdio) [1%Z; 3%Z]
               [Some 0%Z; Some 255%Z; Some 44%Z])
  = GetLength (points (snd (ReadPointCloudFromPTS
                              (Some (Sample.unlines ["1"; "0 0 0 5.5 256 -1 300"]))
                              Sample.no_cloud))) /\
  Z.of_nat (cell_count (TensorUInt8 (H := Decimal.stdio) [1%Z; 3%Z]
                          [Some 0%Z; Some 255%Z; Some 44%Z]))
  = NumElements (GetShape (TensorUInt8 (H := Decimal.stdio) [1%Z; 3%Z]
                             [Some 0%Z; Some 255%Z; Some 44%Z])) /\
  Z.of_nat (cell_count (points (snd (ReadPointCloudFromPTS
                              (Some (Sample.unlines ["1"; "0 0 0 5.5 256 -1 300"]))
                              Sample.no_cloud))))
  = NumElements (GetShape (points (snd (ReadPointCloudFromPTS
                              (Some (Sample.unlines ["1"; "0 0 0 5.5 256 -1 300"]))
                              Sample.no_cloud)))).
Proof.
  apply (read_attribute_rows_match
           (Some (Sample.unlines ["1"; "0 0 0 5.5 256 -1 300"])) Sample.no_cloud
           (snd (ReadPointCloudFromPTS
                   (Some (Sample.unlines ["1"; "0 0 0 5.5 256 -1 300"]))
                   Sample.no_cloud)) "colors").
  - apply result_with_status. vm_compute. reflexivity.
  - reflexivity.
Defined.

(** ** Further properties of the writer *)

(** X9. A write of a cloud of fewer than [2^31] points stops at the
    first [fprintf] that fails and returns false; no further call is
    made.  When the header cannot be written nothing was written, and
    when the line of row [k] cannot be written the calls before wrote
    the header, which still declares all the points, and the lines of
    the rows before [k]. *)
Theorem write_stops_at_failed_fprintf `{Stdio} (env : WriteEnv)
    (pts : list (double * double * double)) (ints : option (list double))
    (cols : option (list (Z * Z * Z))) :
  open_ok env = true -> pts <> [] -> (Z.of_nat (length pts) < 2 ^ 31)%Z ->
  representable (length pts) ints cols ->
  (fails_first_at env 0 ->
   WritePointCloudToPTS env (cloud_of pts ints cols)
   = (Failed WriteUnableToWriteFile, Some "")) /\
  (forall k, k < length pts -> fails_first_at env (S k) ->
   WritePointCloudToPTS env (cloud_of pts ints cols)
   = (Failed WriteUnableToWriteFile,
      Some (foldl String.append (printf_u (N.of_nat (length pts)) +:+ CRLF)
              (take k (rows_text pts ints cols))))).
Proof.
  intros Hopen Hne Hsize Hr. split.
  - intros [_ Hf]. now rewrite write_cloud_steps, Hf by assumption.
  - intros k Hk Hf. apply write_cloud_fail; try assumption. lia.
Qed.

Lemma write_stops_at_failed_fprintf_witness :
  WritePointCloudToPTS (disk_failing_at 2)
    (cloud_of Sample.two_points (Some Sample.two_intensities) None)
  = (Failed WriteUnableToWriteFile,
     Some (foldl String.append
             (printf_u (N.of_nat (length Sample.two_points)) +:+ CRLF)
             (take 1 (rows_text Sample.two_points (Some Sample.two_intensities)
                        None)))).
Proof.
  apply (proj2 (write_stops_at_failed_fprintf (disk_failing_at 2)
                  Sample.two_points (Some Sample.two_intensities) None
                  eq_refl ltac:(discriminate) eq_refl eq_refl) 1).
  - simpl. lia.
  - split; [|reflexivity]. intros j Hj.
    do 2 (destruct j as [|j]; [reflexivity|]). lia.
Defined.

(** X10. The header of a file the writer completed declares exactly the
    number of data lines the file holds: read with [%zu], the first line
    gives the count of the lines after it. *)
Theorem write_header_counts_lines `{Stdio} (env : WriteEnv) (pointcloud : PointCloud)
    (text : string) :
  printf_f10_words ->
  (GetLength (GetPoints pointcloud) < 2 ^ 63)%Z ->
  WritePointCloudToPTS env pointcloud = (Done, Some text) ->
  exists header,
    text_lines text = header :: data_lines text /\
    sscanf header [Conv_zu] = [ArgU (N.of_nat (length (data_lines text)))].
Proof.
  intros Hwords Hsize Hw. unfold WritePointCloudToPTS in Hw.
  destruct (open_ok env); [|discriminate]. cbn [negb] in Hw.
  destruct (IsEmpty pointcloud); [discriminate|].
  destruct (fprintf_fails env 0); [discriminate|].
  destruct (write_rows _ _ _ _ _ _ _ _) as [st out] eqn:Er.
  injection Hw as -> <-.
  apply write_rows_inv in Er as (lines & -> & Hlen & Hend & Hrows).
  specialize (Hend eq_refl).
  assert (Forall (fun line => exists body, line = body +:+ CRLF
                                           /\ no_line_feed body = true) lines) as Hl.
  { apply Forall_forall. intros line Hin.
    apply list_elem_of_lookup in Hin as [j Hj].
    apply Hrows, format_row_layout in Hj. eapply has_layout_line; eassumption. }
  exists (printf_u (Z.to_N (GetLength (GetPoints pointcloud))) +:+ CRLF).
  unfold data_lines. rewrite text_lines_written by assumption. cbn [tail].
  split; [reflexivity|].
  rewrite Hend, Z_nat_N.
  apply sscanf_zu_printf; [|reflexivity].
  change (2 ^ 64)%N with (Z.to_N (2 ^ 64)). lia.
Qed.

Lemma write_header_counts_lines_witness :
  exists header,
    text_lines
      (default ""
         (snd (WritePointCloudToPTS Sample.disk
                 (cloud_of Sample.two_points None None))))
    = header :: data_lines
                  (default ""
                     (snd (WritePointCloudToPTS Sample.disk
                             (cloud_of Sample.two_points None None)))) /\
    sscanf (H := Decimal.stdio) header [Conv_zu]
    = [ArgU (N.of_nat
               (length
                  (data_lines
                     (default ""
                        (snd (WritePointCloudToPTS Sample.disk
                                (cloud_of Sample.two_points None None)))))))].
Proof.
  apply (write_header_counts_lines Sample.disk
           (cloud_of Sample.two_points None None)
           (default ""
              (snd (WritePointCloudToPTS Sample.disk
                      (cloud_of Sample.two_points None None))))
           decimal_words).
  - vm_compute. reflexivity.
  - vm_compute. reflexivity.
Defined.

(** X11. The writer reads three things of a cloud and nothing else: the
    positions, the intensities, and the colors when there are
    intensities.  Setting any other attribute leaves the outcome and the
    text unchanged, and a cloud without intensities is written exactly
    as the same cloud without its colors. *)
Theorem write_reads_three_arrays `{Stdio} (env : WriteEnv) (pointcloud : PointCloud) :
  (forall key t, key <> "intensities" -> key <> "colors" ->
     WritePointCloudToPTS env (SetPointAttr pointcloud key t)
     = WritePointCloudToPTS env pointcloud) /\
  (HasPointAttr pointcloud "intensities" = false ->
   WritePointCloudToPTS env (without_colors pointcloud)
   = WritePointCloudToPTS env pointcloud).
Proof.
  split.
  - intros key t Hi Hc.
    assert (forall k, k <> key ->
              point_attr (SetPointAttr pointcloud key t) !! k
              = point_attr pointcloud !! k) as Hlook.
    { intros k Hk. unfold SetPointAttr. cbn [point_attr].
      now rewrite lookup_insert_ne by congruence. }
    unfold WritePointCloudToPTS, IsEmpty, HasPointColors, GetPointColors,
      HasPointAttr, GetPointAttr, GetPoints.
    rewrite !Hlook by congruence.
    change (points (SetPointAttr pointcloud key t)) with (points pointcloud).
    destruct (negb (open_ok env)); [reflexivity|].
    destruct (bool_decide (GetLength (points pointcloud) = 0%Z)); [reflexivity|].
    destruct (fprintf_fails env 0); [reflexivity|].
    rewrite (write_rows_ext env (SetPointAttr pointcloud key t) pointcloud);
      [reflexivity | |];
      unfold HasPointColors, HasPointAttr; now rewrite Hlook by congruence.
  - intros Hno.
    assert (HasPointAttr (without_colors pointcloud) "intensities" = false) as Hno'.
    { unfold HasPointAttr, without_colors in *. cbn [point_attr].
      now rewrite lookup_delete_ne by discriminate. }
    unfold WritePointCloudToPTS, IsEmpty, GetPoints. rewrite Hno, Hno'.
    change (points (without_colors pointcloud)) with (points pointcloud).
    destruct (negb (open_ok env)); [reflexivity|].
    destruct (bool_decide (GetLength (points pointcloud) = 0%Z)); [reflexivity|].
    destruct (fprintf_fails env 0); [reflexivity|].
    now rewrite (write_rows_positions_only env (without_colors pointcloud) pointcloud
                   (points pointcloud) _
                   (if HasPointColors pointcloud
                    then default TensorEmpty (GetPointColors pointcloud)
                    else TensorEmpty) TensorEmpty TensorEmpty).
Qed.

Lemma write_reads_three_arrays_witness :
  WritePointCloudToPTS Sample.disk
    (SetPointAttr (cloud_of Sample.two_points None None) "normals"
       (points_tensor Sample.two_points))
  = WritePointCloudToPTS Sample.disk (cloud_of Sample.two_points None None) /\
  WritePointCloudToPTS Sample.disk
    (without_colors (cloud_of Sample.two_points None (Some Sample.two_colors)))
  = WritePointCloudToPTS Sample.disk
      (cloud_of Sample.two_points None (Some Sample.two_colors)).
Proof.
  split.
  - apply (proj1 (write_reads_three_arrays Sample.disk
                    (cloud_of Sample.two_points None None)));
      discriminate.
  - apply (proj2 (write_reads_three_arrays Sample.disk
                    (cloud_of Sample.two_points None (Some Sample.two_colors)))).
    reflexivity.
Defined.

(** X14. The loop of the writer counts the rows in an [int]: on a cloud
    of [2^31] points or more, a write that meets no failure writes the
    rows up to row [INT_MAX] and then overflows its counter, so that
    the call has no defined outcome. *)
Theorem write_overflows_counter `{Stdio} (env : WriteEnv)
    (pts : list (double * double * double)) (ints : option (list double))
    (cols : option (list (Z * Z * Z))) :
  io_ok env -> (2 ^ 31 <= Z.of_nat (length pts))%Z ->
  representable (length pts) ints cols ->
  fst (WritePointCloudToPTS env (cloud_of pts ints cols)) = Undefined.
Proof.
  intros [Hopen Hio] Hsize Hr.
  change (2 ^ 31)%Z with 2147483648%Z in Hsize.
  assert (pts <> []) as Hne by (intros ->; simpl in Hsize; lia).
  rewrite write_cloud_steps, Hio by assumption.
  pose proof (rows_text_length pts ints cols Hr) as Hlen.
  pose proof (write_rows_overflow env (cloud_of pts ints cols) (points_tensor pts)
                (default TensorEmpty (colors_tensor <$> cols))
                (default TensorEmpty (intensities_tensor <$> ints))
                (length (rows_text pts ints cols)) 0
                (printf_u (N.of_nat (length pts)) +:+ CRLF) Hio) as Ho.
  destruct (write_rows _ _ _ _ _ _ _ _) as [st out]. apply Ho.
  - int_bounds. lia.
  - intros j Hj.
    destruct (lookup_lt_is_Some_2 (rows_text pts ints cols) j Hj) as [line Hl].
    exists line. now apply format_row_cloud.
Qed.

Lemma write_overflows_counter_witness :
  fst (WritePointCloudToPTS Sample.disk huge_cloud) = Undefined.
Proof.
  apply (write_overflows_counter Sample.disk
           (replicate (Z.to_nat 2147483648) origin) None None).
  - split; [reflexivity | intros k; reflexivity].
  - rewrite length_replicate. lia.
  - exact I.
Defined.

(** ** The reader and the writer together *)




